(** * Device lifecycle and monitoring pipeline: a shallow embedding

    The development follows the Python sources of the repository:

    - [device-management/entities/device.py]        (module [Entities]);
      the lifecycle manager that works on these entities is written from
      the specification (module [Lifecycle])
    - [device-management/services/cache_service.py] (module [CacheService])
    - [device-management/services/rabbitmq_publisher.py]
                                                    (module [RabbitMQPublisher])
    - [monitoring/services/socketio_service.py]     (module [SocketIOService])
    - [monitoring/dal/events_dao.py], [telemetry_dao.py]
                                                    (modules [EventsDAO], [TelemetryDAO])
    - [monitoring/controllers/events_controller.py], [telemetry_controller.py]
                                                    (modules [EventsController],
                                                     [TelemetryController])
    - [monitoring/dto/events_dto.py], [telemetry_dto.py]
                                                    (the response models built
                                                     by [to_response])
    - [monitoring/services/rabbitmq_consumer.py]    (module [RabbitMQConsumer])

    Python values are an inductive type, dictionaries are association lists
    in insertion order, exceptions are an error monad over an explicit state,
    and the services the code talks to (Redis, RabbitMQ, MongoDB, the device
    registry, the clock) answer through records of outcomes.  All model
    definitions come first; the theorems follow in the second half. *)

From Stdlib Require Import ZArith List String Ascii Bool Lia.
From Stdlib Require Import DecimalString DecimalZ.
From stdpp Require Import base list gmap strings sorting.
Import ListNotations.

Local Open Scope Z_scope.
Set Warnings "-register-all".

(* ===================================================================== *)
(** * Python values, dictionaries and exceptions *)
(* ===================================================================== *)

Module Py.

(** The values that travel through the pipeline: what [json.loads] builds,
    plus the [ObjectId] that [insert_one] writes into a document.  JSON
    numbers are the integers; no modelled operation looks inside a
    fractional metric. *)
Inductive value : Type :=
| VNone
| VBool (b : bool)
| VInt (n : Z)
| VStr (s : string)
| VList (l : list value)
| VDict (d : list (string * value))
| VObjectId (oid : string).

(** A [dict] with string keys, in insertion order, keys unique. *)
Definition dict := list (string * value).

(** [bool(v)]: Python truthiness. *)
Definition truthy (v : value) : bool :=
  match v with
  | VNone => false
  | VBool b => b
  | VInt n => negb (n =? 0)
  | VStr s => negb (String.eqb s "")
  | VList l => match l with [] => false | _ => true end
  | VDict d => match d with [] => false | _ => true end
  | VObjectId _ => true
  end.

(** [d.get(k)] *)
Fixpoint dict_get (k : string) (d : dict) : option value :=
  match d with
  | [] => None
  | (k', v) :: d' => if String.eqb k k' then Some v else dict_get k d'
  end.

(** [k in d] *)
Definition dict_contains (k : string) (d : dict) : bool :=
  match dict_get k d with Some _ => true | None => false end.

(** [d.get(k, default)] *)
Definition dict_get_default (k : string) (default : value) (d : dict) : value :=
  match dict_get k d with Some v => v | None => default end.

(** [d[k] = v]: overwrite in place, or append a new key. *)
Fixpoint dict_set (k : string) (v : value) (d : dict) : dict :=
  match d with
  | [] => [(k, v)]
  | (k', v') :: d' =>
      if String.eqb k k' then (k', v) :: d' else (k', v') :: dict_set k v d'
  end.

(** [del d[k]], the dictionary left by [d.pop(k)]. *)
Definition dict_remove (k : string) (d : dict) : dict :=
  List.filter (fun kv => negb (String.eqb k (fst kv))) d.

(** [d.update(other)] *)
Definition dict_update (d other : dict) : dict :=
  fold_left (fun acc kv => dict_set (fst kv) (snd kv) acc) other d.

(** [{k: v for k, v in d.items() if k != key}] *)
Definition dict_without (key : string) (d : dict) : dict :=
  List.filter (fun kv => negb (String.eqb (fst kv) key)) d.

(** Hashable values can be dictionary keys; lists and dicts cannot
    ([TypeError: unhashable type]). *)
Definition hashable (v : value) : bool :=
  match v with
  | VList _ | VDict _ => false
  | _ => true
  end.

(** Key equality of a Python [dict]: [==] on hashable values, where
    [True == 1] and [False == 0]. *)
Definition key_eqb (a b : value) : bool :=
  match a, b with
  | VNone, VNone => true
  | VBool x, VBool y => Bool.eqb x y
  | VBool x, VInt n | VInt n, VBool x => n =? (if x then 1 else 0)
  | VInt n, VInt m => n =? m
  | VStr s, VStr t => String.eqb s t
  | VObjectId s, VObjectId t => String.eqb s t
  | _, _ => false
  end.

(** [json.dumps] refuses an [ObjectId] anywhere in the value. *)
Fixpoint serializable (v : value) : bool :=
  match v with
  | VObjectId _ => false
  | VList l => forallb serializable l
  | VDict d => forallb (fun kv => serializable (snd kv)) d
  | _ => true
  end.

(** What pydantic (version 2, lax mode, the default) makes of a string
    given for an [int] field: the integer it reads, or [None] when it
    refuses the string.  Which strings it reads beside a plain run of
    digits (a sign, surrounding blanks, underscores, a trailing [.0])
    depends on the release of the library, so the reading is left to the
    environment. *)
Class Pydantic : Type := { str_as_int : string -> option Z }.

(** Validation of an [int] field: an [int] is taken as it is, a [bool] as
    0 or 1, a string as the library reads it; [None], lists, objects and
    an [ObjectId] are refused. *)
Definition validate_int {P : Pydantic} (v : value) : option Z :=
  match v with
  | VInt n => Some n
  | VBool b => Some (if b then 1 else 0)
  | VStr s => str_as_int s
  | _ => None
  end.

(** The exceptions of the Redis client, all subclasses of
    [redis.RedisError]. *)
Inductive redis_error : Type :=
| ConnectionError          (* redis.ConnectionError *)
| AuthenticationError      (* subclass of ConnectionError *)
| BusyLoadingError         (* subclass of ConnectionError *)
| TimeoutError             (* redis.TimeoutError *)
| ResponseError.           (* redis.ResponseError *)

(** [isinstance(e, redis.ConnectionError)] *)
Definition is_ConnectionError (e : redis_error) : bool :=
  match e with
  | ConnectionError | AuthenticationError | BusyLoadingError => true
  | _ => false
  end.

(** The exceptions that the modelled code can meet; each one is an
    instance of [Exception]. *)
Inductive exn : Type :=
| JSONDecodeError
| TypeError
| AttributeError
| KeyError
| ValueError
| OverflowError
| ValidationError           (* pydantic *)
| RequestException          (* requests: timeout, connection refused, ... *)
| PyMongoError
| QueueFull                 (* asyncio.QueueFull *)
| AMQPConnectionError       (* pika.exceptions *)
| AMQPChannelError
| RedisError (e : redis_error).

(** The result of running a statement: it returns or it raises. *)
Inductive outcome (A : Type) : Type :=
| Ret (a : A)
| Raise (e : exn).
Arguments Ret {A} a.
Arguments Raise {A} e.

(** Code that mutates a state [S] and may raise: the state reached when an
    exception is raised is kept, as Python keeps every mutation made
    before the [raise]. *)
Definition M (S A : Type) : Type := S -> outcome A * S.

Definition ret {S A} (a : A) : M S A := fun s => (Ret a, s).
Definition raise {S A} (e : exn) : M S A := fun s => (Raise e, s).
Definition bind {S A B} (c : M S A) (k : A -> M S B) : M S B :=
  fun s => match c s with
           | (Ret a, s') => k a s'
           | (Raise e, s') => (Raise e, s')
           end.
Definition get_state {S} : M S S := fun s => (Ret s, s).
Definition modify {S} (f : S -> S) : M S unit := fun s => (Ret tt, f s).

(** [try: c  except <handles> as e: h e] *)
Definition try_except {S A} (c : M S A) (handles : exn -> bool)
           (h : exn -> M S A) : M S A :=
  fun s => match c s with
           | (Ret a, s') => (Ret a, s')
           | (Raise e, s') => if handles e then h e s' else (Raise e, s')
           end.

(** [try: c  finally: f] *)
Definition try_finally {S A} (c : M S A) (f : M S unit) : M S A :=
  fun s => match c s with
           | (r, s') => match f s' with
                        | (Ret _, s'') => (r, s'')
                        | (Raise e, s'') => (Raise e, s'')
                        end
           end.

(** An external call whose result the environment decides. *)
Definition lift_result {S A} (r : outcome A) : M S A := fun s => (r, s).

(** [except Exception] *)
Definition any_Exception (e : exn) : bool := true.

Definition is_RedisError (e : exn) : bool :=
  match e with RedisError _ => true | _ => false end.

End Py.

Import Py.

Declare Scope py_scope.
Delimit Scope py_scope with py.
Notation "x <- c ;; k" := (bind c (fun x => k))
  (at level 100, c at next level, right associativity) : py_scope.
Notation "c ;;; k" := (bind c (fun _ => k))
  (at level 100, right associativity) : py_scope.

Local Open Scope py_scope.

(* ===================================================================== *)
(** * device-management/entities/device.py *)
(* ===================================================================== *)

Module Entities.

(** [class DeviceStatus(PyEnum)] *)
Inductive DeviceStatus : Type :=
| IN_STOCK | RESERVED | DEPLOYED | MAINTENANCE | RETIRED.

(** The [.value] of each member, the string stored in the status column. *)
Definition DeviceStatus_value (s : DeviceStatus) : string :=
  match s with
  | IN_STOCK => "in_stock"
  | RESERVED => "reserved"
  | DEPLOYED => "deployed"
  | MAINTENANCE => "maintenance"
  | RETIRED => "retired"
  end.

(** [list(DeviceStatus)] *)
Definition DeviceStatus_members : list DeviceStatus :=
  [IN_STOCK; RESERVED; DEPLOYED; MAINTENANCE; RETIRED].

(** [DeviceStatus(v)]: the member whose value is [v]; any other string
    raises [ValueError]. *)
Definition DeviceStatus_of_value (v : string) : outcome DeviceStatus :=
  match List.find (fun s => String.eqb (DeviceStatus_value s) v)
                  DeviceStatus_members with
  | Some s => Ret s
  | None => Raise ValueError
  end.

(** [class DeviceType(PyEnum)] *)
Inductive DeviceType : Type :=
| SENSOR | GATEWAY | ACTUATOR | CONTROLLER
| IOT_SENSOR | IOT_GATEWAY | IOT_ACTUATOR
| COMPUTER | SERVER | EDGE_DEVICE | GPU_NODE
| OTHER.

(** [class Device(Base)], table [t_devices]. *)
Record Device : Type := {
  id : Z;
  name : string;
  type : DeviceType;
  serial_number : string;
  description : option string;
  status : DeviceStatus;
  location : option string;
  specifications : option string;
  purchase_date : option string;
  deploy_date : option string;
  last_maintenance_date : option string;
  created_at : string;
  updated_at : string
}.

(** [class DeviceLog(Base)], table [t_device_logs]. *)
Record DeviceLog : Type := {
  log_device_id : Z;
  action : string;
  old_status : option string;
  new_status : option string;
  performed_by : option Z;
  notes : option string;
  log_created_at : string
}.

(** The [.value] of each [DeviceType] member. *)
Definition DeviceType_value (t : DeviceType) : string :=
  match t with
  | SENSOR => "sensor"
  | GATEWAY => "gateway"
  | ACTUATOR => "actuator"
  | CONTROLLER => "controller"
  | IOT_SENSOR => "iot_sensor"
  | IOT_GATEWAY => "iot_gateway"
  | IOT_ACTUATOR => "iot_actuator"
  | COMPUTER => "computer"
  | SERVER => "server"
  | EDGE_DEVICE => "edge_device"
  | GPU_NODE => "gpu_node"
  | OTHER => "other"
  end.

(** [list(DeviceType)], in definition order. *)
Definition DeviceType_members : list DeviceType :=
  [SENSOR; GATEWAY; ACTUATOR; CONTROLLER; IOT_SENSOR; IOT_GATEWAY;
   IOT_ACTUATOR; COMPUTER; SERVER; EDGE_DEVICE; GPU_NODE; OTHER].

(** [DeviceType(v)] (in the source, [cls(normalized)]): the member whose
    value is [v], [ValueError] for any other string. *)
Definition DeviceType_of_value (v : string) : outcome DeviceType :=
  match List.find (fun t => String.eqb (DeviceType_value t) v)
                  DeviceType_members with
  | Some t => Ret t
  | None => Raise ValueError
  end.

(** The [legacy_mapping] dictionary of [normalize]. *)
Definition legacy_mapping : list (string * string) :=
  [("sensor", "iot_sensor"); ("gateway", "iot_gateway");
   ("actuator", "iot_actuator"); ("controller", "computer")].

(** [legacy_mapping.get(value, value)] *)
Fixpoint mapping_get (m : list (string * string)) (key default : string)
  : string :=
  match m with
  | [] => default
  | (k, v) :: m' => if String.eqb key k then v else mapping_get m' key default
  end.

(** [DeviceType.normalize(value)] *)
Definition normalize (value : string) : DeviceType :=
  let normalized := mapping_get legacy_mapping value value in
  match DeviceType_of_value normalized with
  | Ret t => t
  | Raise _ => OTHER       (* except ValueError: return cls.OTHER *)
  end.

(** The [is_iot] property. *)
Definition is_iot (t : DeviceType) : bool :=
  match t with
  | SENSOR | GATEWAY | ACTUATOR | IOT_SENSOR | IOT_GATEWAY | IOT_ACTUATOR => true
  | _ => false
  end.

(** The [is_system] property. *)
Definition is_system (t : DeviceType) : bool :=
  match t with
  | CONTROLLER | COMPUTER | SERVER | EDGE_DEVICE | GPU_NODE => true
  | _ => false
  end.

(** The members kept for backward compatibility only. *)
Definition is_legacy (t : DeviceType) : bool :=
  match t with
  | SENSOR | GATEWAY | ACTUATOR | CONTROLLER => true
  | _ => false
  end.

End Entities.

(* ===================================================================== *)
(** * The Device Lifecycle Manager (specification section 4.1)

    The controller that performs status transitions is not among the source
    files; only the entities it works on are.  The state machine and the
    transition operation below are therefore written from the
    specification. *)
(* ===================================================================== *)

Module Lifecycle.
Import Entities.

Inductive error : Type :=
| NotFound
| DuplicateSerial
| InvalidTransition
| MissingLocation.   (* "deploying requires a location": section 4.1 names
                        no error kind for it *)

(** Modelled from the spec: the state machine table of section 4.1 (the
    lifecycle controller is missing from the sources). *)
Definition allowed (from to : DeviceStatus) : bool :=
  match from, to with
  | IN_STOCK, (RESERVED | DEPLOYED | RETIRED) => true
  | RESERVED, (IN_STOCK | DEPLOYED | RETIRED) => true
  | DEPLOYED, (MAINTENANCE | IN_STOCK | RETIRED) => true
  | MAINTENANCE, (IN_STOCK | DEPLOYED | RETIRED) => true
  | _, _ => false
  end.

(** The lifecycle event emitted after a successful transition. *)
Record LifecycleEvent : Type := {
  ev_device_id : Z;
  ev_old_status : DeviceStatus;
  ev_new_status : DeviceStatus;
  ev_location : option string
}.

(** The four collaborators of the manager: the Device Store, the Audit
    Log, the Read Cache (single-device entries and the collection entry)
    and the events handed to the Publisher. *)
Record system : Type := {
  devices : gmap Z Device;
  audit_log : list DeviceLog;
  cache_single : gmap Z string;
  cache_collection : option string;
  emitted : list LifecycleEvent
}.

(** The atomic store update of a transition: new status, optional
    location, and the date field the target status sets. *)
Definition apply_transition (now : string) (d : Device)
           (target : DeviceStatus) (loc : option string) : Device :=
  {| id := id d; name := name d; type := type d;
     serial_number := serial_number d; description := description d;
     status := target;
     location :=
       match status d, target with
       | DEPLOYED, IN_STOCK => loc                (* recall: clear or replace *)
       | _, _ => match loc with Some l => Some l | None => location d end
       end;
     specifications := specifications d;
     purchase_date := purchase_date d;
     deploy_date :=
       match target with DEPLOYED => Some now | _ => deploy_date d end;
     last_maintenance_date :=
       match target with
       | MAINTENANCE => Some now
       | _ => last_maintenance_date d
       end;
     created_at := created_at d; updated_at := now |}.

(** Modelled from the spec: [transition(deviceId, targetStatus, location?,
    notes?)] of section 4.1 (the lifecycle controller is missing from the
    sources).  [publish_ok] is the answer of the best-effort publish: a
    failed publish drops the event and does not roll the transition
    back. *)
Definition transition (now : string) (publish_ok : bool) (actor : option Z)
           (sys : system) (deviceId : Z) (target : DeviceStatus)
           (loc notes : option string) : (error + Device) * system :=
  match devices sys !! deviceId with
  | None => (inl NotFound, sys)
  | Some d =>
      if negb (allowed (status d) target) then (inl InvalidTransition, sys)
      else
        match target, loc with
        | DEPLOYED, None => (inl MissingLocation, sys)
        | _, _ =>
            let d' := apply_transition now d target loc in
            (inr d',
             {| devices := <[deviceId := d']> (devices sys);
                audit_log :=
                  audit_log sys ++
                  [{| log_device_id := deviceId;
                      action := "status_change";
                      old_status := Some (DeviceStatus_value (status d));
                      new_status := Some (DeviceStatus_value target);
                      performed_by := actor;
                      notes := notes;
                      log_created_at := now |}];
                cache_single := delete deviceId (cache_single sys);
                cache_collection := None;
                emitted :=
                  if publish_ok
                  then emitted sys ++
                       [{| ev_device_id := deviceId;
                           ev_old_status := status d;
                           ev_new_status := target;
                           ev_location := location d' |}]
                  else emitted sys |})
        end
  end.

End Lifecycle.

(* ===================================================================== *)
(** * Logging and the clock *)
(* ===================================================================== *)

Module Logging.
Inductive level : Type := INFO | WARNING | ERROR.
(** A record written through [logger]: its level and the fixed part of the
    message. *)
Definition record : Type := (level * string)%type.
End Logging.

Module Datetime.

(** A naive [datetime.datetime]. *)
Record datetime : Type := {
  year : Z; month : Z; day : Z;
  hour : Z; minute : Z; second : Z; microsecond : Z
}.

Definition is_leap (y : Z) : bool :=
  ((y mod 4 =? 0) && negb (y mod 100 =? 0)) || (y mod 400 =? 0).

Definition days_in_month (y m : Z) : Z :=
  if m =? 2 then (if is_leap y then 29 else 28)
  else if (m =? 4) || (m =? 6) || (m =? 9) || (m =? 11) then 30
  else 31.

(** The values the constructor accepts. *)
Definition valid (dt : datetime) : bool :=
  (1 <=? year dt) && (year dt <=? 9999) &&
  (1 <=? month dt) && (month dt <=? 12) &&
  (1 <=? day dt) && (day dt <=? days_in_month (year dt) (month dt)) &&
  (0 <=? hour dt) && (hour dt <=? 23) &&
  (0 <=? minute dt) && (minute dt <=? 59) &&
  (0 <=? second dt) && (second dt <=? 59) &&
  (0 <=? microsecond dt) && (microsecond dt <=? 999999).

(** [dt.replace(day=d)]: the argument is first converted to a C [int],
    which raises [OverflowError] outside [-2^31, 2^31 - 1]; then a new
    datetime is built through the constructor, which raises [ValueError]
    ("day is out of range for month") unless [1 <= d <= days_in_month]. *)
Definition fits_c_int (d : Z) : bool := (- 2 ^ 31 <=? d) && (d <=? 2 ^ 31 - 1).

Definition replace_day (dt : datetime) (d : Z) : outcome datetime :=
  if negb (fits_c_int d) then Raise OverflowError
  else if (1 <=? d) && (d <=? days_in_month (year dt) (month dt))
  then Ret {| year := year dt; month := month dt; day := d;
              hour := hour dt; minute := minute dt; second := second dt;
              microsecond := microsecond dt |}
  else Raise ValueError.

Definition digit (n : Z) : ascii := ascii_of_nat (48 + Z.to_nat (n mod 10)).

(** [n] in decimal on [width] digits, zero padded ("%0<width>d"). *)
Fixpoint pad (width : nat) (n : Z) : string :=
  match width with
  | O => ""
  | S w => pad w (n / 10) +:+ String (digit n) ""
  end.

(** [dt.isoformat()]: "YYYY-MM-DDTHH:MM:SS", followed by ".ffffff" when
    the microsecond is not zero. *)
Definition isoformat (dt : datetime) : string :=
  pad 4 (year dt) +:+ "-" +:+ pad 2 (month dt) +:+ "-" +:+ pad 2 (day dt)
  +:+ "T" +:+ pad 2 (hour dt) +:+ ":" +:+ pad 2 (minute dt) +:+ ":"
  +:+ pad 2 (second dt)
  +:+ (if microsecond dt =? 0 then "" else "." +:+ pad 6 (microsecond dt)).

(** Days since 0001-01-01 (the proleptic Gregorian ordinal minus one),
    used to say what "[days] days before" means. *)
Definition days_before_year (y : Z) : Z :=
  let y' := y - 1 in y' * 365 + y' / 4 - y' / 100 + y' / 400.

(** Days of year [y] that precede month [m]. *)
Definition days_before_month (y m : Z) : Z :=
  foldr Z.add 0 (days_in_month y <$> seqZ 1 (m - 1)).

Definition toordinal (dt : datetime) : Z :=
  days_before_year (year dt) + days_before_month (year dt) (month dt)
  + day dt.

End Datetime.

(* ===================================================================== *)
(** * The document store (pymongo collections) *)
(* ===================================================================== *)

Module Mongo.

(** A collection: its documents in insertion order. *)
Definition collection : Type := list dict.

(** The query operators the data access objects use: equality with an
    integer, equality with a string, and [{"$lt": s}] for a string. *)
Inductive condition : Type :=
| EqInt (n : Z)
| EqStr (s : string)
| LtStr (s : string).

(** A filter document, field by field. *)
Definition query : Type := list (string * condition).

Definition scalar_matches (c : condition) (v : value) : bool :=
  match c, v with
  | EqInt n, VInt m => n =? m
  | EqStr s, VStr t => String.eqb s t
  | LtStr s, VStr t => String.ltb t s
  | _, _ => false
  end.

(** A field matches when its value does, or when it is an array with a
    matching element; a missing field matches none of these operators.
    Comparison operators match values of their own type only. *)
Definition field_matches (c : condition) (fv : option value) : bool :=
  match fv with
  | None => false
  | Some (VList l) => existsb (scalar_matches c) l
  | Some v => scalar_matches c v
  end.

Definition matches (q : query) (doc : dict) : bool :=
  forallb (fun fc => field_matches (snd fc) (dict_get (fst fc) doc)) q.

(** [collection.find(q)] *)
Definition find (q : query) (coll : collection) : list dict :=
  List.filter (matches q) coll.

(** The place of a field value in the store's sort order: the order of the
    BSON types (null and missing, numbers, strings, objects, arrays,
    ObjectId, booleans), then the number or the string itself.  Objects
    and arrays are placed by their type alone. *)
Definition sort_key (fv : option value) : Z * Z * string :=
  match fv with
  | None | Some VNone => (1, 0, "")
  | Some (VInt n) => (2, n, "")
  | Some (VStr s) => (3, 0, s)
  | Some (VDict _) => (4, 0, "")
  | Some (VList _) => (5, 0, "")
  | Some (VObjectId s) => (7, 0, s)
  | Some (VBool b) => (8, if b then 1 else 0, "")
  end.

Definition key_leb (a b : Z * Z * string) : bool :=
  match a, b with
  | (r1, n1, s1), (r2, n2, s2) =>
      if r1 <? r2 then true else if r2 <? r1 then false
      else if n1 <? n2 then true else if n2 <? n1 then false
      else String.leb s1 s2
  end.

(** [d1] may come before [d2] in [sort(field, -1)]. *)
Definition desc_by (field : string) (d1 d2 : dict) : Prop :=
  key_leb (sort_key (dict_get field d2)) (sort_key (dict_get field d1)) = true.

#[global] Instance desc_by_dec field : RelDecision (desc_by field).
Proof. intros d1 d2. unfold desc_by. apply _. Defined.

(** [cursor.sort(field, -1)] *)
Definition sort_desc (field : string) (docs : list dict) : list dict :=
  merge_sort (desc_by field) docs.

(** [cursor.limit(n)]: zero means no limit, a negative [n] is read as
    its absolute value. *)
Definition limit (n : Z) (docs : list dict) : list dict :=
  if n =? 0 then docs else firstn (Z.abs_nat n) docs.

(** [collection.delete_many(q)]: the documents left and
    [result.deleted_count]. *)
Definition delete_many (q : query) (coll : collection) : collection * Z :=
  (List.filter (fun doc => negb (matches q doc)) coll,
   Z.of_nat (length (find q coll))).

(** What the driver and the server contribute to an [insert_one]: the
    [ObjectId] the driver makes up for a document without ["_id"], and the
    error, if any, with which the write fails (server unreachable,
    duplicate key, ...). *)
Record insert_env : Type := {
  new_object_id : string;
  insert_error : option exn
}.

(** [collection.insert_one(doc)]: the driver first writes a fresh ["_id"]
    into [doc] itself when it has none, then sends it.  Returns the
    document as the caller now sees it and [result.inserted_id]. *)
Definition with_id (env : insert_env) (doc : dict) : dict :=
  if dict_contains "_id" doc then doc
  else dict_set "_id" (VObjectId (new_object_id env)) doc.

Definition insert_one (env : insert_env) (doc : dict)
  : M collection (dict * value) :=
  fun coll =>
    let doc' := with_id env doc in
    match insert_error env with
    | Some e => (Raise e, coll)
    | None => (Ret (doc', dict_get_default "_id" VNone doc'), coll ++ [doc'])
    end.

End Mongo.

(* ===================================================================== *)
(** * [asyncio.Queue] *)
(* ===================================================================== *)

Module Asyncio.

(** A queue of broadcast items [(event, data)].  [maxsize <= 0] means the
    queue is unbounded. *)
Record Queue : Type := {
  maxsize : Z;
  items : list (string * dict)
}.

(** [asyncio.Queue(maxsize=0)] *)
Definition new_Queue (maxsize : Z) : Queue :=
  {| maxsize := maxsize; items := [] |}.

Definition qsize (q : Queue) : Z := Z.of_nat (length (items q)).

(** [q.full()] *)
Definition full (q : Queue) : bool :=
  if maxsize q <=? 0 then false else maxsize q <=? qsize q.

(** [q.put_nowait(item)]: raises [QueueFull] when the queue is full,
    never waits. *)
Definition put_nowait (item : string * dict) (q : Queue) : outcome Queue :=
  if full q then Raise QueueFull
  else Ret {| maxsize := maxsize q; items := items q ++ [item] |}.

End Asyncio.

(* ===================================================================== *)
(** * The monitoring service: its module-level objects *)
(* ===================================================================== *)

Module Monitoring.

Inductive collection_name : Type := TELEMETRY_COLLECTION | DEVICE_EVENTS_COLLECTION.

(** What the service does to the outside, in the order it does it. *)
Inductive action : Type :=
| Log (r : Logging.record)
| HttpGet (device_id : value)                 (* requests.get(.../type, timeout=5) *)
| InsertOne (c : collection_name) (doc : dict)  (* the write is attempted *)
| BasicAck (delivery_tag : Z).

(** [dal.mongo_client.telemetry_collection] and [events_collection],
    [rabbitmq_consumer._device_type_cache] (a dict, kept as its items),
    [socketio_service._broadcast_queue], and the consumer's
    [_socketio_callback]: [None] while the attribute is not set,
    [Some tt] once [main.lifespan] has set it to [socketio_emit]. *)
Record state : Type := {
  telemetry_collection : Mongo.collection;
  events_collection : Mongo.collection;
  _device_type_cache : list (value * value);
  _broadcast_queue : Asyncio.Queue;
  _socketio_callback : option unit;
  trace : list action
}.

Definition set_telemetry (c : Mongo.collection) (s : state) : state :=
  {| telemetry_collection := c; events_collection := events_collection s;
     _device_type_cache := _device_type_cache s;
     _broadcast_queue := _broadcast_queue s;
     _socketio_callback := _socketio_callback s; trace := trace s |}.

Definition set_events (c : Mongo.collection) (s : state) : state :=
  {| telemetry_collection := telemetry_collection s; events_collection := c;
     _device_type_cache := _device_type_cache s;
     _broadcast_queue := _broadcast_queue s;
     _socketio_callback := _socketio_callback s; trace := trace s |}.

Definition set_cache (c : list (value * value)) (s : state) : state :=
  {| telemetry_collection := telemetry_collection s;
     events_collection := events_collection s;
     _device_type_cache := c;
     _broadcast_queue := _broadcast_queue s;
     _socketio_callback := _socketio_callback s; trace := trace s |}.

Definition set_queue (q : Asyncio.Queue) (s : state) : state :=
  {| telemetry_collection := telemetry_collection s;
     events_collection := events_collection s;
     _device_type_cache := _device_type_cache s;
     _broadcast_queue := q;
     _socketio_callback := _socketio_callback s; trace := trace s |}.

Definition emit (a : action) (s : state) : state :=
  {| telemetry_collection := telemetry_collection s;
     events_collection := events_collection s;
     _device_type_cache := _device_type_cache s;
     _broadcast_queue := _broadcast_queue s;
     _socketio_callback := _socketio_callback s; trace := trace s ++ [a] |}.

Definition do (a : action) : M state unit := modify (emit a).
Definition log (l : Logging.level) (msg : string) : M state unit :=
  do (Log (l, msg)).

(** The state right after import and [SocketIOService.__init__]: empty
    collections are not assumed, the queue is [asyncio.Queue()]. *)
Definition initial (telemetry events : Mongo.collection) : state :=
  {| telemetry_collection := telemetry; events_collection := events;
     _device_type_cache := [];
     _broadcast_queue := Asyncio.new_Queue 0;
     _socketio_callback := None; trace := [] |}.

(** What the environment answers during one call. *)
Inductive http_result : Type :=
| Response (status_code : Z) (json : outcome value)   (* [response.json()] *)
| RequestFailed (e : exn).  (* timeout after 5 s, connection refused, ... *)

Record env : Type := {
  utcnow : Datetime.datetime;
  json_loads : string -> outcome value;
  requests_get_type : value -> http_result;
  mongo : Mongo.insert_env
}.

(** [datetime.utcnow().isoformat()] *)
Definition now_iso (e : env) : value := VStr (Datetime.isoformat (utcnow e)).

(** [if "timestamp" not in data: data["timestamp"] = datetime.utcnow().isoformat()],
    the first statement of both [insert] methods. *)
Definition ensure_timestamp (e : env) (data : dict) : dict :=
  if negb (dict_contains "timestamp" data)
  then dict_set "timestamp" (now_iso e) data else data.

End Monitoring.

(* ===================================================================== *)
(** * monitoring/services/socketio_service.py *)
(* ===================================================================== *)

Module SocketIOService.
Import Monitoring.

(** [__init__]: [self._broadcast_queue = asyncio.Queue()] *)
Definition __init__ : Asyncio.Queue := Asyncio.new_Queue 0.

(** [queue_broadcast(self, event, data)] *)
Definition queue_broadcast (event : string) (data : dict) : M state unit :=
  try_except
    (log Logging.INFO "Queueing event for broadcast" ;;;
     st <- get_state ;;
     q <- lift_result (Asyncio.put_nowait (event, data) (_broadcast_queue st)) ;;
     modify (set_queue q))
    any_Exception
    (fun e => log Logging.ERROR "Error queueing broadcast").

(** One turn of [_broadcast_loop]: take the oldest item off the queue and
    emit it to the connected clients; [None] when the loop would wait. *)
Definition _broadcast_loop_step (s : state) : option ((string * dict) * state) :=
  match Asyncio.items (_broadcast_queue s) with
  | [] => None
  | item :: rest =>
      Some (item,
            set_queue {| Asyncio.maxsize := Asyncio.maxsize (_broadcast_queue s);
                         Asyncio.items := rest |} s)
  end.

(** A run of [_broadcast_loop]: each turn awaits an item, logs, emits it to
    the connected clients and logs again; an exception raised by the emit
    is logged and the loop goes on with the next item.  [emits] gives, turn
    by turn, the exception the emit raises, if any; the run stops when the
    queue is empty (the loop waits) or when [emits] is exhausted (the task
    is cancelled).  Returns the items that were emitted.  The two records
    logged when the loop starts and when it is cancelled are left out. *)
Fixpoint _broadcast_loop (emits : list (option exn)) (s : state)
  : list (string * dict) * state :=
  match emits with
  | [] => ([], s)
  | result :: emits' =>
      match _broadcast_loop_step s with
      | None => ([], s)
      | Some (item, s1) =>
          let s2 := emit (Log (Logging.INFO, "Broadcasting event to all clients")) s1 in
          match result with
          | None =>
              let '(sent, s') :=
                _broadcast_loop emits'
                  (emit (Log (Logging.INFO, "Successfully broadcasted")) s2) in
              (item :: sent, s')
          | Some _ =>
              _broadcast_loop emits'
                (emit (Log (Logging.ERROR, "Socket.IO broadcast error")) s2)
          end
      end
  end.

End SocketIOService.

(* ===================================================================== *)
(** * monitoring/dal/events_dao.py and monitoring/dto/events_dto.py *)
(* ===================================================================== *)

Module EventsDAO.
Import Monitoring.

(** [class EventResponse(BaseModel)].  [id] is [str(doc["_id"])]; the
    model keeps the identifier itself and leaves its rendering out. *)
Record EventResponse : Type := {
  id : value;
  device_id : Z;
  event_type : string;
  timestamp : string;
  details : dict
}.

(** [EventsDAO.insert(data)]: returns the inserted id and [data] as the
    caller sees it afterwards (with ["timestamp"] and ["_id"] written
    into it). *)
Definition insert (e : env) (data : dict) : M state (value * dict) :=
  let data := ensure_timestamp e data in
  do (InsertOne DEVICE_EVENTS_COLLECTION data) ;;;
  st <- get_state ;;
  match Mongo.insert_one (mongo e) data (events_collection st) with
  | (Raise x, _) => raise x
  | (Ret (data', inserted_id), coll') =>
      modify (set_events coll') ;;;
      log Logging.INFO "Device event stored" ;;;
      ret (inserted_id, data')
  end.

(** The filter that [get_all] builds: a condition is added only for an
    argument that is truthy. *)
Definition get_all_query (device_id : option Z) (event_type : option string)
  : Mongo.query :=
  (match device_id with
   | Some n => if negb (n =? 0) then [("device_id", Mongo.EqInt n)] else []
   | None => []
   end) ++
  (match event_type with
   | Some t => if negb (String.eqb t "") then [("event_type", Mongo.EqStr t)] else []
   | None => []
   end).

(** [EventResponse(id=str(doc["_id"]), device_id=doc["device_id"],
    event_type=doc.get("event_type", ""), timestamp=doc["timestamp"],
    details=doc.get("details", {}))]: a missing key raises [KeyError]
    while the arguments are evaluated; then the model validates them, in
    pydantic's lax mode: [device_id: int] takes what [validate_int] reads
    as an integer, [event_type: str] and [timestamp: str] take a string
    only, [details: Dict[str, Any]] an object only. *)
Definition to_response {P : Pydantic} (doc : dict) : outcome EventResponse :=
  match dict_get "_id" doc, dict_get "device_id" doc, dict_get "timestamp" doc with
  | Some i, Some dev, Some ts =>
      match validate_int dev, dict_get_default "event_type" (VStr "") doc, ts,
            dict_get_default "details" (VDict []) doc with
      | Some n, VStr ty, VStr t, VDict det =>
          Ret {| id := i; device_id := n; event_type := ty;
                 timestamp := t; details := det |}
      | _, _, _, _ => Raise ValidationError
      end
  | _, _, _ => Raise KeyError
  end.

(** [for doc in cursor: results.append(...)] *)
Fixpoint collect {A} (f : dict -> outcome A) (cursor : list dict)
  : outcome (list A) :=
  match cursor with
  | [] => Ret []
  | doc :: rest =>
      match f doc with
      | Raise e => Raise e
      | Ret r => match collect f rest with
                 | Raise e => Raise e
                 | Ret rs => Ret (r :: rs)
                 end
      end
  end.

(** The cursor of [get_all]: [find(query).sort("timestamp", -1).limit(limit)] *)
Definition get_all_cursor (coll : Mongo.collection) (device_id : option Z)
           (event_type : option string) (limit : Z) : list dict :=
  Mongo.limit limit
    (Mongo.sort_desc "timestamp"
       (Mongo.find (get_all_query device_id event_type) coll)).

(** [EventsDAO.get_all(device_id=None, event_type=None, limit=100)], read
    against the collection [coll]. *)
Definition get_all {P : Pydantic} (coll : Mongo.collection)
           (device_id : option Z) (event_type : option string) (limit : Z)
  : outcome (list EventResponse) :=
  collect to_response (get_all_cursor coll device_id event_type limit).

(** [EventsDAO.get_by_type(event_type, limit=100)] *)
Definition get_by_type {P : Pydantic} (coll : Mongo.collection)
           (event_type : string) (limit : Z) : outcome (list EventResponse) :=
  collect to_response
    (Mongo.limit limit
       (Mongo.sort_desc "timestamp"
          (Mongo.find [("event_type", Mongo.EqStr event_type)] coll))).

(** [EventsDAO.delete_old_data(days=30)] at the instant [now]. *)
Definition delete_old_data (now : Datetime.datetime) (days : Z) : M state Z :=
  let cutoff_date := now in
  cutoff_date <- lift_result
    (Datetime.replace_day cutoff_date (Datetime.day cutoff_date - days)) ;;
  st <- get_state ;;
  let '(remaining, deleted_count) :=
    Mongo.delete_many
      [("timestamp", Mongo.LtStr (Datetime.isoformat cutoff_date))]
      (events_collection st) in
  modify (set_events remaining) ;;;
  log Logging.INFO "Deleted old event records" ;;;
  ret deleted_count.

End EventsDAO.

(* ===================================================================== *)
(** * monitoring/controllers/events_controller.py *)
(* ===================================================================== *)

Module EventsController.

(** What the HTTP layer answers: the handler's result, a 422 for a query
    parameter outside its declared bounds, a 500 for an exception the
    handler lets escape. *)
Inductive http_response (A : Type) : Type :=
| OK (body : A)
| UnprocessableEntity
| InternalServerError (e : exn).
Arguments OK {A} body.
Arguments UnprocessableEntity {A}.
Arguments InternalServerError {A} e.

(** [get_events(device_id=Query(None), event_type=Query(None),
    limit=Query(100, ge=1, le=1000))] *)
Definition get_events {P : Pydantic} (coll : Mongo.collection)
           (device_id : option Z) (event_type : option string) (limit : Z)
  : http_response (list EventsDAO.EventResponse) :=
  if (1 <=? limit) && (limit <=? 1000) then
    match EventsDAO.get_all coll device_id event_type limit with
    | Ret rs => OK rs
    | Raise e => InternalServerError e
    end
  else UnprocessableEntity.

End EventsController.

(* ===================================================================== *)
(** * monitoring/dal/telemetry_dao.py and monitoring/dto/telemetry_dto.py *)
(* ===================================================================== *)

Module TelemetryDAO.
Import Monitoring.

(** [class TelemetryResponse(BaseModel)], [extra = "allow"]: the declared
    fields and the extra ones.  As for events, [id] keeps the identifier
    itself. *)
Record TelemetryResponse : Type := {
  id : value;
  device_id : Z;
  device_name : option string;
  timestamp : string;
  location : option string;
  extra : dict
}.

(** [TelemetryDAO.insert(data)] *)
Definition insert (e : env) (data : dict) : M state (value * dict) :=
  let data := ensure_timestamp e data in
  do (InsertOne TELEMETRY_COLLECTION data) ;;;
  st <- get_state ;;
  match Mongo.insert_one (mongo e) data (telemetry_collection st) with
  | (Raise x, _) => raise x
  | (Ret (data', inserted_id), coll') =>
      modify (set_telemetry coll') ;;;
      log Logging.INFO "Telemetry stored" ;;;
      ret (inserted_id, data')
  end.

Definition get_all_query (device_id : option Z) (device_type : option string)
  : Mongo.query :=
  (match device_id with
   | Some n => if negb (n =? 0) then [("device_id", Mongo.EqInt n)] else []
   | None => []
   end) ++
  (match device_type with
   | Some t => if negb (String.eqb t "") then [("device_type", Mongo.EqStr t)] else []
   | None => []
   end).

(** An [Optional[str]] field. *)
Definition optional_str (v : value) : outcome (option string) :=
  match v with
  | VNone => Ret None
  | VStr s => Ret (Some s)
  | _ => Raise ValidationError
  end.

(** The body of the loop of [get_all]: five [pop]s (the first three raise
    [KeyError] on a missing key), then the constructor call with the rest
    of the document as keyword arguments; a remaining key ["id"] collides
    with the explicit argument ([TypeError]).  The model then validates in
    pydantic's lax mode: [device_id: int] takes what [validate_int] reads
    as an integer, [timestamp: str] a string only, the two optional
    strings a string or [None]; the extra fields are taken as they are. *)
Definition to_response {P : Pydantic} (doc : dict) : outcome TelemetryResponse :=
  match dict_get "_id" doc with
  | None => Raise KeyError
  | Some i =>
    let doc := dict_remove "_id" doc in
    match dict_get "device_id" doc with
    | None => Raise KeyError
    | Some dev =>
      let doc := dict_remove "device_id" doc in
      match dict_get "timestamp" doc with
      | None => Raise KeyError
      | Some ts =>
        let doc := dict_remove "timestamp" doc in
        let device_name := dict_get_default "device_name" VNone doc in
        let doc := dict_remove "device_name" doc in
        let location := dict_get_default "location" VNone doc in
        let doc := dict_remove "location" doc in
        if dict_contains "id" doc then Raise TypeError
        else
          match validate_int dev, ts, optional_str device_name,
                optional_str location with
          | Some n, VStr t, Ret dn, Ret loc =>
              Ret {| id := i; device_id := n; device_name := dn;
                     timestamp := t; location := loc; extra := doc |}
          | _, _, _, _ => Raise ValidationError
          end
      end
    end
  end.

Definition get_all_cursor (coll : Mongo.collection) (device_id : option Z)
           (device_type : option string) (limit : Z) : list dict :=
  Mongo.limit limit
    (Mongo.sort_desc "timestamp"
       (Mongo.find (get_all_query device_id device_type) coll)).

(** [TelemetryDAO.get_all(device_id=None, device_type=None, limit=100)] *)
Definition get_all {P : Pydantic} (coll : Mongo.collection)
           (device_id : option Z) (device_type : option string) (limit : Z)
  : outcome (list TelemetryResponse) :=
  EventsDAO.collect to_response
    (get_all_cursor coll device_id device_type limit).

(** [TelemetryDAO.delete_old_data(days=30)] at the instant [now]. *)
Definition delete_old_data (now : Datetime.datetime) (days : Z) : M state Z :=
  let cutoff_date := now in
  cutoff_date <- lift_result
    (Datetime.replace_day cutoff_date (Datetime.day cutoff_date - days)) ;;
  st <- get_state ;;
  let '(remaining, deleted_count) :=
    Mongo.delete_many
      [("timestamp", Mongo.LtStr (Datetime.isoformat cutoff_date))]
      (telemetry_collection st) in
  modify (set_telemetry remaining) ;;;
  log Logging.INFO "Deleted old telemetry records" ;;;
  ret deleted_count.

End TelemetryDAO.

(* ===================================================================== *)
(** * monitoring/controllers/telemetry_controller.py *)
(* ===================================================================== *)

Module TelemetryController.
Import EventsController.

(** [get_telemetry(device_id=Query(None), device_type=Query(None),
    limit=Query(100, ge=1, le=1000))] *)
Definition get_telemetry {P : Pydantic} (coll : Mongo.collection)
           (device_id : option Z) (device_type : option string) (limit : Z)
  : http_response (list TelemetryDAO.TelemetryResponse) :=
  if (1 <=? limit) && (limit <=? 1000) then
    match TelemetryDAO.get_all coll device_id device_type limit with
    | Ret rs => OK rs
    | Raise e => InternalServerError e
    end
  else UnprocessableEntity.

End TelemetryController.

(* ===================================================================== *)
(** * monitoring/services/rabbitmq_consumer.py *)
(* ===================================================================== *)

Module RabbitMQConsumer.
Import Monitoring.

(** [device_id in _device_type_cache] / [_device_type_cache[device_id]] *)
Fixpoint cache_lookup (k : value) (c : list (value * value)) : option value :=
  match c with
  | [] => None
  | (k', v) :: c' => if key_eqb k k' then Some v else cache_lookup k c'
  end.

(** [_device_type_cache[device_id] = device_type] *)
Fixpoint cache_store (k v : value) (c : list (value * value))
  : list (value * value) :=
  match c with
  | [] => [(k, v)]
  | (k', v') :: c' =>
      if key_eqb k k' then (k', v) :: c' else (k', v') :: cache_store k v c'
  end.

(** [_get_device_type(device_id)].  The membership test hashes
    [device_id], so a list or a dict raises [TypeError] before the [try]
    is entered. *)
Definition _get_device_type (e : env) (device_id : value) : M state value :=
  if negb (hashable device_id) then raise TypeError
  else
    st <- get_state ;;
    match cache_lookup device_id (_device_type_cache st) with
    | Some device_type => ret device_type
    | None =>
        try_except
          (do (HttpGet device_id) ;;;
           match requests_get_type e device_id with
           | RequestFailed x => raise x
           | Response status_code json =>
               if status_code =? 200 then
                 device_data <- lift_result json ;;
                 match device_data with
                 | VDict d =>
                     let device_type :=
                       dict_get_default "type" (VStr "other") d in
                     modify (fun s =>
                       set_cache (cache_store device_id device_type
                                    (_device_type_cache s)) s) ;;;
                     log Logging.INFO "Fetched device type" ;;;
                     ret device_type
                 | _ => raise AttributeError
                 end
               else
                 log Logging.WARNING "Failed to fetch device type" ;;;
                 ret (VStr "other")
           end)
          any_Exception
          (fun x =>
             log Logging.WARNING "Error fetching device type" ;;;
             ret (VStr "other"))
    end.

(** [payload.get(...)] on the decoded body: anything but a dict has no
    [get] ([AttributeError]). *)
Definition as_dict (payload : value) : M state dict :=
  match payload with
  | VDict d => ret d
  | _ => raise AttributeError
  end.

(** The call of [self._socketio_callback(event, data)], when the
    attribute is set; [main.lifespan] sets it to a closure over
    [socketio_service.queue_broadcast]. *)
Definition call_socketio_callback (event : string) (payload : dict)
  : M state unit :=
  st <- get_state ;;
  match _socketio_callback st with
  | Some _ =>
      SocketIOService.queue_broadcast event (dict_without "_id" payload)
  | None => ret tt
  end.

(** [payload["timestamp"] = payload.get("timestamp", datetime.utcnow().isoformat())] *)
Definition default_timestamp (e : env) (payload : dict) : dict :=
  dict_set "timestamp"
    (dict_get_default "timestamp" (now_iso e) payload) payload.

(** [if "data" in payload and isinstance(payload["data"], dict):
       data_field = payload.pop("data"); payload.update(data_field)] *)
Definition flatten_data (payload : dict) : dict :=
  match dict_get "data" payload with
  | Some (VDict data_field) =>
      dict_update (dict_remove "data" payload) data_field
  | _ => payload
  end.

(** The [try] block of [_on_telemetry]. *)
Definition _on_telemetry_try (e : env) (body : string) : M state unit :=
  payload <- lift_result (json_loads e body) ;;
  payload <- as_dict payload ;;
  let payload := default_timestamp e payload in
  let payload := flatten_data payload in
  let device_id := dict_get_default "device_id" VNone payload in
  payload <-
    (if truthy device_id then
       device_type <- _get_device_type e device_id ;;
       ret (dict_set "device_type" device_type payload)
     else ret payload) ;;
  r <- TelemetryDAO.insert e payload ;;
  call_socketio_callback "telemetry" (snd r) ;;;
  log Logging.INFO "Telemetry stored".

(** [_on_telemetry(self, channel, method, properties, body)] *)
Definition _on_telemetry (e : env) (delivery_tag : Z) (body : string)
  : M state unit :=
  try_finally
    (try_except
       (_on_telemetry_try e body)
       any_Exception
       (fun x => log Logging.ERROR "Telemetry consumer error"))
    (do (BasicAck delivery_tag)).

(** The [try] block of [_on_device_event]. *)
Definition _on_device_event_try (e : env) (body : string) : M state unit :=
  payload <- lift_result (json_loads e body) ;;
  payload <- as_dict payload ;;
  let payload := default_timestamp e payload in
  r <- EventsDAO.insert e payload ;;
  call_socketio_callback "device_event" (snd r) ;;;
  log Logging.INFO "Device event stored".

(** [_on_device_event(self, channel, method, properties, body)] *)
Definition _on_device_event (e : env) (delivery_tag : Z) (body : string)
  : M state unit :=
  try_finally
    (try_except
       (_on_device_event_try e body)
       any_Exception
       (fun x => log Logging.ERROR "Device event consumer error"))
    (do (BasicAck delivery_tag)).

(** A message as the broker delivers it, with what the environment
    answers while it is handled. *)
Inductive queue_name : Type := TELEMETRY_QUEUE | DEVICE_EVENTS_QUEUE.

Record delivery : Type := {
  queue : queue_name;
  delivery_tag : Z;
  body : string;
  environment : env
}.

Definition on_message (d : delivery) : M state unit :=
  match queue d with
  | TELEMETRY_QUEUE => _on_telemetry (environment d) (delivery_tag d) (body d)
  | DEVICE_EVENTS_QUEUE =>
      _on_device_event (environment d) (delivery_tag d) (body d)
  end.

(** The consume loop over the messages delivered one after the other
    ([prefetch_count=1]); an exception escaping a callback ends it. *)
Fixpoint consume (ds : list delivery) : M state unit :=
  match ds with
  | [] => ret tt
  | d :: rest => on_message d ;;; consume rest
  end.

(** [set_socketio_callback(self, callback)], as [main.lifespan] calls it
    with [socketio_emit]. *)
Definition set_socketio_callback (s : state) : state :=
  {| telemetry_collection := telemetry_collection s;
     events_collection := events_collection s;
     _device_type_cache := _device_type_cache s;
     _broadcast_queue := _broadcast_queue s;
     _socketio_callback := Some tt; trace := trace s |}.

End RabbitMQConsumer.

(* ===================================================================== *)
(** * device-management/services/rabbitmq_publisher.py *)
(* ===================================================================== *)

Module RabbitMQPublisher.

(** A pika connection or channel as the publisher sees it: the value of
    its [is_closed] flag.  The flag is what the client library has
    noticed; a link that the broker dropped without the library noticing
    still reads [is_closed = false]. *)
Record handle : Type := { is_closed : bool }.

(** What the publisher asks of the broker, in order; each entry is an
    attempt, whether or not it succeeds. *)
Inductive action : Type :=
| Log (r : Logging.record)
| Connect                       (* pika.BlockingConnection(parameters) *)
| OpenChannel                   (* connection.channel() *)
| ExchangeDeclare               (* 'device_events', topic, durable *)
| BasicPublish (routing_key : string) (message : dict).
                                (* delivery_mode=2, application/json *)

(** The publisher object: [_connection], [_channel], and the record of
    what it did.  It has no other attribute: nothing holds an event
    between two calls. *)
Record publisher : Type := {
  _connection : option handle;
  _channel : option handle;
  trace : list action
}.

(** [RabbitMQPublisher()] *)
Definition __init__ : publisher :=
  {| _connection := None; _channel := None; trace := [] |}.

(** How the broker answers during one call: the exception, if any, that
    each kind of request raises. *)
Record broker : Type := {
  utcnow : Datetime.datetime;
  connect_error : option exn;
  channel_error : option exn;
  exchange_declare_error : option exn;
  basic_publish_error : option exn
}.

Definition set_connection (c : option handle) (p : publisher) : publisher :=
  {| _connection := c; _channel := _channel p; trace := trace p |}.
Definition set_channel (c : option handle) (p : publisher) : publisher :=
  {| _connection := _connection p; _channel := c; trace := trace p |}.
Definition emit (a : action) (p : publisher) : publisher :=
  {| _connection := _connection p; _channel := _channel p;
     trace := trace p ++ [a] |}.

Definition log (l : Logging.level) (msg : string) : M publisher unit :=
  modify (emit (Log (l, msg))).

(** A request to the broker: recorded, then it succeeds or raises. *)
Definition request (a : action) (err : option exn) : M publisher unit :=
  modify (emit a) ;;;
  match err with
  | Some e => raise e
  | None => ret tt
  end.

(** [x is None or x.is_closed] *)
Definition none_or_closed (h : option handle) : bool :=
  match h with
  | None => true
  | Some c => is_closed c
  end.

Definition is_AMQPConnectionError (e : exn) : bool :=
  match e with AMQPConnectionError => true | _ => false end.

(** The [connection] property. *)
Definition connection (b : broker) : M publisher (option handle) :=
  st <- get_state ;;
  (if none_or_closed (_connection st) then
     try_except
       (request Connect (connect_error b) ;;;
        modify (set_connection (Some {| is_closed := false |})) ;;;
        request OpenChannel (channel_error b) ;;;
        modify (set_channel (Some {| is_closed := false |})) ;;;
        request ExchangeDeclare (exchange_declare_error b) ;;;
        log Logging.INFO "RabbitMQ connected")
       is_AMQPConnectionError
       (fun e => log Logging.ERROR "RabbitMQ connection failed" ;;; raise e)
   else ret tt) ;;;
  st <- get_state ;;
  ret (_connection st).

(** The [channel] property. *)
Definition channel (b : broker) : M publisher (option handle) :=
  st <- get_state ;;
  (if none_or_closed (_channel st) then
     connection b ;;;
     request OpenChannel (channel_error b) ;;;
     modify (set_channel (Some {| is_closed := false |}))
   else ret tt) ;;;
  st <- get_state ;;
  ret (_channel st).

(** [json.dumps(event_data)] *)
Definition json_dumps (event_data : dict) : M publisher dict :=
  if serializable (VDict event_data) then ret event_data else raise TypeError.

(** [if 'timestamp' not in event_data:
       event_data['timestamp'] = datetime.utcnow().isoformat()] *)
Definition stamp (b : broker) (event_data : dict) : dict :=
  if negb (dict_contains "timestamp" event_data)
  then dict_set "timestamp" (VStr (Datetime.isoformat (utcnow b))) event_data
  else event_data.

(** [except (pika.exceptions.AMQPConnectionError,
            pika.exceptions.AMQPChannelError)] *)
Definition is_AMQPError (e : exn) : bool :=
  match e with
  | AMQPConnectionError | AMQPChannelError => true
  | _ => false
  end.

(** [publish_event(self, routing_key, event_data)], run under
    [self._lock]. *)
Definition publish_event (b : broker) (routing_key : string)
           (event_data : dict) : M publisher bool :=
  try_except
    (let event_data := stamp b event_data in
     message <- json_dumps event_data ;;
     channel b ;;;
     request (BasicPublish routing_key message) (basic_publish_error b) ;;;
     log Logging.INFO "Published event" ;;;
     ret true)
    any_Exception
    (fun e =>
       if is_AMQPError e then
         log Logging.ERROR "RabbitMQ publish error" ;;;
         modify (set_connection None) ;;;
         modify (set_channel None) ;;;
         ret false
       else
         log Logging.ERROR "Unexpected RabbitMQ error" ;;;
         ret false).

(** [publish_telemetry(self, device_id, device_name, data)] *)
Definition publish_telemetry (b : broker) (device_id : Z)
           (device_name : string) (data : dict) : M publisher bool :=
  publish_event b "device.telemetry"
    [("event_type", VStr "telemetry"); ("device_id", VInt device_id);
     ("device_name", VStr device_name); ("data", VDict data)].

(** [publish_device_event(self, device_id, device_name, event_type, details)] *)
Definition publish_device_event (b : broker) (device_id : Z)
           (device_name event_type : string) (details : dict)
  : M publisher bool :=
  publish_event b "device.event"
    [("event_type", VStr event_type); ("device_id", VInt device_id);
     ("device_name", VStr device_name); ("details", VDict details)].

(** The [basic_publish] requests of a trace, with their routing key and
    message. *)
Definition publish_attempts (t : list action) : list (string * dict) :=
  flat_map (fun a => match a with
                     | BasicPublish rk m => [(rk, m)]
                     | _ => []
                     end) t.

Definition connect_attempts (t : list action) : nat :=
  length (List.filter (fun a => match a with Connect => true | _ => false end) t).

Definition declare_attempts (t : list action) : nat :=
  length (List.filter (fun a => match a with ExchangeDeclare => true | _ => false end) t).

(** [publish_status_change(self, device_id, device_name, old_status,
    new_status, location=None)] *)
Definition publish_status_change (b : broker) (device_id : Z)
           (device_name old_status new_status : string)
           (location : option string) : M publisher bool :=
  let details :=
    [("old_status", VStr old_status); ("new_status", VStr new_status);
     ("location", match location with Some l => VStr l | None => VNone end)] in
  publish_device_event b device_id device_name "status_change" details.

End RabbitMQPublisher.

(* ===================================================================== *)
(** * device-management/services/cache_service.py *)
(* ===================================================================== *)

Module CacheService.

(** What the Redis server answers to each command of one call: a reply,
    or the [redis.RedisError] the client raises instead. *)
Record redis : Type := {
  ping : option redis_error;
  GET : string -> redis_error + option string;
  SETEX : string -> Z -> value -> redis_error + bool;
  DEL : list string -> redis_error + Z;
  KEYS : string -> redis_error + list string
}.

(** The service object: [_client] ([None] until the first use) and the
    log. *)
Record service : Type := {
  _client : option unit;
  log_records : list Logging.record
}.

(** [CacheService()] *)
Definition __init__ : service := {| _client := None; log_records := [] |}.

Definition log (l : Logging.level) (msg : string) : M service unit :=
  modify (fun s => {| _client := _client s;
                      log_records := log_records s ++ [(l, msg)] |}).

(** A command sent through the client. *)
Definition command {A} (reply : redis_error + A) : M service A :=
  match reply with
  | inl e => raise (RedisError e)
  | inr a => ret a
  end.

Definition is_redis_ConnectionError (e : exn) : bool :=
  match e with RedisError r => is_ConnectionError r | _ => false end.

(** The [client] property: the attribute is assigned before the
    connection is tested with [ping]. *)
Definition client (r : redis) : M service unit :=
  st <- get_state ;;
  match _client st with
  | None =>
      try_except
        (modify (fun s => {| _client := Some tt; log_records := log_records s |}) ;;;
         match ping r with
         | Some e => raise (RedisError e)
         | None => ret tt
         end ;;;
         log Logging.INFO "Redis connected")
        is_redis_ConnectionError
        (fun e => log Logging.ERROR "Redis connection failed" ;;; raise e)
  | Some _ => ret tt
  end.

(** [get(self, key)] *)
Definition get (r : redis) (key : string) : M service (option string) :=
  try_except
    (client r ;;; command (GET r key))
    is_RedisError
    (fun e => log Logging.ERROR "Redis get error" ;;; ret None).

(** [json.dumps(value)] raises [TypeError] on an object it cannot
    serialize; the serialized text stands for the value it encodes. *)
Definition json_dumps (v : value) : M service value :=
  if serializable v then ret v else raise TypeError.

(** [set(self, key, value, expire_seconds=300)] *)
Definition set (r : redis) (key : string) (v : value) (expire_seconds : Z)
  : M service bool :=
  try_except
    (serialized <- json_dumps v ;;
     client r ;;;
     command (SETEX r key expire_seconds serialized))
    (fun e => is_RedisError e || match e with TypeError => true | _ => false end)
    (fun e => log Logging.ERROR "Redis set error" ;;; ret false).

(** [delete(self, key)] *)
Definition delete (r : redis) (key : string) : M service bool :=
  try_except
    (client r ;;;
     n <- command (DEL r [key]) ;;
     ret (negb (n =? 0)))
    is_RedisError
    (fun e => log Logging.ERROR "Redis delete error" ;;; ret false).

(** [delete_pattern(self, pattern)] *)
Definition delete_pattern (r : redis) (pattern : string) : M service Z :=
  try_except
    (client r ;;;
     keys <- command (KEYS r pattern) ;;
     match keys with
     | [] => ret 0
     | _ => client r ;;; command (DEL r keys)
     end)
    is_RedisError
    (fun e => log Logging.ERROR "Redis delete pattern error" ;;; ret 0).

(** [str(n)] for an [int]: decimal digits, with a minus sign when
    negative. *)
Definition str_int (n : Z) : string := NilZero.string_of_int (Z.to_int n).

(** [f"device:{device_id}"] *)
Definition device_key (device_id : Z) : string := "device:" +:+ str_int device_id.

(** The key of the device list. *)
Definition devices_key : string := "devices:all".

(** [get_devices_cache(self)].  [json.loads(cached)] is left to the decoder
    [loads]: it returns the decoded value or raises [JSONDecodeError]. *)
Definition get_devices_cache (r : redis) (loads : string -> outcome value)
  : M service (option value) :=
  cached <- get r devices_key ;;
  match cached with
  | Some text =>
      if negb (String.eqb text "")
      then v <- lift_result (loads text) ;; ret (Some v)
      else ret None
  | None => ret None
  end.

(** [set_devices_cache(self, devices, expire_seconds=60)] *)
Definition set_devices_cache (r : redis) (devices : value) (expire_seconds : Z)
  : M service bool :=
  set r devices_key devices expire_seconds.

(** [invalidate_devices_cache(self)] *)
Definition invalidate_devices_cache (r : redis) : M service Z :=
  delete_pattern r "devices:*".

(** [get_device_cache(self, device_id)] *)
Definition get_device_cache (r : redis) (loads : string -> outcome value)
           (device_id : Z) : M service (option value) :=
  cached <- get r (device_key device_id) ;;
  match cached with
  | Some text =>
      if negb (String.eqb text "")
      then v <- lift_result (loads text) ;; ret (Some v)
      else ret None
  | None => ret None
  end.

(** [set_device_cache(self, device_id, device, expire_seconds=300)] *)
Definition set_device_cache (r : redis) (device_id : Z) (device : value)
           (expire_seconds : Z) : M service bool :=
  set r (device_key device_id) device expire_seconds.

(** [invalidate_device_cache(self, device_id)] *)
Definition invalidate_device_cache (r : redis) (device_id : Z) : M service bool :=
  delete r (device_key device_id).

End CacheService.

(* ===================================================================== *)
(** * Notions and concrete inputs used by the statements below *)
(* ===================================================================== *)

Module Inputs.
Import Entities Lifecycle.

(** A store holding one device, retired. *)
Definition retired_device : Device :=
  {| id := 1; name := "pump"; type := SENSOR; serial_number := "SN-001";
     description := None; status := RETIRED; location := None;
     specifications := None; purchase_date := None; deploy_date := None;
     last_maintenance_date := None;
     created_at := "2024-01-01T00:00:00"; updated_at := "2024-01-01T00:00:00" |}.

Definition retired_system : system :=
  {| devices := {[ 1 := retired_device ]}; audit_log := [];
     cache_single := ∅; cache_collection := None; emitted := [] |}.

(** The consumer handing a series of events to the fan-out, one call of
    [queue_broadcast] after the other. *)
Definition enqueue_all (evs : list (string * dict)) (st : Monitoring.state)
  : Monitoring.state :=
  fold_left (fun s ev => snd (SocketIOService.queue_broadcast (fst ev) (snd ev) s))
            evs st.

(** Descending timestamps: every response comes before all those with a
    smaller (or equal) timestamp, in the order of the stored strings,
    which is the order the store sorts by. *)
Definition descending (rs : list EventsDAO.EventResponse) : Prop :=
  StronglySorted
    (fun r1 r2 => String.leb (EventsDAO.timestamp r2) (EventsDAO.timestamp r1) = true)
    rs.

(** Three stored events, none of them of a device 0. *)
Definition events_sample : Mongo.collection :=
  [ [("_id", VObjectId "65a000000000000000000001"); ("event_type", VStr "deployed");
     ("device_id", VInt 5); ("timestamp", VStr "2024-01-10T08:00:00");
     ("details", VDict [("location", VStr "Bay-2")])];
    [("_id", VObjectId "65a000000000000000000002"); ("event_type", VStr "alert");
     ("device_id", VInt 6); ("timestamp", VStr "2024-01-12T09:30:00")];
    [("_id", VObjectId "65a000000000000000000003"); ("event_type", VStr "alert");
     ("device_id", VInt 5); ("timestamp", VStr "2024-01-11T23:59:59.250000")] ].

(** Noon of 15 March 2024, and a store holding one event and one telemetry
    record from January 2023. *)
Definition mid_march : Datetime.datetime :=
  {| Datetime.year := 2024; Datetime.month := 3; Datetime.day := 15;
     Datetime.hour := 12; Datetime.minute := 0; Datetime.second := 0;
     Datetime.microsecond := 0 |}.

Definition stale_state : Monitoring.state :=
  Monitoring.initial
    [ [("_id", VObjectId "63b000000000000000000001"); ("device_id", VInt 3);
       ("timestamp", VStr "2023-01-01T00:00:00"); ("temperature", VInt 21)] ]
    [ [("_id", VObjectId "63b000000000000000000002"); ("device_id", VInt 3);
       ("event_type", VStr "alert"); ("timestamp", VStr "2023-01-01T00:00:00")] ].

(** The instant [days] days before [now], when it falls in the same month. *)
Definition days_earlier (now : Datetime.datetime) (days : Z) : Datetime.datetime :=
  {| Datetime.year := Datetime.year now; Datetime.month := Datetime.month now;
     Datetime.day := Datetime.day now - days;
     Datetime.hour := Datetime.hour now; Datetime.minute := Datetime.minute now;
     Datetime.second := Datetime.second now;
     Datetime.microsecond := Datetime.microsecond now |}.

(** The publisher has recorded the loss of its connection: both handles
    are unset or marked closed.  This is the state in which [__init__] and
    a failed publish leave it. *)
Definition recorded_lost (p : RabbitMQPublisher.publisher) : bool :=
  RabbitMQPublisher.none_or_closed (RabbitMQPublisher._connection p)
  && RabbitMQPublisher.none_or_closed (RabbitMQPublisher._channel p).

(** A publisher whose handles still read open, and a broker whose link to
    it has gone: every request on the old link raises
    [AMQPConnectionError]. *)
Definition stale_publisher : RabbitMQPublisher.publisher :=
  {| RabbitMQPublisher._connection := Some {| RabbitMQPublisher.is_closed := false |};
     RabbitMQPublisher._channel := Some {| RabbitMQPublisher.is_closed := false |};
     RabbitMQPublisher.trace := [] |}.

Definition dropped_link : RabbitMQPublisher.broker :=
  {| RabbitMQPublisher.utcnow := mid_march;
     RabbitMQPublisher.connect_error := None;
     RabbitMQPublisher.channel_error := None;
     RabbitMQPublisher.exchange_declare_error := None;
     RabbitMQPublisher.basic_publish_error := Some AMQPConnectionError |}.

(** A broker that answers every request. *)
Definition healthy_broker : RabbitMQPublisher.broker :=
  {| RabbitMQPublisher.utcnow := mid_march;
     RabbitMQPublisher.connect_error := None;
     RabbitMQPublisher.channel_error := None;
     RabbitMQPublisher.exchange_declare_error := None;
     RabbitMQPublisher.basic_publish_error := None |}.

Definition status_change_event : dict :=
  [("event_type", VStr "status_change"); ("device_id", VInt 7);
   ("device_name", VStr "pump");
   ("details", VDict [("old_status", VStr "reserved");
                      ("new_status", VStr "deployed");
                      ("location", VStr "Bay-2")])].

(** The lazy connection attempt fails: the client is not yet set and the
    server does not answer the [ping]. *)
Definition client_fails (r : CacheService.redis) (st : CacheService.service) : bool :=
  match CacheService._client st, CacheService.ping r with
  | None, Some _ => true
  | _, _ => false
  end.

(** A Redis server that is down: every command raises [ConnectionError]. *)
Definition redis_down : CacheService.redis :=
  {| CacheService.ping := Some ConnectionError;
     CacheService.GET := fun _ => inl ConnectionError;
     CacheService.SETEX := fun _ _ _ => inl ConnectionError;
     CacheService.DEL := fun _ => inl ConnectionError;
     CacheService.KEYS := fun _ => inl ConnectionError |}.

(** The device-type lookup fails: the request raises (timeout, refused
    connection), the status is not 200, the body is not JSON, or it is not
    an object. *)
Definition lookup_fails (r : Monitoring.http_result) : bool :=
  match r with
  | Monitoring.RequestFailed _ => true
  | Monitoring.Response status_code json =>
      if status_code =? 200
      then match json with Ret (VDict _) => false | _ => true end
      else true
  end.

(** The warning that [_get_device_type] logs for a failed lookup. *)
Definition lookup_warning (r : Monitoring.http_result) : string :=
  match r with
  | Monitoring.Response status_code _ =>
      if status_code =? 200 then "Error fetching device type"
      else "Failed to fetch device type"
  | Monitoring.RequestFailed _ => "Error fetching device type"
  end.

(** The delivery tags acknowledged in a trace, and the writes attempted. *)
Definition acks (t : list Monitoring.action) : list Z :=
  flat_map (fun a => match a with Monitoring.BasicAck tag => [tag] | _ => [] end) t.

Definition insert_attempts (t : list Monitoring.action)
  : list (Monitoring.collection_name * dict) :=
  flat_map (fun a => match a with
                     | Monitoring.InsertOne c doc => [(c, doc)]
                     | _ => []
                     end) t.

(** A computation that only ever adds to the trace, and never an
    acknowledgment. *)
Definition quiet {A} (c : M Monitoring.state A) : Prop :=
  forall st r st',
    c st = (r, st') ->
    exists t, Monitoring.trace st' = Monitoring.trace st ++ t /\ acks t = [].

(** The error record of each callback, and the collection it writes to. *)
Definition error_message (q : RabbitMQConsumer.queue_name) : string :=
  match q with
  | RabbitMQConsumer.TELEMETRY_QUEUE => "Telemetry consumer error"
  | RabbitMQConsumer.DEVICE_EVENTS_QUEUE => "Device event consumer error"
  end.

(** The telemetry event as it stands when the device type is looked up:
    timestamp defaulted, ["data"] flattened. *)
Definition prepared (e : Monitoring.env) (payload : dict) : dict :=
  RabbitMQConsumer.flatten_data (RabbitMQConsumer.default_timestamp e payload).

(** Message bodies.  [dq] is the double-quote character. *)
Definition dq : string := String (Ascii.ascii_of_nat 34) EmptyString.

(** [{"device_id": 7, "data": {"temperature": 21}}] *)
Definition telemetry_body : string :=
  "{" +:+ dq +:+ "device_id" +:+ dq +:+ ": 7, " +:+ dq +:+ "data" +:+ dq
  +:+ ": {" +:+ dq +:+ "temperature" +:+ dq +:+ ": 21}}".

(** [{"event_type": "error"}]: a device event that names no device. *)
Definition anonymous_event_body : string :=
  "{" +:+ dq +:+ "event_type" +:+ dq +:+ ": " +:+ dq +:+ "error" +:+ dq +:+ "}".

(** A body cut short: not JSON. *)
Definition malformed_body : string := "{" +:+ dq +:+ "device_id" +:+ dq +:+ ": ".

(** An environment in which the device registry does not answer (the
    lookup times out) while the store accepts every write. *)
Definition registry_down : Monitoring.env :=
  {| Monitoring.utcnow := mid_march;
     Monitoring.json_loads := fun body =>
       if String.eqb body telemetry_body
       then Ret (VDict [("device_id", VInt 7);
                        ("data", VDict [("temperature", VInt 21)])])
       else if String.eqb body anonymous_event_body
       then Ret (VDict [("event_type", VStr "error")])
       else Raise JSONDecodeError;
     Monitoring.requests_get_type := fun _ => Monitoring.RequestFailed RequestException;
     Monitoring.mongo := {| Mongo.new_object_id := "65f400000000000000000001";
                            Mongo.insert_error := None |} |}.

(** The service once [main.lifespan] has set the callback. *)
Definition running : Monitoring.state :=
  {| Monitoring.telemetry_collection := [];
     Monitoring.events_collection := [];
     Monitoring._device_type_cache := [];
     Monitoring._broadcast_queue := SocketIOService.__init__;
     Monitoring._socketio_callback := Some tt;
     Monitoring.trace := [] |}.

Definition malformed_delivery : RabbitMQConsumer.delivery :=
  {| RabbitMQConsumer.queue := RabbitMQConsumer.TELEMETRY_QUEUE;
     RabbitMQConsumer.delivery_tag := 1;
     RabbitMQConsumer.body := malformed_body;
     RabbitMQConsumer.environment := registry_down |}.

Definition telemetry_delivery : RabbitMQConsumer.delivery :=
  {| RabbitMQConsumer.queue := RabbitMQConsumer.TELEMETRY_QUEUE;
     RabbitMQConsumer.delivery_tag := 2;
     RabbitMQConsumer.body := telemetry_body;
     RabbitMQConsumer.environment := registry_down |}.

(** Noon of 31 March 2024. *)
Definition end_march : Datetime.datetime :=
  {| Datetime.year := 2024; Datetime.month := 3; Datetime.day := 31;
     Datetime.hour := 12; Datetime.minute := 0; Datetime.second := 0;
     Datetime.microsecond := 0 |}.

(** A registry that knows device 7 as a sensor. *)
Definition registry_up : Monitoring.env :=
  {| Monitoring.utcnow := mid_march;
     Monitoring.json_loads := Monitoring.json_loads registry_down;
     Monitoring.requests_get_type := fun _ =>
       Monitoring.Response 200 (Ret (VDict [("type", VStr "iot_sensor")]));
     Monitoring.mongo := Monitoring.mongo registry_down |}.

(** The running service after one successful lookup of device 7. *)
Definition warmed : Monitoring.state :=
  snd (RabbitMQConsumer._get_device_type registry_up (VInt 7) running).

(** The items of a queue that a run of the broadcast loop emits: turn by
    turn, the item at the head of the queue, kept when its emit succeeds. *)
Fixpoint delivered (items : list (string * dict)) (emits : list (option exn))
  : list (string * dict) :=
  match items, emits with
  | item :: items', None :: emits' => item :: delivered items' emits'
  | _ :: items', Some _ :: emits' => delivered items' emits'
  | _, _ => []
  end.

(** Descending timestamps, for telemetry responses. *)
Definition descending_telemetry (rs : list TelemetryDAO.TelemetryResponse) : Prop :=
  StronglySorted
    (fun r1 r2 => String.leb (TelemetryDAO.timestamp r2) (TelemetryDAO.timestamp r1) = true)
    rs.

(** The keys that [TelemetryDAO.get_all] lifts out of a document into the
    declared fields of the response. *)
Definition telemetry_declared (k : string) : bool :=
  String.eqb k "_id" || String.eqb k "device_id" || String.eqb k "timestamp"
  || String.eqb k "device_name" || String.eqb k "location".

(** A document that [EventsDAO.get_all] can turn into a response. *)
Definition returnable {P : Pydantic} (doc : dict) : Prop :=
  exists r, EventsDAO.to_response doc = Ret r.

(** [{"device_id": 7, "event_type": "alert"}] *)
Definition alert_body : string :=
  "{" +:+ dq +:+ "device_id" +:+ dq +:+ ": 7, " +:+ dq +:+ "event_type" +:+ dq
  +:+ ": " +:+ dq +:+ "alert" +:+ dq +:+ "}".

(** The environment [e] with a decoder that reads [body] as the object
    [payload]. *)
Definition decoding (body : string) (payload : dict) (e : Monitoring.env)
  : Monitoring.env :=
  {| Monitoring.utcnow := Monitoring.utcnow e;
     Monitoring.json_loads := fun b =>
       if String.eqb b body then Ret (VDict payload)
       else Monitoring.json_loads e b;
     Monitoring.requests_get_type := Monitoring.requests_get_type e;
     Monitoring.mongo := Monitoring.mongo e |}.

(** The [connection.channel()] requests of a trace. *)
Definition open_channel_attempts (t : list RabbitMQPublisher.action) : nat :=
  length (List.filter (fun a => match a with
                                | RabbitMQPublisher.OpenChannel => true
                                | _ => false
                                end) t).

(** The field names that the telemetry pipeline gives a meaning of its
    own: a metric with one of these names would replace an envelope field
    when the consumer flattens the message. *)
Definition telemetry_reserved : list string :=
  ["event_type"; "device_id"; "device_name"; "data"; "timestamp";
   "device_type"; "location"; "id"; "_id"].

Definition quoted (s : string) : string := dq +:+ s +:+ dq.

(** The status change of device 7 as the publisher sends it at noon of
    15 March 2024, and its JSON text. *)
Definition status_change_message : dict :=
  status_change_event ++ [("timestamp", VStr "2024-03-15T12:00:00")].

Definition status_change_body : string :=
  "{" +:+ quoted "event_type" +:+ ": " +:+ quoted "status_change" +:+ ", "
  +:+ quoted "device_id" +:+ ": 7, "
  +:+ quoted "device_name" +:+ ": " +:+ quoted "pump" +:+ ", "
  +:+ quoted "details" +:+ ": {"
  +:+ quoted "old_status" +:+ ": " +:+ quoted "reserved" +:+ ", "
  +:+ quoted "new_status" +:+ ": " +:+ quoted "deployed" +:+ ", "
  +:+ quoted "location" +:+ ": " +:+ quoted "Bay-2" +:+ "}, "
  +:+ quoted "timestamp" +:+ ": " +:+ quoted "2024-03-15T12:00:00" +:+ "}".

(** A temperature reading of device 7 as the publisher sends it at the
    same instant, and its JSON text. *)
Definition reading_message : dict :=
  [("event_type", VStr "telemetry"); ("device_id", VInt 7);
   ("device_name", VStr "probe"); ("data", VDict [("temperature", VInt 21)]);
   ("timestamp", VStr "2024-03-15T12:00:00")].

Definition reading_body : string :=
  "{" +:+ quoted "event_type" +:+ ": " +:+ quoted "telemetry" +:+ ", "
  +:+ quoted "device_id" +:+ ": 7, "
  +:+ quoted "device_name" +:+ ": " +:+ quoted "probe" +:+ ", "
  +:+ quoted "data" +:+ ": {" +:+ quoted "temperature" +:+ ": 21}, "
  +:+ quoted "timestamp" +:+ ": " +:+ quoted "2024-03-15T12:00:00" +:+ "}".

(** An environment that decodes these two texts, with the registry up. *)
Definition wired : Monitoring.env :=
  decoding status_change_body status_change_message
    (decoding reading_body reading_message registry_up).

(** [st'] extends [st]: both collections have only gained records at
    their end, every memoized device type is still memoized with the same
    type, the broadcast queue has only gained items at its end, none of
    them with an ["_id"] field, and the queue bound and the callback are
    the same. *)
Definition extends (st st' : Monitoring.state) : Prop :=
  (exists l, Monitoring.telemetry_collection st'
             = Monitoring.telemetry_collection st ++ l)
  /\ (exists l, Monitoring.events_collection st'
                = Monitoring.events_collection st ++ l)
  /\ (forall k v,
        RabbitMQConsumer.cache_lookup k (Monitoring._device_type_cache st) = Some v ->
        RabbitMQConsumer.cache_lookup k (Monitoring._device_type_cache st') = Some v)
  /\ (exists l, Asyncio.items (Monitoring._broadcast_queue st')
                = Asyncio.items (Monitoring._broadcast_queue st) ++ l
                /\ Forall (fun item => dict_get "_id" (snd item) = None) l)
  /\ Asyncio.maxsize (Monitoring._broadcast_queue st')
     = Asyncio.maxsize (Monitoring._broadcast_queue st)
  /\ Monitoring._socketio_callback st' = Monitoring._socketio_callback st.

(** A computation that only ever extends the state. *)
Definition appending {A} (c : M Monitoring.state A) : Prop :=
  forall st r st', c st = (r, st') -> extends st st'.

(** A Redis server that answers, and holds under ["device:7"] a text that
    is not JSON; and a decoder that refuses that text. *)
Definition redis_garbled : CacheService.redis :=
  {| CacheService.ping := None;
     CacheService.GET := fun key =>
       if String.eqb key "device:7" then inr (Some "{oops") else inr None;
     CacheService.SETEX := fun _ _ _ => inr true;
     CacheService.DEL := fun _ => inr 0;
     CacheService.KEYS := fun _ => inr [] |}.

Definition strict_loads (text : string) : outcome value :=
  if String.eqb text "{oops" then Raise JSONDecodeError else Ret VNone.

(** The order of two instants, as [datetime] compares them: field by
    field, from the year down to the microsecond. *)
Definition then_by (c1 c2 : comparison) : comparison :=
  match c1 with Eq => c2 | _ => c1 end.

Definition chronological (d1 d2 : Datetime.datetime) : comparison :=
  then_by (Datetime.year d1 ?= Datetime.year d2)
    (then_by (Datetime.month d1 ?= Datetime.month d2)
       (then_by (Datetime.day d1 ?= Datetime.day d2)
          (then_by (Datetime.hour d1 ?= Datetime.hour d2)
             (then_by (Datetime.minute d1 ?= Datetime.minute d2)
                (then_by (Datetime.second d1 ?= Datetime.second d2)
                   (Datetime.microsecond d1 ?= Datetime.microsecond d2)))))).

(** [{"device_id": [7]}]: a telemetry message that names its device by a
    list. *)
Definition listed_id_body : string := "{" +:+ quoted "device_id" +:+ ": [7]}".

Definition listed_id_delivery : RabbitMQConsumer.delivery :=
  {| RabbitMQConsumer.queue := RabbitMQConsumer.TELEMETRY_QUEUE;
     RabbitMQConsumer.delivery_tag := 9;
     RabbitMQConsumer.body := listed_id_body;
     RabbitMQConsumer.environment :=
       decoding listed_id_body [("device_id", VList [VInt 7])] registry_up |}.

(** A reading of decimal strings: a non-empty run of digits is read as
    the number it writes, anything else is refused. *)
Fixpoint digits_value (acc : Z) (s : string) : option Z :=
  match s with
  | EmptyString => Some acc
  | String c rest =>
      let n := Z.of_nat (nat_of_ascii c) in
      if (48 <=? n) && (n <=? 57) then digits_value (10 * acc + (n - 48)) rest
      else None
  end.

(** A validation that reads plain runs of digits only; every release of
    the library reads those, and the examples below use no other string. *)
Definition digits_only : Pydantic :=
  {| str_as_int := fun s => if String.eqb s "" then None else digits_value 0 s |}.

(** [s1] does not stand for an earlier instant than [s2], whenever both
    are the [isoformat] of an instant. *)
Definition not_older (s1 s2 : string) : Prop :=
  forall d1 d2,
    Datetime.valid d1 = true -> Datetime.valid d2 = true ->
    s1 = Datetime.isoformat d1 -> s2 = Datetime.isoformat d2 ->
    chronological d1 d2 <> Lt.

(** Most recent first, as far as the timestamps are [isoformat] texts:
    no timestamp in the list stands for an earlier instant than one that
    comes after it. *)
Definition most_recent_first (stamps : list string) : Prop :=
  StronglySorted not_older stamps.

(** Two events of device 7: the first stamped in the form
    [datetime.utcnow().isoformat() + "Z"] at noon, as the client of
    [end-devices/computer_monitor.py] stamps its messages, the second
    stamped by [isoformat()] half a second later. *)
Definition mixed_stamps : Mongo.collection :=
  [ [("_id", VObjectId "65f400000000000000000011"); ("device_id", VInt 7);
     ("event_type", VStr "info"); ("timestamp", VStr "2024-03-15T12:00:00Z")];
    [("_id", VObjectId "65f400000000000000000012"); ("device_id", VInt 7);
     ("event_type", VStr "info");
     ("timestamp", VStr "2024-03-15T12:00:00.500000")] ].

(** The documents that [EventsDAO.get_all] can turn into a response: the
    three required keys, a device id that validation reads as an integer,
    a string timestamp, and an event type and details that are absent or
    of their declared type. *)
Definition well_formed_event {P : Pydantic} (doc : dict) : Prop :=
  dict_get "_id" doc <> None
  /\ (exists v n, dict_get "device_id" doc = Some v /\ validate_int v = Some n)
  /\ (exists t, dict_get "timestamp" doc = Some (VStr t))
  /\ (exists ty, dict_get_default "event_type" (VStr "") doc = VStr ty)
  /\ (exists det, dict_get_default "details" (VDict []) doc = VDict det).

(** A body that is JSON but not an object: [[]]. *)
Definition array_body : string := "[]".

Definition array_delivery : RabbitMQConsumer.delivery :=
  {| RabbitMQConsumer.queue := RabbitMQConsumer.DEVICE_EVENTS_QUEUE;
     RabbitMQConsumer.delivery_tag := 11;
     RabbitMQConsumer.body := array_body;
     RabbitMQConsumer.environment :=
       {| Monitoring.utcnow := mid_march;
          Monitoring.json_loads := fun b =>
            if String.eqb b array_body then Ret (VList [])
            else Monitoring.json_loads registry_up b;
          Monitoring.requests_get_type := Monitoring.requests_get_type registry_up;
          Monitoring.mongo := Monitoring.mongo registry_up |} |}.

(** [{"device_id": 7, "timestamp": null}] *)
Definition null_time_body : string :=
  "{" +:+ quoted "device_id" +:+ ": 7, " +:+ quoted "timestamp" +:+ ": null}".

End Inputs.

(* ===================================================================== *)
(* ===================================================================== *)
(** * Theorems *)
(* ===================================================================== *)
(* ===================================================================== *)

(** ** The lifecycle state machine *)

Section LifecycleFacts.
Import Entities Lifecycle Inputs.

Lemma DeviceStatus_members_complete (s : DeviceStatus) :
  In s DeviceStatus_members.
Proof. destruct s; simpl; tauto. Qed.

(** Every status is recovered from its stored value: [DeviceStatus(s.value)]
    is [s]. *)
Lemma DeviceStatus_of_value_value (s : DeviceStatus) :
  DeviceStatus_of_value (DeviceStatus_value s) = Ret s.
Proof. destruct s; reflexivity. Qed.

Lemma RETIRED_is_terminal (target : DeviceStatus) :
  allowed RETIRED target = false.
Proof. destruct target; reflexivity. Qed.

Lemma allowed_never_reflexive (s : DeviceStatus) : allowed s s = false.
Proof. destruct s; reflexivity. Qed.

(** A successful transition follows the table and stores the target. *)
Lemma transition_success_allowed now pub actor sys i target loc notes d' sys' :
  transition now pub actor sys i target loc notes = (inr d', sys') ->
  exists d, devices sys !! i = Some d /\ allowed (status d) target = true
            /\ status d' = target /\ devices sys' !! i = Some d'.
Proof.
  unfold transition. destruct (devices sys !! i) as [d|] eqn:Hd; [|discriminate].
  destruct (allowed (status d) target) eqn:Ha; simpl; [|discriminate].
  intros H. exists d.
  destruct target, loc; inversion H; subst; clear H; simpl;
    rewrite lookup_insert_eq; auto.
Qed.

(** C1. For every device and every attempted transition whose pair
    (current status, target status) is outside the table of section 4.1
    -- in particular whenever the current status is RETIRED -- the
    transition fails with [InvalidTransition] and leaves the whole system
    (device store, audit log, cache, emitted events) unchanged; and the
    device's status is one of the five members of [DeviceStatus]. *)
Theorem transition_outside_table_rejected
        now publish_ok actor (sys : system) (deviceId : Z) (d : Device)
        (target : DeviceStatus) (loc notes : option string) :
  devices sys !! deviceId = Some d ->
  allowed (status d) target = false \/ status d = RETIRED ->
  transition now publish_ok actor sys deviceId target loc notes
    = (inl InvalidTransition, sys)
  /\ In (status d) [IN_STOCK; RESERVED; DEPLOYED; MAINTENANCE; RETIRED]
  /\ In (DeviceStatus_value (status d))
        ["in_stock"; "reserved"; "deployed"; "maintenance"; "retired"].
Proof.
  intros Hd Hna.
  assert (Ha : allowed (status d) target = false).
  { destruct Hna as [H|H]; [exact H|]. rewrite H. apply RETIRED_is_terminal. }
  split; [|split].
  - unfold transition. rewrite Hd, Ha. reflexivity.
  - apply DeviceStatus_members_complete.
  - destruct (status d); simpl; tauto.
Qed.

Lemma transition_outside_table_rejected_witness :
  transition "2024-02-01T00:00:00" true None retired_system 1 IN_STOCK None None
    = (inl InvalidTransition, retired_system)
  /\ In (status retired_device)
        [IN_STOCK; RESERVED; DEPLOYED; MAINTENANCE; RETIRED]
  /\ In (DeviceStatus_value (status retired_device))
        ["in_stock"; "reserved"; "deployed"; "maintenance"; "retired"].
Proof.
  apply (transition_outside_table_rejected
           "2024-02-01T00:00:00" true None retired_system 1 retired_device
           IN_STOCK None None).
  - reflexivity.
  - right. reflexivity.
Defined.

End LifecycleFacts.

(** ** The broadcast fan-out queue *)

Section BroadcastQueue.
Import Monitoring SocketIOService Inputs.

Lemma unbounded_never_full (q : Asyncio.Queue) :
  Asyncio.maxsize q <= 0 -> Asyncio.full q = false.
Proof. intros H. unfold Asyncio.full. apply Z.leb_le in H. now rewrite H. Qed.

(** On a queue that is not full the item is appended and one INFO record
    is written. *)
Lemma queue_broadcast_not_full event data st :
  Asyncio.full (_broadcast_queue st) = false ->
  queue_broadcast event data st =
    (Ret tt,
     set_queue {| Asyncio.maxsize := Asyncio.maxsize (_broadcast_queue st);
                  Asyncio.items := Asyncio.items (_broadcast_queue st) ++ [(event, data)] |}
               (emit (Log (Logging.INFO, "Queueing event for broadcast")) st)).
Proof.
  intros Hf. unfold queue_broadcast, try_except, bind, log, do, modify,
    get_state, lift_result, Asyncio.put_nowait. simpl.
  rewrite Hf. reflexivity.
Qed.

(** On a full (hence bounded) queue the item is dropped and an ERROR
    record follows the INFO one; the queue is left as it was. *)
Lemma queue_broadcast_full event data st :
  Asyncio.full (_broadcast_queue st) = true ->
  queue_broadcast event data st =
    (Ret tt,
     emit (Log (Logging.ERROR, "Error queueing broadcast"))
          (emit (Log (Logging.INFO, "Queueing event for broadcast")) st)).
Proof.
  intros Hf. unfold queue_broadcast, try_except, bind, log, do, modify,
    get_state, lift_result, Asyncio.put_nowait. simpl.
  rewrite Hf. reflexivity.
Qed.

(** The queue that [__init__] creates keeps [maxsize = 0] for ever. *)
Lemma queue_broadcast_maxsize event data st :
  Asyncio.maxsize (_broadcast_queue (snd (queue_broadcast event data st)))
  = Asyncio.maxsize (_broadcast_queue st).
Proof.
  destruct (Asyncio.full (_broadcast_queue st)) eqn:Hf.
  - rewrite queue_broadcast_full by exact Hf. reflexivity.
  - rewrite queue_broadcast_not_full by exact Hf. reflexivity.
Qed.

Lemma enqueue_all_qsize evs : forall st,
  Asyncio.maxsize (_broadcast_queue st) <= 0 ->
  Asyncio.qsize (_broadcast_queue (enqueue_all evs st))
  = Asyncio.qsize (_broadcast_queue st) + Z.of_nat (length evs).
Proof.
  induction evs as [|[ev data] evs IH]; intros st Hm; simpl.
  - lia.
  - unfold enqueue_all in *. simpl. rewrite IH.
    + rewrite queue_broadcast_not_full by (now apply unbounded_never_full).
      unfold Asyncio.qsize. simpl. rewrite length_app. simpl. lia.
    + rewrite queue_broadcast_maxsize. exact Hm.
Qed.

(** C2, as stated, fails: the queue of the service has no capacity.
    Whatever bound is proposed, the consumer can hand over enough events
    for the queue to hold more than that. *)
Lemma broadcast_queue_has_no_capacity :
  ~ exists cap : Z,
      forall evs : list (string * dict),
        Asyncio.qsize (_broadcast_queue (enqueue_all evs (initial [] []))) <= cap.
Proof.
  intros [cap H].
  specialize (H (repeat ("telemetry", []) (Z.to_nat (Z.max cap 0) + 1))).
  rewrite enqueue_all_qsize in H by (simpl; lia).
  rewrite repeat_length in H. unfold Asyncio.qsize in H. simpl in H. lia.
Qed.

(** C2 (amended). The queue created by [__init__] is unbounded, and
    [queue_broadcast] on it never blocks, never raises and never drops:
    the call returns, the event is appended at the tail of the queue
    (which thus grows by one), and only the INFO record is logged. *)
Theorem queue_broadcast_never_drops event data st :
  Asyncio.maxsize (_broadcast_queue st) = Asyncio.maxsize SocketIOService.__init__ ->
  exists st',
    queue_broadcast event data st = (Ret tt, st')
    /\ Asyncio.items (_broadcast_queue st')
       = Asyncio.items (_broadcast_queue st) ++ [(event, data)]
    /\ Asyncio.qsize (_broadcast_queue st') = Asyncio.qsize (_broadcast_queue st) + 1
    /\ Asyncio.maxsize (_broadcast_queue st') = Asyncio.maxsize (_broadcast_queue st)
    /\ trace st' = trace st ++ [Log (Logging.INFO, "Queueing event for broadcast")].
Proof.
  intros Hm. simpl in Hm.
  rewrite queue_broadcast_not_full
    by (apply unbounded_never_full; rewrite Hm; lia).
  eexists; split; [reflexivity|]. simpl.
  repeat split. unfold Asyncio.qsize. simpl. rewrite length_app. simpl. lia.
Qed.

Lemma queue_broadcast_never_drops_witness :
  exists st',
    queue_broadcast "telemetry" [("device_id", VInt 7)] (initial [] [])
      = (Ret tt, st')
    /\ Asyncio.items (_broadcast_queue st')
       = Asyncio.items (_broadcast_queue (initial [] []))
         ++ [("telemetry", [("device_id", VInt 7)])]
    /\ Asyncio.qsize (_broadcast_queue st')
       = Asyncio.qsize (_broadcast_queue (initial [] [])) + 1
    /\ Asyncio.maxsize (_broadcast_queue st')
       = Asyncio.maxsize (_broadcast_queue (initial [] []))
    /\ trace st' = trace (initial [] [])
                   ++ [Log (Logging.INFO, "Queueing event for broadcast")].
Proof.
  apply (queue_broadcast_never_drops "telemetry" [("device_id", VInt 7)]
                                     (initial [] [])).
  reflexivity.
Defined.

End BroadcastQueue.

(** ** The document store *)

Section MongoFacts.
Import Mongo.

Lemma key_leb_total (a b : Z * Z * string) :
  key_leb a b = true \/ key_leb b a = true.
Proof.
  destruct a as [[r1 n1] s1], b as [[r2 n2] s2]. unfold key_leb.
  destruct (Z.ltb_spec r1 r2); [now left|].
  destruct (Z.ltb_spec r2 r1); [now right|].
  destruct (Z.ltb_spec n1 n2); [now left|].
  destruct (Z.ltb_spec n2 n1); [now right|].
  apply String.leb_total.
Qed.

Lemma string_leb_trans (s1 s2 s3 : string) :
  String.leb s1 s2 = true -> String.leb s2 s3 = true -> String.leb s1 s3 = true.
Proof.
  intros H12 H23. apply Is_true_true.
  apply Is_true_true in H12, H23.
  change (String.le s1 s3). transitivity s2; assumption.
Qed.

Lemma key_leb_trans (a b c : Z * Z * string) :
  key_leb a b = true -> key_leb b c = true -> key_leb a c = true.
Proof.
  destruct a as [[r1 n1] s1], b as [[r2 n2] s2], c as [[r3 n3] s3].
  unfold key_leb.
  destruct (Z.ltb_spec r1 r2), (Z.ltb_spec r2 r1), (Z.ltb_spec r2 r3),
    (Z.ltb_spec r3 r2), (Z.ltb_spec r1 r3), (Z.ltb_spec r3 r1);
    try lia; try discriminate; auto;
  destruct (Z.ltb_spec n1 n2), (Z.ltb_spec n2 n1), (Z.ltb_spec n2 n3),
    (Z.ltb_spec n3 n2), (Z.ltb_spec n1 n3), (Z.ltb_spec n3 n1);
    try lia; try discriminate; auto.
  apply string_leb_trans.
Qed.

#[local] Instance desc_by_total field : Total (desc_by field).
Proof. intros d1 d2. unfold desc_by. destruct (key_leb_total
         (sort_key (dict_get field d2)) (sort_key (dict_get field d1))); auto. Qed.

#[local] Instance desc_by_trans field : Transitive (desc_by field).
Proof. intros d1 d2 d3 H12 H23. unfold desc_by in *.
       eapply key_leb_trans; eassumption. Qed.

(** [sort(field, -1)] puts every document before all those with a
    smaller key, and keeps exactly the documents it was given. *)
Lemma sort_desc_sorted field docs :
  StronglySorted (desc_by field) (sort_desc field docs).
Proof. apply StronglySorted_merge_sort; apply _. Qed.

Lemma sort_desc_perm field docs : sort_desc field docs ≡ₚ docs.
Proof. apply merge_sort_Permutation. Qed.

Lemma StronglySorted_firstn {A} (R : relation A) n (l : list A) :
  StronglySorted R l -> StronglySorted R (firstn n l).
Proof.
  intros H. revert n. induction H as [|x l Hs IH Hall]; intros [|n]; simpl;
    try constructor; auto.
  apply Forall_forall. intros y Hy.
  rewrite Forall_forall in Hall. apply Hall.
  rewrite <- (firstn_skipn n l). apply elem_of_app. now left.
Qed.

Lemma limit_sorted {R : relation dict} n docs :
  StronglySorted R docs -> StronglySorted R (limit n docs).
Proof.
  intros H. unfold limit. destruct (n =? 0); [exact H|].
  now apply StronglySorted_firstn.
Qed.

Lemma limit_In n docs doc : In doc (limit n docs) -> In doc docs.
Proof.
  unfold limit. destruct (n =? 0); [auto|].
  intros H. rewrite <- (firstn_skipn (Z.abs_nat n) docs).
  apply in_or_app. now left.
Qed.

(** For a limit in the range the controller admits, the cursor yields at
    most [n] documents. *)
Lemma limit_length n docs : 1 <= n -> Z.of_nat (length (limit n docs)) <= n.
Proof.
  intros Hn. unfold limit. destruct (Z.eqb_spec n 0); [lia|].
  rewrite length_firstn. lia.
Qed.

Lemma find_In q coll doc :
  In doc (find q coll) <-> In doc coll /\ matches q doc = true.
Proof. unfold find. apply filter_In. Qed.

(** [delete_many] removes the matching documents, keeps the others in
    place, and counts the removed ones. *)
Lemma delete_many_spec q coll :
  let '(remaining, n) := delete_many q coll in
  (forall doc, In doc remaining <-> In doc coll /\ matches q doc = false)
  /\ n = Z.of_nat (length coll) - Z.of_nat (length remaining).
Proof.
  unfold delete_many, find. split.
  - intros doc. rewrite filter_In. rewrite negb_true_iff. tauto.
  - induction coll as [|d coll IH]; simpl; [lia|].
    destruct (matches q d); simpl in *; lia.
Qed.

End MongoFacts.

(** ** The event store query layer *)

Section QueryLayer.
Import Mongo Inputs.

Lemma collect_Forall2 {A} (f : dict -> outcome A) cursor : forall rs,
  EventsDAO.collect f cursor = Ret rs ->
  Forall2 (fun doc r => f doc = Ret r) cursor rs.
Proof.
  induction cursor as [|doc cursor IH]; simpl; intros rs H.
  - inversion H. constructor.
  - destruct (f doc) as [r|] eqn:Hf; [|discriminate].
    destruct (EventsDAO.collect f cursor) as [rs'|]; [|discriminate].
    inversion H; subst. constructor; auto.
Qed.

Lemma collect_total {A} (f : dict -> outcome A) cursor :
  Forall (fun doc => exists r, f doc = Ret r) cursor ->
  exists rs, EventsDAO.collect f cursor = Ret rs.
Proof.
  induction 1 as [|doc cursor [r Hr] _ [rs IH]]; simpl.
  - now exists [].
  - rewrite Hr, IH. now exists (r :: rs).
Qed.

(** What a response says about the document it was built from. *)
Lemma to_response_fields {P : Pydantic} doc r :
  EventsDAO.to_response doc = Ret r ->
  (exists v, dict_get "device_id" doc = Some v
             /\ validate_int v = Some (EventsDAO.device_id r))
  /\ dict_get "timestamp" doc = Some (VStr (EventsDAO.timestamp r))
  /\ dict_get_default "event_type" (VStr "") doc = VStr (EventsDAO.event_type r).
Proof.
  unfold EventsDAO.to_response.
  destruct (dict_get "_id" doc); [|discriminate].
  destruct (dict_get "device_id" doc) as [dev|]; [|discriminate].
  destruct (dict_get "timestamp" doc) as [ts|]; [|discriminate].
  destruct (validate_int dev) as [n|] eqn:Hn; [|discriminate].
  destruct (dict_get_default "event_type" (VStr "") doc); try discriminate.
  destruct ts; try discriminate.
  destruct (dict_get_default "details" (VDict []) doc); try discriminate.
  intros H. inversion H; subst. simpl. eauto.
Qed.

(** A value that the store matches against an integer and that validation
    reads as an integer is that integer. *)
Lemma matched_int_reads {P : Pydantic} n v k :
  field_matches (EqInt n) (Some v) = true -> validate_int v = Some k -> k = n.
Proof.
  destruct v; simpl; try discriminate.
  intros Hm Hk. inversion Hk; subst. symmetry. now apply Z.eqb_eq.
Qed.

Lemma responses_descending {P : Pydantic} docs : forall rs,
  StronglySorted (desc_by "timestamp") docs ->
  Forall2 (fun doc r => EventsDAO.to_response doc = Ret r) docs rs ->
  descending rs.
Proof.
  unfold descending.
  induction docs as [|doc docs IH]; intros rs Hs H2; inversion H2; subst.
  - constructor.
  - apply StronglySorted_inv in Hs as [Hs Hall]. constructor; [now apply IH|].
    match goal with H : Forall2 _ docs _ |- _ => rename H into Hrest end.
    match goal with H : EventsDAO.to_response doc = _ |- _ =>
      apply to_response_fields in H as (_ & Hts & _) end.
    clear IH H2 Hs. induction Hrest as [|d r ds rs' Hd _ IHr]; constructor.
    + apply Forall_inv in Hall. unfold desc_by in Hall.
      apply to_response_fields in Hd as (_ & Hd & _).
      rewrite Hts, Hd in Hall. exact Hall.
    + apply IHr. now apply Forall_inv_tail in Hall.
Qed.

Lemma get_all_cursor_sorted coll device_id event_type n :
  StronglySorted (desc_by "timestamp")
                 (EventsDAO.get_all_cursor coll device_id event_type n).
Proof. apply limit_sorted, sort_desc_sorted. Qed.

Lemma get_all_cursor_In coll device_id event_type n doc :
  In doc (EventsDAO.get_all_cursor coll device_id event_type n) ->
  In doc coll
  /\ matches (EventsDAO.get_all_query device_id event_type) doc = true.
Proof.
  intros H. apply limit_In in H. apply find_In.
  apply list_elem_of_In. rewrite <- (sort_desc_perm "timestamp").
  now apply list_elem_of_In.
Qed.

Lemma Forall2_In_r {A B} (P : A -> B -> Prop) l rs r :
  Forall2 P l rs -> In r rs -> exists d, In d l /\ P d r.
Proof.
  induction 1 as [|d r' l rs Hp _ IH]; simpl; [tauto|].
  intros [->|Hin]; [eauto|]. destruct (IH Hin) as (d' & ? & ?). eauto.
Qed.

(** With no event of device 0 in the store, asking for device 0 still
    returns all three events, in descending order of their timestamps. *)
Example get_all_device_zero_on_sample :
  option_map (map EventsDAO.device_id)
    (match EventsDAO.get_all (P := digits_only) events_sample (Some 0) None 100 with
     | Ret rs => Some rs | Raise _ => None end)
  = Some [6; 5; 5]
  /\ Mongo.find [("device_id", EqInt 0)] events_sample = [].
Proof. split; vm_compute; reflexivity. Qed.

End QueryLayer.

Section EventsQuery.
Import Mongo Inputs EventsController.

Lemma get_all_device_filter {P : Pydantic} coll n event_type limit rs r :
  n <> 0 ->
  EventsDAO.get_all coll (Some n) event_type limit = Ret rs ->
  In r rs -> EventsDAO.device_id r = n.
Proof.
  intros Hn Hall Hr. apply collect_Forall2 in Hall.
  destruct (Forall2_In_r _ _ _ _ Hall Hr) as (doc & Hdoc & Hresp).
  apply get_all_cursor_In in Hdoc as [_ Hm].
  apply to_response_fields in Hresp as ((v & Hdev & Hread) & _ & _).
  unfold EventsDAO.get_all_query in Hm.
  destruct (Z.eqb_spec n 0) as [|_]; [contradiction|]. simpl in Hm.
  rewrite Hdev in Hm.
  apply andb_true_iff in Hm as [Hm _]. eapply matched_int_reads; eauto.
Qed.

Lemma matches_app q1 q2 doc :
  matches (q1 ++ q2) doc = matches q1 doc && matches q2 doc.
Proof. unfold matches. apply forallb_app. Qed.

Lemma get_all_type_filter {P : Pydantic} coll device_id t limit rs r :
  t <> "" ->
  EventsDAO.get_all coll device_id (Some t) limit = Ret rs ->
  In r rs -> EventsDAO.event_type r = t.
Proof.
  intros Ht Hall Hr. apply collect_Forall2 in Hall.
  destruct (Forall2_In_r _ _ _ _ Hall Hr) as (doc & Hdoc & Hresp).
  apply get_all_cursor_In in Hdoc as [_ Hm].
  apply to_response_fields in Hresp as (_ & _ & Hty).
  unfold EventsDAO.get_all_query in Hm. rewrite matches_app in Hm.
  apply andb_true_iff in Hm as [_ Hm].
  destruct (String.eqb_spec t "") as [|_]; [contradiction|]. simpl in Hm.
  unfold dict_get_default in Hty.
  destruct (dict_get "event_type" doc) as [v|]; [|discriminate].
  subst v. simpl in Hm. apply andb_true_iff in Hm as [Hm _].
  symmetry. now apply String.eqb_eq.
Qed.


(** On the sample, every document is well formed and the query for the
    alerts of device 5 answers with the one matching event. *)
Example get_events_sample_alerts_of_5 :
  Forall (fun doc => exists r, EventsDAO.to_response (P := digits_only) doc = Ret r)
         events_sample
  /\ exists r, get_events (P := digits_only) events_sample (Some 5) (Some "alert") 100
               = OK [r]
               /\ EventsDAO.timestamp r = "2024-01-11T23:59:59.250000".
Proof.
  split.
  - repeat constructor; eexists; vm_compute; reflexivity.
  - eexists. split; [vm_compute; reflexivity|reflexivity].
Qed.

End EventsQuery.

(** ** The age-based purge *)

Section Purge.
Import Mongo Monitoring Inputs.

Lemma days_earlier_toordinal now days :
  Datetime.toordinal (days_earlier now days) = Datetime.toordinal now - days.
Proof. unfold Datetime.toordinal, days_earlier. simpl. lia. Qed.

(** [replace(day=day - days)] is refused as soon as [days] reaches the day
    of the month: by the constructor, or already by the conversion of the
    argument when it does not fit a C [int]. *)
Lemma replace_day_out_of_month now days :
  Datetime.day now <= days ->
  Datetime.replace_day now (Datetime.day now - days)
  = Raise (if Datetime.fits_c_int (Datetime.day now - days)
           then ValueError else OverflowError).
Proof.
  intros H. unfold Datetime.replace_day.
  destruct (Datetime.fits_c_int (Datetime.day now - days)); [|reflexivity].
  cbn [negb]. destruct (Z.leb_spec 1 (Datetime.day now - days)); [lia|].
  reflexivity.
Qed.

Lemma day_fits_c_int y m d :
  1 <= d <= Datetime.days_in_month y m -> Datetime.fits_c_int d = true.
Proof.
  intros H.
  assert (Datetime.days_in_month y m <= 31).
  { unfold Datetime.days_in_month.
    destruct (m =? 2); [destruct (Datetime.is_leap y); lia|].
    destruct ((m =? 4) || (m =? 6) || (m =? 9) || (m =? 11)); lia. }
  unfold Datetime.fits_c_int. change (2 ^ 31) with 2147483648.
  apply andb_true_iff. rewrite !Z.leb_le. lia.
Qed.

Lemma replace_day_in_month now days :
  Datetime.valid now = true -> 0 <= days < Datetime.day now ->
  Datetime.replace_day now (Datetime.day now - days) = Ret (days_earlier now days).
Proof.
  intros Hv H. unfold Datetime.valid in Hv.
  repeat (apply andb_true_iff in Hv as [Hv ?]).
  match goal with H : (Datetime.day now <=? _) = true |- _ => apply Z.leb_le in H end.
  unfold Datetime.replace_day.
  rewrite (day_fits_c_int (Datetime.year now) (Datetime.month now)) by lia.
  cbn [negb].
  destruct (Z.leb_spec 1 (Datetime.day now - days)); [|lia].
  destruct (Z.leb_spec (Datetime.day now - days)
               (Datetime.days_in_month (Datetime.year now) (Datetime.month now)));
    [reflexivity|lia].
Qed.

(** Invoked on a day of the month not greater than [days], the purge
    raises and deletes nothing: [ValueError] from the constructor, or
    [OverflowError] when [day - days] does not fit a C [int]. *)
Lemma delete_old_data_raises now days st :
  Datetime.day now <= days ->
  let x := if Datetime.fits_c_int (Datetime.day now - days)
           then ValueError else OverflowError in
  EventsDAO.delete_old_data now days st = (Raise x, st)
  /\ TelemetryDAO.delete_old_data now days st = (Raise x, st).
Proof.
  intros H. unfold EventsDAO.delete_old_data, TelemetryDAO.delete_old_data,
    bind, lift_result.
  rewrite replace_day_out_of_month by exact H. split; reflexivity.
Qed.

Lemma delete_old_data_raises_witness :
  EventsDAO.delete_old_data mid_march 30 stale_state = (Raise ValueError, stale_state)
  /\ TelemetryDAO.delete_old_data mid_march 30 stale_state
     = (Raise ValueError, stale_state).
Proof. apply (delete_old_data_raises mid_march 30 stale_state). simpl. lia. Defined.

(** A retention that does not fit a C [int] is refused before the
    constructor is reached. *)
Example delete_old_data_overflows :
  EventsDAO.delete_old_data mid_march (2 ^ 31 + 16) stale_state
  = (Raise OverflowError, stale_state).
Proof. reflexivity. Qed.

(** Invoked on a later day of the month, each purge deletes exactly the
    records of its store whose timestamp is below the ISO form of the
    instant [days] days earlier, leaves the other store alone, and returns
    the number of records deleted. *)
Lemma delete_old_data_same_month now days st :
  Datetime.valid now = true -> 0 <= days < Datetime.day now ->
  let old := matches [("timestamp", LtStr (Datetime.isoformat (days_earlier now days)))] in
  (exists st',
     EventsDAO.delete_old_data now days st
     = (Ret (Z.of_nat (length (List.filter old (events_collection st)))), st')
     /\ events_collection st'
        = List.filter (fun doc => negb (old doc)) (events_collection st)
     /\ telemetry_collection st' = telemetry_collection st)
  /\ (exists st',
        TelemetryDAO.delete_old_data now days st
        = (Ret (Z.of_nat (length (List.filter old (telemetry_collection st)))), st')
        /\ telemetry_collection st'
           = List.filter (fun doc => negb (old doc)) (telemetry_collection st)
        /\ events_collection st' = events_collection st).
Proof.
  intros Hv H old.
  unfold EventsDAO.delete_old_data, TelemetryDAO.delete_old_data, bind, lift_result.
  rewrite replace_day_in_month by assumption.
  split; eexists; (split; [reflexivity|]); split; reflexivity.
Qed.

Lemma delete_old_data_same_month_witness :
  (exists st',
     EventsDAO.delete_old_data end_march 30 stale_state = (Ret 1, st')
     /\ events_collection st' = []
     /\ telemetry_collection st' = telemetry_collection stale_state)
  /\ (exists st',
        TelemetryDAO.delete_old_data end_march 30 stale_state = (Ret 1, st')
        /\ telemetry_collection st' = []
        /\ events_collection st' = events_collection stale_state).
Proof.
  apply (delete_old_data_same_month end_march 30 stale_state).
  - reflexivity.
  - simpl. lia.
Defined.

(** C5: the code at a failing input.  On 15 March 2024 the default
    retention of 30 days makes both purges raise [ValueError]: the records
    of January 2023 stay, and no count is returned. *)
Theorem delete_old_data_fails_mid_month :
  EventsDAO.delete_old_data mid_march 30 stale_state = (Raise ValueError, stale_state)
  /\ TelemetryDAO.delete_old_data mid_march 30 stale_state
     = (Raise ValueError, stale_state)
  /\ Datetime.valid mid_march = true
  /\ Forall (fun doc => matches [("timestamp", LtStr "2024-02-14T12:00:00")] doc = true)
            (events_collection stale_state ++ telemetry_collection stale_state).
Proof.
  split; [|split; [|split]]; try (vm_compute; reflexivity).
  repeat constructor.
Qed.

End Purge.

(** ** Dictionaries *)

Section DictFacts.

Lemma dict_get_set_eq k v d : dict_get k (dict_set k v d) = Some v.
Proof.
  induction d as [|[k' v'] d IH]; simpl.
  - now rewrite String.eqb_refl.
  - destruct (String.eqb k k') eqn:E; simpl; rewrite E; auto.
Qed.

Lemma dict_get_set_ne k k' v d :
  k <> k' -> dict_get k (dict_set k' v d) = dict_get k d.
Proof.
  intros Hne. induction d as [|[k'' v''] d IH]; simpl.
  - destruct (String.eqb_spec k k'); [contradiction|reflexivity].
  - destruct (String.eqb_spec k' k'') as [->|]; simpl.
    + destruct (String.eqb_spec k k''); [contradiction|reflexivity].
    + destruct (String.eqb k k''); auto.
Qed.

Lemma dict_contains_set k v d : dict_contains k (dict_set k v d) = true.
Proof. unfold dict_contains. now rewrite dict_get_set_eq. Qed.

Lemma dict_set_serializable k v d :
  serializable v = true ->
  forallb (fun kv => serializable (snd kv)) d = true ->
  forallb (fun kv => serializable (snd kv)) (dict_set k v d) = true.
Proof.
  intros Hv. induction d as [|[k' v'] d IH]; simpl.
  - now rewrite Hv.
  - intros H. apply andb_true_iff in H as [H1 H2].
    destruct (String.eqb k k'); simpl.
    + now rewrite Hv, H2.
    + now rewrite H1, IH.
Qed.

End DictFacts.

(** ** The event publisher *)

Section Publisher.
Import RabbitMQPublisher Inputs.

Lemma stamp_has_timestamp b ev : dict_contains "timestamp" (stamp b ev) = true.
Proof.
  unfold stamp. destruct (dict_contains "timestamp" ev) eqn:E; simpl; auto.
  apply dict_contains_set.
Qed.

Lemma stamp_keeps_timestamp b ev :
  dict_contains "timestamp" ev = true -> stamp b ev = ev.
Proof. unfold stamp. now intros ->. Qed.

Lemma stamp_keeps_other_keys b ev k :
  k <> "timestamp" -> dict_get k (stamp b ev) = dict_get k ev.
Proof.
  intros Hk. unfold stamp. destruct (dict_contains "timestamp" ev); simpl; auto.
  now apply dict_get_set_ne.
Qed.

Lemma stamp_serializable b ev :
  serializable (VDict ev) = true -> serializable (VDict (stamp b ev)) = true.
Proof.
  unfold stamp. destruct (dict_contains "timestamp" ev); simpl; auto.
  now apply dict_set_serializable.
Qed.

Ltac run_publish :=
  unfold publish_event, channel, connection, request, json_dumps, log,
    try_except, bind, modify, get_state, ret, raise, any_Exception;
  simpl.

Ltac split_errors b :=
  repeat match goal with
  | |- context [match connect_error b with _ => _ end] =>
      destruct (connect_error b) as [[]|] eqn:?; simpl
  | |- context [match channel_error b with _ => _ end] =>
      destruct (channel_error b) as [[]|] eqn:?; simpl
  | |- context [match exchange_declare_error b with _ => _ end] =>
      destruct (exchange_declare_error b) as [[]|] eqn:?; simpl
  | |- context [match basic_publish_error b with _ => _ end] =>
      destruct (basic_publish_error b) as [[]|] eqn:?; simpl
  end.

Ltac finish_publish :=
  repeat split; intros; unfold connect_attempts, declare_attempts in *;
  simpl in *; try lia; try congruence; try discriminate;
  try (left; reflexivity); try (right; reflexivity);
  try match goal with
      | H : Some _ = Some ?e, A : is_AMQPError ?e = true |- _ =>
          inversion H; subst; simpl in A; discriminate
      end.

(** Whatever the broker answers, a call returns a boolean, and what it
    sends is nothing or the event of the call with its timestamp. *)
Lemma publish_event_sends b rk ev p :
  exists (ok : bool) (p' : publisher) (t : list action),
    publish_event b rk ev p = (Ret ok, p')
    /\ trace p' = trace p ++ t
    /\ (publish_attempts t = [] \/ publish_attempts t = [(rk, stamp b ev)]).
Proof.
  run_publish.
  destruct (forallb _ (stamp b ev)); simpl;
    [destruct (none_or_closed (_channel p)); simpl;
     [destruct (none_or_closed (_connection p)); simpl|]|];
    split_errors b;
    do 3 eexists; (split; [reflexivity|]); simpl; rewrite <- ?app_assoc; simpl;
    (split; [reflexivity|]); simpl; auto.
Qed.

(** C6, as stated, fails: a call made after the link to the broker was
    lost, on handles that still read open, returns [False] after a single
    publish request; it makes no connection request and declares no
    exchange. *)
Lemma publish_on_dropped_link_does_not_reconnect :
  let r := publish_event dropped_link "device.event" status_change_event
                         stale_publisher in
  fst r = Ret false
  /\ connect_attempts (trace (snd r)) = 0%nat
  /\ declare_attempts (trace (snd r)) = 0%nat
  /\ length (publish_attempts (trace (snd r))) = 1%nat.
Proof. vm_compute. repeat split. Qed.

(** C6 (amended). [publish_event] never raises and holds no event back: it
    returns a boolean, and makes at most one connection request and at most
    one publish request per call (there is no retry).  A call made while
    the loss of the connection is recorded (handles unset or closed) first
    asks for a new connection, then -- connection and channel granted --
    declares the exchange, then -- exchange declared -- publishes once and
    returns [True] exactly when the broker accepts the message.  A call on
    a channel that reads open does not reconnect.  When the publish request
    fails with a broker error the call returns [False] and unsets both
    handles, so that the next call is made with the loss recorded. *)
Theorem publish_event_contract
        (b : broker) (rk : string) (ev : dict) (p : publisher) :
  exists (ok : bool) (p' : publisher) (t : list action),
    publish_event b rk ev p = (Ret ok, p')
    /\ trace p' = trace p ++ t
    /\ (publish_attempts t = [] \/ publish_attempts t = [(rk, stamp b ev)])
    /\ (connect_attempts t <= 1)%nat
    /\ (ok = true ->
        length (publish_attempts t) = 1%nat /\ basic_publish_error b = None)
    /\ (recorded_lost p = true -> serializable (VDict ev) = true ->
        connect_attempts t = 1%nat
        /\ (connect_error b = None -> channel_error b = None ->
            declare_attempts t = 1%nat
            /\ (exchange_declare_error b = None ->
                publish_attempts t = [(rk, stamp b ev)]
                /\ ok = match basic_publish_error b with
                        | None => true
                        | Some _ => false
                        end)))
    /\ (none_or_closed (_channel p) = false ->
        connect_attempts t = 0%nat /\ declare_attempts t = 0%nat)
    /\ (forall e, length (publish_attempts t) = 1%nat ->
                  basic_publish_error b = Some e -> is_AMQPError e = true ->
                  ok = false /\ recorded_lost p' = true).
Proof.
  unfold recorded_lost.
  pose proof (stamp_serializable b ev) as Hstamp.
  run_publish. simpl in Hstamp.
  destruct (forallb _ (stamp b ev)) eqn:Hser; simpl.
  2:{ do 3 eexists. split; [reflexivity|]. simpl.
      split; [reflexivity|]. finish_publish.
      all: match goal with H : forallb _ _ = true |- _ =>
             specialize (Hstamp H); discriminate end. }
  clear Hstamp.
  destruct (none_or_closed (_channel p)) eqn:Hch; simpl;
    [destruct (none_or_closed (_connection p)) eqn:Hco; simpl|];
    split_errors b;
    do 3 eexists; (split; [reflexivity|]); simpl; rewrite <- ?app_assoc; simpl;
    (split; [reflexivity|]); finish_publish.
Qed.

Lemma publish_event_contract_witness :
  exists (ok : bool) (p' : publisher) (t : list action),
    publish_event healthy_broker "device.event" status_change_event __init__
    = (Ret ok, p')
    /\ trace p' = trace __init__ ++ t
    /\ connect_attempts t = 1%nat
    /\ declare_attempts t = 1%nat
    /\ publish_attempts t
       = [("device.event", stamp healthy_broker status_change_event)]
    /\ ok = true.
Proof.
  destruct (publish_event_contract healthy_broker "device.event"
              status_change_event __init__)
    as (ok & p' & t & Hrun & Htrace & _ & _ & _ & Hlost & _).
  exists ok, p', t.
  destruct (Hlost eq_refl eq_refl) as (Hc & Hrest).
  destruct (Hrest eq_refl eq_refl) as (Hd & Hrest').
  destruct (Hrest' eq_refl) as (Hp & Hok).
  repeat split; assumption.
Defined.

(** After a failed publish on a dropped link the next call, the broker
    being back, reconnects, declares the exchange and publishes. *)
Example publish_after_failure_reconnects :
  let p1 := snd (publish_event dropped_link "device.event" status_change_event
                               stale_publisher) in
  let r := publish_event healthy_broker "device.event" status_change_event p1 in
  recorded_lost p1 = true
  /\ fst r = Ret true
  /\ connect_attempts (trace (snd r)) = 1%nat
  /\ declare_attempts (trace (snd r)) = 1%nat
  /\ length (publish_attempts (trace (snd r))) = 2%nat.
Proof. vm_compute. repeat split. Qed.

End Publisher.

(** ** The read cache *)

Section ReadCache.
Import CacheService Inputs.

Ltac run_cache :=
  unfold get, set, delete, delete_pattern, client, command, json_dumps, log,
    client_fails, try_except, bind, modify, get_state, ret, raise;
  simpl.

(** The lazy connection leaves the attribute set even when the [ping]
    fails, so the next call skips the [ping]. *)
Lemma client_sets_attribute r st :
  _client (snd (client r st)) = Some tt.
Proof.
  run_cache. destruct (_client st) as [[]|] eqn:E; [exact E|].
  destruct (ping r) as [[]|]; reflexivity.
Qed.

(** C8. Every Read Cache operation returns to its caller, whatever the
    Redis server does: [get] returns [None] when the lazy connection
    attempt fails or the command raises, and the stored value otherwise;
    [set] and [delete] return [False], and [delete_pattern] returns 0, in
    the same error cases ([set] also when the value cannot be serialized).
    No call ends in a raised cache exception. *)
Theorem cache_operations_never_raise
        (r : redis) (st : service) (key pattern : string) (v : value)
        (expire_seconds : Z) :
  fst (get r key st)
  = Ret (if client_fails r st then None
         else match GET r key with inl _ => None | inr x => x end)
  /\ fst (set r key v expire_seconds st)
     = Ret (if negb (serializable v) || client_fails r st then false
            else match SETEX r key expire_seconds v with
                 | inl _ => false
                 | inr done => done
                 end)
  /\ fst (delete r key st)
     = Ret (if client_fails r st then false
            else match DEL r [key] with
                 | inl _ => false
                 | inr n => negb (n =? 0)
                 end)
  /\ fst (delete_pattern r pattern st)
     = Ret (if client_fails r st then 0
            else match KEYS r pattern with
                 | inl _ => 0
                 | inr [] => 0
                 | inr keys => match DEL r keys with inl _ => 0 | inr n => n end
                 end).
Proof.
  destruct st as [[[]|] records]; run_cache; repeat split;
    try (destruct (serializable v); simpl; [|reflexivity]);
    try (destruct (ping r) as [[]|]; simpl);
    try reflexivity;
    try (destruct (GET r key); reflexivity);
    try (destruct (SETEX r key expire_seconds v); reflexivity);
    try (destruct (DEL r [key]); reflexivity);
    destruct (KEYS r pattern) as [|[|k ks]]; simpl; try reflexivity;
    destruct (DEL r (k :: ks)); reflexivity.
Qed.

(** With the server down, from a fresh service and from one whose client
    attribute is already set. *)
Example cache_down_is_a_miss :
  fst (get redis_down "device:7" __init__) = Ret None
  /\ fst (get redis_down "device:7" (snd (get redis_down "device:7" __init__)))
     = Ret None
  /\ fst (set redis_down "device:7" (VDict []) 300 __init__) = Ret false
  /\ fst (delete redis_down "device:7" __init__) = Ret false
  /\ fst (delete_pattern redis_down "devices:*" __init__) = Ret 0.
Proof. vm_compute. repeat split. Qed.

End ReadCache.

(** ** The event consumer *)

Section ConsumerFacts.
Import Monitoring RabbitMQConsumer Inputs.

Lemma quiet_ret {A} (a : A) : quiet (ret a).
Proof. intros st r st' H. inversion H; subst. exists []. now rewrite app_nil_r. Qed.

Lemma quiet_raise {A} e : quiet (@raise state A e).
Proof. intros st r st' H. inversion H; subst. exists []. now rewrite app_nil_r. Qed.

Lemma quiet_lift_result {A} (o : outcome A) : quiet (lift_result o).
Proof. intros st r st' H. inversion H; subst. exists []. now rewrite app_nil_r. Qed.

Lemma quiet_get_state : quiet get_state.
Proof. intros st r st' H. inversion H; subst. exists []. now rewrite app_nil_r. Qed.

Lemma quiet_modify (f : state -> state) :
  (forall s, trace (f s) = trace s) -> quiet (modify f).
Proof.
  intros Hf st r st' H. inversion H; subst. exists [].
  now rewrite Hf, app_nil_r.
Qed.

Lemma quiet_do a :
  match a with BasicAck _ => False | _ => True end -> quiet (do a).
Proof.
  intros Ha st r st' H. inversion H; subst. exists [a]. split; [reflexivity|].
  destruct a; simpl; auto. contradiction.
Qed.

Lemma quiet_log l msg : quiet (log l msg).
Proof. apply quiet_do. exact I. Qed.

Lemma acks_app t1 t2 : acks (t1 ++ t2) = acks t1 ++ acks t2.
Proof. unfold acks. apply flat_map_app. Qed.

Lemma quiet_bind {A B} (c : M state A) (k : A -> M state B) :
  quiet c -> (forall a, quiet (k a)) -> quiet (bind c k).
Proof.
  intros Hc Hk st r st' H. unfold bind in H.
  destruct (c st) as [[a|e] s1] eqn:Hcs.
  - destruct (Hc _ _ _ Hcs) as (t1 & Ht1 & Ha1).
    destruct (Hk a _ _ _ H) as (t2 & Ht2 & Ha2).
    exists (t1 ++ t2). rewrite Ht2, Ht1, app_assoc, acks_app, Ha1, Ha2. auto.
  - inversion H; subst. eauto.
Qed.

Lemma quiet_try_except {A} (c : M state A) handles h :
  quiet c -> (forall e, quiet (h e)) -> quiet (try_except c handles h).
Proof.
  intros Hc Hh st r st' H. unfold try_except in H.
  destruct (c st) as [[a|e] s1] eqn:Hcs.
  - inversion H; subst. eauto.
  - destruct (Hc _ _ _ Hcs) as (t1 & Ht1 & Ha1).
    destruct (handles e).
    + destruct (Hh e _ _ _ H) as (t2 & Ht2 & Ha2).
      exists (t1 ++ t2). rewrite Ht2, Ht1, app_assoc, acks_app, Ha1, Ha2. auto.
    + inversion H; subst. eauto.
Qed.

Create HintDb quiet.
Hint Resolve quiet_ret quiet_raise quiet_lift_result quiet_get_state
  quiet_log : quiet.

Ltac quiet_step :=
  first [ apply quiet_bind; [|intros ?]
        | apply quiet_try_except; [|intros ?]
        | apply quiet_modify; intros []; reflexivity
        | apply quiet_do; exact I
        | solve [auto with quiet] ].

Ltac quiet_auto :=
  repeat first
    [ quiet_step
    | match goal with
      | |- quiet (match ?x with _ => _ end) => destruct x
      | |- quiet (if ?x then _ else _) => destruct x
      end ].

Lemma quiet_queue_broadcast ev data : quiet (SocketIOService.queue_broadcast ev data).
Proof. unfold SocketIOService.queue_broadcast. quiet_auto. Qed.

Lemma quiet_events_insert e data : quiet (EventsDAO.insert e data).
Proof. unfold EventsDAO.insert. quiet_auto. Qed.

Lemma quiet_telemetry_insert e data : quiet (TelemetryDAO.insert e data).
Proof. unfold TelemetryDAO.insert. quiet_auto. Qed.

Lemma quiet_get_device_type e device_id : quiet (_get_device_type e device_id).
Proof. unfold _get_device_type. quiet_auto. Qed.

Lemma quiet_callback ev payload : quiet (call_socketio_callback ev payload).
Proof.
  unfold call_socketio_callback. quiet_auto.
Qed.

#[local] Hint Resolve quiet_queue_broadcast quiet_events_insert
  quiet_telemetry_insert quiet_get_device_type quiet_callback : quiet.

Lemma quiet_as_dict v : quiet (as_dict v).
Proof. unfold as_dict. quiet_auto. Qed.

#[local] Hint Resolve quiet_as_dict : quiet.

(** A callback, [try: body  except Exception: log  finally: ack], returns
    whatever its body does; the acknowledgment comes last. *)
Lemma handler_shape (body : M state unit) msg tag st :
  quiet body ->
  exists st1 t,
    try_finally (try_except body any_Exception (fun _ => log Logging.ERROR msg))
                (do (BasicAck tag)) st
    = (Ret tt, emit (BasicAck tag) st1)
    /\ trace st1 = trace st ++ t /\ acks t = []
    /\ (forall s, body st = (Ret tt, s) -> st1 = s)
    /\ (forall x s, body st = (Raise x, s) ->
                    st1 = emit (Log (Logging.ERROR, msg)) s).
Proof.
  intros Hq. unfold try_finally, try_except, any_Exception.
  destruct (body st) as [[[]|x] s1] eqn:Hb.
  - destruct (Hq _ _ _ Hb) as (t & Ht & Ha).
    exists s1, t. repeat split; auto; intros; congruence.
  - destruct (Hq _ _ _ Hb) as (t & Ht & Ha).
    exists (emit (Log (Logging.ERROR, msg)) s1), (t ++ [Log (Logging.ERROR, msg)]).
    simpl. rewrite Ht, app_assoc, acks_app, Ha. repeat split; auto; intros; congruence.
Qed.

Lemma quiet_on_telemetry_try e body : quiet (_on_telemetry_try e body).
Proof. unfold _on_telemetry_try. quiet_auto. Qed.

Lemma quiet_on_device_event_try e body : quiet (_on_device_event_try e body).
Proof. unfold _on_device_event_try. quiet_auto. Qed.

(** What [insert] does, by the answer of the store. *)
Lemma events_insert_run e data st :
  let sent := ensure_timestamp e data in
  let doc := Mongo.with_id (mongo e) sent in
  EventsDAO.insert e data st =
  match Mongo.insert_error (mongo e) with
  | Some x => (Raise x, emit (InsertOne DEVICE_EVENTS_COLLECTION sent) st)
  | None =>
      (Ret (dict_get_default "_id" VNone doc, doc),
       emit (Log (Logging.INFO, "Device event stored"))
         (set_events (events_collection st ++ [doc])
            (emit (InsertOne DEVICE_EVENTS_COLLECTION sent) st)))
  end.
Proof.
  unfold EventsDAO.insert, Mongo.insert_one, bind, do, modify, get_state, log,
    raise, ret. simpl.
  destruct (Mongo.insert_error (mongo e)); reflexivity.
Qed.

Lemma telemetry_insert_run e data st :
  let sent := ensure_timestamp e data in
  let doc := Mongo.with_id (mongo e) sent in
  TelemetryDAO.insert e data st =
  match Mongo.insert_error (mongo e) with
  | Some x => (Raise x, emit (InsertOne TELEMETRY_COLLECTION sent) st)
  | None =>
      (Ret (dict_get_default "_id" VNone doc, doc),
       emit (Log (Logging.INFO, "Telemetry stored"))
         (set_telemetry (telemetry_collection st ++ [doc])
            (emit (InsertOne TELEMETRY_COLLECTION sent) st)))
  end.
Proof.
  unfold TelemetryDAO.insert, Mongo.insert_one, bind, do, modify, get_state, log,
    raise, ret. simpl.
  destruct (Mongo.insert_error (mongo e)); reflexivity.
Qed.

(** Once the write is attempted it stays in the trace, whatever follows. *)
Lemma events_insert_then {B} e data (k : value * dict -> M state B) st r s :
  (forall a, quiet (k a)) ->
  bind (EventsDAO.insert e data) k st = (r, s) ->
  exists t2, trace s
             = trace st ++ InsertOne DEVICE_EVENTS_COLLECTION (ensure_timestamp e data) :: t2.
Proof.
  intros Hk H. unfold bind in H. rewrite events_insert_run in H.
  destruct (Mongo.insert_error (mongo e)).
  - inversion H; subst. exists []. reflexivity.
  - destruct (Hk _ _ _ _ H) as (t & Ht & _). rewrite Ht. simpl.
    rewrite <- !app_assoc. simpl. eauto.
Qed.

Lemma telemetry_insert_then {B} e data (k : value * dict -> M state B) st r s :
  (forall a, quiet (k a)) ->
  bind (TelemetryDAO.insert e data) k st = (r, s) ->
  exists t2, trace s
             = trace st ++ InsertOne TELEMETRY_COLLECTION (ensure_timestamp e data) :: t2.
Proof.
  intros Hk H. unfold bind in H. rewrite telemetry_insert_run in H.
  destruct (Mongo.insert_error (mongo e)).
  - inversion H; subst. exists []. reflexivity.
  - destruct (Hk _ _ _ _ H) as (t & Ht & _). rewrite Ht. simpl.
    rewrite <- !app_assoc. simpl. eauto.
Qed.

(** On a hashable device id the lookup returns: every failure inside it is
    caught. *)
Lemma get_device_type_returns e device_id st :
  hashable device_id = true ->
  exists v s, _get_device_type e device_id st = (Ret v, s).
Proof.
  intros Hh. unfold _get_device_type. rewrite Hh. simpl.
  unfold bind, get_state, try_except, any_Exception, do, modify, lift_result,
    log, ret, raise. simpl.
  destruct (cache_lookup device_id (_device_type_cache st)); [eauto|].
  destruct (requests_get_type e device_id) as [code [[]|x]|x]; simpl;
    try destruct (code =? 200); simpl; eauto.
Qed.

(** In the [try] block of the device-event callback, a decoded object is
    written to the store before anything else happens. *)
Lemma device_event_try_inserts e body payload st r s :
  json_loads e body = Ret (VDict payload) ->
  _on_device_event_try e body st = (r, s) ->
  exists t2, trace s
             = trace st ++ InsertOne DEVICE_EVENTS_COLLECTION
                             (ensure_timestamp e (default_timestamp e payload)) :: t2.
Proof.
  intros Hj H. unfold _on_device_event_try in H.
  unfold bind at 1 2 in H. unfold lift_result in H. rewrite Hj in H. simpl in H.
  eapply events_insert_then; [|exact H]. intros a. quiet_auto.
Qed.

Lemma telemetry_try_inserts e body payload st r s :
  json_loads e body = Ret (VDict payload) ->
  let device_id := dict_get_default "device_id" VNone (prepared e payload) in
  truthy device_id = false \/ hashable device_id = true ->
  _on_telemetry_try e body st = (r, s) ->
  exists doc t1 t2,
    trace s = trace st ++ t1 ++ InsertOne TELEMETRY_COLLECTION doc :: t2.
Proof.
  intros Hj device_id Hd H. unfold _on_telemetry_try in H.
  unfold bind at 1 2 in H. unfold lift_result in H. rewrite Hj in H. simpl in H.
  fold (prepared e payload) in H. fold device_id in H.
  destruct (truthy device_id) eqn:Ht.
  - destruct Hd as [Hd|Hd]; [discriminate|].
    destruct (get_device_type_returns e device_id st Hd) as (v & s1 & Hg).
    destruct (quiet_get_device_type e device_id _ _ _ Hg) as (t1 & Ht1 & _).
    unfold bind at 1 2 in H. rewrite Hg in H. simpl in H.
    eapply telemetry_insert_then in H; [|intros a; quiet_auto].
    destruct H as (t2 & H). rewrite H, Ht1, <- app_assoc. eauto.
  - unfold bind at 1 in H. simpl in H.
    eapply telemetry_insert_then in H; [|intros a; quiet_auto].
    destruct H as (t2 & H). exists (ensure_timestamp e (prepared e payload)), [], t2.
    exact H.
Qed.

Lemma try_block_malformed e body x st :
  json_loads e body = Raise x ->
  _on_telemetry_try e body st = (Raise x, st)
  /\ _on_device_event_try e body st = (Raise x, st).
Proof.
  intros Hj. unfold _on_telemetry_try, _on_device_event_try, bind, lift_result.
  rewrite Hj. split; reflexivity.
Qed.

(** A body that decodes to something other than an object has no [get]:
    the first statement after the decoding raises. *)
Lemma try_block_not_object e body v st :
  json_loads e body = Ret v -> (forall payload, v <> VDict payload) ->
  _on_telemetry_try e body st = (Raise AttributeError, st)
  /\ _on_device_event_try e body st = (Raise AttributeError, st).
Proof.
  intros Hj Hv. unfold _on_telemetry_try, _on_device_event_try, bind, lift_result.
  rewrite Hj. destruct v; try (split; reflexivity). now destruct (Hv d).
Qed.

(** A device id that cannot be a dictionary key stops the telemetry
    callback at the type lookup. *)
Lemma telemetry_try_unhashable e body payload st :
  json_loads e body = Ret (VDict payload) ->
  let device_id := dict_get_default "device_id" VNone (prepared e payload) in
  truthy device_id = true -> hashable device_id = false ->
  _on_telemetry_try e body st = (Raise TypeError, st).
Proof.
  intros Hj device_id Ht Hh. unfold _on_telemetry_try.
  unfold bind at 1 2. unfold lift_result. rewrite Hj. simpl.
  fold (prepared e payload). fold device_id. rewrite Ht.
  unfold bind, _get_device_type. rewrite Hh. reflexivity.
Qed.



(** A failed lookup: the sentinel is ['other'], a warning is logged, and
    nothing is memoized. *)
Lemma get_device_type_failed e device_id st :
  hashable device_id = true ->
  cache_lookup device_id (_device_type_cache st) = None ->
  lookup_fails (requests_get_type e device_id) = true ->
  _get_device_type e device_id st
  = (Ret (VStr "other"),
     emit (Log (Logging.WARNING, lookup_warning (requests_get_type e device_id)))
          (emit (HttpGet device_id) st)).
Proof.
  intros Hh Hc Hf. unfold _get_device_type. rewrite Hh. simpl.
  unfold bind at 1. unfold get_state. rewrite Hc.
  unfold try_except, bind, do, modify, lift_result, log, ret, raise,
    any_Exception. simpl.
  destruct (requests_get_type e device_id) as [code js|x]; simpl in *;
    [|reflexivity].
  destruct (code =? 200); simpl; [|reflexivity].
  destruct js as [[]|x]; simpl; try reflexivity. discriminate.
Qed.

Lemma key_eqb_refl k : hashable k = true -> key_eqb k k = true.
Proof.
  destruct k as [|b|n|s| | |s]; simpl; intros H; try discriminate; auto.
  - now destruct b.
  - apply Z.eqb_refl.
  - apply String.eqb_refl.
  - apply String.eqb_refl.
Qed.

Lemma cache_lookup_store k v c :
  hashable k = true -> cache_lookup k (cache_store k v c) = Some v.
Proof.
  intros Hk. induction c as [|[k' v'] c IH]; simpl.
  - now rewrite key_eqb_refl.
  - destruct (key_eqb k k') eqn:E; simpl; rewrite E; auto.
Qed.

(** A memoized device id is answered from the memo: no request is made
    and nothing changes. *)
Lemma get_device_type_memo_hit e device_id v st :
  hashable device_id = true ->
  cache_lookup device_id (_device_type_cache st) = Some v ->
  _get_device_type e device_id st = (Ret v, st).
Proof.
  intros Hh Hc. unfold _get_device_type. rewrite Hh. simpl.
  unfold bind, get_state. now rewrite Hc.
Qed.

Lemma get_device_type_memo_hit_witness :
  _get_device_type registry_down (VInt 7) warmed = (Ret (VStr "iot_sensor"), warmed).
Proof.
  apply (get_device_type_memo_hit registry_down (VInt 7) (VStr "iot_sensor") warmed);
    reflexivity.
Defined.

(** A successful lookup returns the type the registry gives (['other']
    when the answer has no ["type"]) and memoizes it under the device
    id. *)
Lemma get_device_type_memoizes e device_id d st :
  hashable device_id = true ->
  cache_lookup device_id (_device_type_cache st) = None ->
  requests_get_type e device_id = Response 200 (Ret (VDict d)) ->
  exists st',
    _get_device_type e device_id st
    = (Ret (dict_get_default "type" (VStr "other") d), st')
    /\ cache_lookup device_id (_device_type_cache st')
       = Some (dict_get_default "type" (VStr "other") d)
    /\ telemetry_collection st' = telemetry_collection st
    /\ events_collection st' = events_collection st.
Proof.
  intros Hh Hc Hr. unfold _get_device_type. rewrite Hh. simpl.
  unfold bind at 1. unfold get_state. rewrite Hc.
  unfold try_except, bind, do, modify, lift_result, log, ret. simpl.
  rewrite Hr. simpl. eexists. split; [reflexivity|]. simpl.
  split; [now apply cache_lookup_store|]. split; reflexivity.
Qed.

Lemma get_device_type_memoizes_witness :
  exists st',
    _get_device_type registry_up (VInt 7) running = (Ret (VStr "iot_sensor"), st')
    /\ cache_lookup (VInt 7) (_device_type_cache st') = Some (VStr "iot_sensor")
    /\ telemetry_collection st' = telemetry_collection running
    /\ events_collection st' = events_collection running.
Proof.
  apply (get_device_type_memoizes registry_up (VInt 7) [("type", VStr "iot_sensor")]
                                  running); reflexivity.
Defined.

Lemma ensure_timestamp_has e d : dict_contains "timestamp" (ensure_timestamp e d) = true.
Proof.
  unfold ensure_timestamp. destruct (dict_contains "timestamp" d) eqn:E; simpl; auto.
  apply dict_contains_set.
Qed.

Lemma ensure_timestamp_other_keys e d k :
  k <> "timestamp" -> dict_get k (ensure_timestamp e d) = dict_get k d.
Proof.
  intros Hk. unfold ensure_timestamp. destruct (dict_contains "timestamp" d); simpl; auto.
  now apply dict_get_set_ne.
Qed.

Lemma with_id_other_keys env d k :
  k <> "_id" -> dict_get k (Mongo.with_id env d) = dict_get k d.
Proof.
  intros Hk. unfold Mongo.with_id. destruct (dict_contains "_id" d); auto.
  now apply dict_get_set_ne.
Qed.

(** The hand-over to the fan-out always returns; it touches the queue and
    the trace only. *)
Lemma callback_run ev payload st :
  exists s t,
    call_socketio_callback ev payload st = (Ret tt, s)
    /\ trace s = trace st ++ t
    /\ telemetry_collection s = telemetry_collection st
    /\ events_collection s = events_collection st
    /\ _device_type_cache s = _device_type_cache st
    /\ (_socketio_callback st = Some tt ->
        Asyncio.maxsize (_broadcast_queue st)
        = Asyncio.maxsize SocketIOService.__init__ ->
        Asyncio.items (_broadcast_queue s)
        = Asyncio.items (_broadcast_queue st) ++ [(ev, dict_without "_id" payload)]).
Proof.
  unfold call_socketio_callback, bind, get_state.
  destruct (_socketio_callback st) as [[]|].
  - destruct (Asyncio.full (_broadcast_queue st)) eqn:Hfull.
    + rewrite queue_broadcast_full by exact Hfull.
      eexists. eexists. split; [reflexivity|]. simpl.
      rewrite <- app_assoc. repeat split.
      intros _ Hm. rewrite unbounded_never_full in Hfull; [discriminate|].
      rewrite Hm. simpl. lia.
    + rewrite queue_broadcast_not_full by exact Hfull.
      eexists. eexists. split; [reflexivity|]. simpl. repeat split.
  - exists st, []. rewrite app_nil_r. repeat split. discriminate.
Qed.

(** Running a sequence whose first statement returns. *)
Lemma bind_ret_run {S A B} (c : M S A) (k : A -> M S B) st a s :
  c st = (Ret a, s) -> bind c k st = k a s.
Proof. intros H. unfold bind. now rewrite H. Qed.

(** Under a failed lookup the [try] block of the telemetry callback comes
    down to the write of the event enriched with ['other'], followed by the
    hand-over to the fan-out. *)
Lemma telemetry_try_failed_lookup e body payload st :
  json_loads e body = Ret (VDict payload) ->
  let device_id := dict_get_default "device_id" VNone (prepared e payload) in
  truthy device_id = true -> hashable device_id = true ->
  cache_lookup device_id (_device_type_cache st) = None ->
  lookup_fails (requests_get_type e device_id) = true ->
  _on_telemetry_try e body st
  = bind (TelemetryDAO.insert e
            (dict_set "device_type" (VStr "other") (prepared e payload)))
         (fun r => call_socketio_callback "telemetry" (snd r) ;;;
                   log Logging.INFO "Telemetry stored")
         (emit (Log (Logging.WARNING,
                     lookup_warning (requests_get_type e device_id)))
               (emit (HttpGet device_id) st)).
Proof.
  intros Hj device_id Ht Hh Hc Hf.
  unfold _on_telemetry_try.
  erewrite bind_ret_run by (unfold lift_result; rewrite Hj; reflexivity).
  erewrite bind_ret_run by reflexivity.
  cbv beta zeta. change (flatten_data (default_timestamp e payload)) with (prepared e payload).
  change (dict_get_default "device_id" VNone (prepared e payload)) with device_id.
  rewrite Ht.
  erewrite bind_ret_run.
  2:{ erewrite bind_ret_run by (apply get_device_type_failed; assumption).
      reflexivity. }
  reflexivity.
Qed.

(** The same as an equation on the result of the body. *)
Lemma handler_run (body : M state unit) msg tag st :
  try_finally (try_except body any_Exception (fun _ => log Logging.ERROR msg))
              (do (BasicAck tag)) st
  = match body st with
    | (Ret a, s) => (Ret a, emit (BasicAck tag) s)
    | (Raise x, s) =>
        (Ret tt, emit (BasicAck tag) (emit (Log (Logging.ERROR, msg)) s))
    end.
Proof.
  unfold try_finally, try_except, any_Exception.
  destruct (body st) as [[]]; reflexivity.
Qed.

(** C3, as stated, fails: with the registry down, the type resolved for
    device 7 is not the marker "unknown". *)
Lemma failed_lookup_is_not_unknown :
  fst (_get_device_type registry_down (VInt 7) running) <> Ret (VStr "unknown").
Proof. vm_compute. discriminate. Qed.

(** C3 (amended). For every consumed telemetry event with a truthy,
    hashable device id that is not memoized and whose type lookup fails
    (the request raises, e.g. on timeout; the status is not 200; the body
    is not a JSON object), [_get_device_type] returns the sentinel
    ['other'] and memoizes nothing; the callback returns, the event is
    enriched with [device_type = 'other'] and the write of that enriched
    event is attempted before the acknowledgment.  When the store accepts
    the write the event is stored, and, the callback being set on the
    queue of [__init__], it is handed to the fan-out. *)
Theorem failed_lookup_falls_back_to_other e tag body payload st :
  json_loads e body = Ret (VDict payload) ->
  let device_id := dict_get_default "device_id" VNone (prepared e payload) in
  truthy device_id = true -> hashable device_id = true ->
  cache_lookup device_id (_device_type_cache st) = None ->
  lookup_fails (requests_get_type e device_id) = true ->
  let enriched := dict_set "device_type" (VStr "other") (prepared e payload) in
  let doc := Mongo.with_id (mongo e) (ensure_timestamp e enriched) in
  fst (_get_device_type e device_id st) = Ret (VStr "other")
  /\ dict_get "device_type" doc = Some (VStr "other")
  /\ exists st' t1 t2,
       _on_telemetry e tag body st = (Ret tt, st')
       /\ trace st' = trace st ++ t1
                      ++ InsertOne TELEMETRY_COLLECTION (ensure_timestamp e enriched)
                      :: t2 ++ [BasicAck tag]
       /\ _device_type_cache st' = _device_type_cache st
       /\ (Mongo.insert_error (mongo e) = None ->
           telemetry_collection st' = telemetry_collection st ++ [doc]
           /\ (_socketio_callback st = Some tt ->
               Asyncio.maxsize (_broadcast_queue st)
               = Asyncio.maxsize SocketIOService.__init__ ->
               Asyncio.items (_broadcast_queue st')
               = Asyncio.items (_broadcast_queue st)
                 ++ [("telemetry", dict_without "_id" doc)])).
Proof.
  intros Hj device_id Ht Hh Hc Hf enriched doc.
  pose proof (get_device_type_failed e device_id st Hh Hc Hf) as Hg.
  split; [now rewrite Hg|]. split.
  { unfold doc. rewrite with_id_other_keys, ensure_timestamp_other_keys by discriminate.
    apply dict_get_set_eq. }
  unfold _on_telemetry. rewrite handler_run.
  rewrite (telemetry_try_failed_lookup e body payload st Hj Ht Hh Hc Hf).
  fold device_id enriched.
  set (s1 := emit _ (emit (HttpGet device_id) st)).
  unfold bind at 1. rewrite telemetry_insert_run. fold doc.
  destruct (Mongo.insert_error (mongo e)) as [x|] eqn:Hins.
  - eexists. exists [HttpGet device_id;
                     Log (Logging.WARNING,
                          lookup_warning (requests_get_type e device_id))].
    exists [Log (Logging.ERROR, "Telemetry consumer error")].
    split; [reflexivity|]. unfold s1. simpl.
    rewrite <- !app_assoc. simpl.
    split; [reflexivity|]. split; [reflexivity|discriminate].
  - set (s2 := emit (Log (Logging.INFO, "Telemetry stored")) _).
    destruct (callback_run "telemetry" doc s2)
      as (s3 & t3 & Hcb & Htr & Htel & _ & Hcache & Hq).
    unfold bind. simpl snd. rewrite Hcb.
    eexists. exists [HttpGet device_id;
                     Log (Logging.WARNING,
                          lookup_warning (requests_get_type e device_id))].
    exists (Log (Logging.INFO, "Telemetry stored") :: t3
            ++ [Log (Logging.INFO, "Telemetry stored")]).
    split; [reflexivity|]. unfold log, do, modify. simpl.
    rewrite Htr, Hcache, Htel. unfold s2, s1. simpl.
    rewrite <- !app_assoc. simpl.
    split; [reflexivity|]. split; [reflexivity|].
    intros _. split; [reflexivity|].
    intros Hset Hmax. apply Hq; assumption.
Qed.

Lemma failed_lookup_falls_back_to_other_witness :
  fst (_get_device_type registry_down (VInt 7) running) = Ret (VStr "other")
  /\ exists st' doc,
       _on_telemetry registry_down 2 telemetry_body running = (Ret tt, st')
       /\ dict_get "device_type" doc = Some (VStr "other")
       /\ dict_get "temperature" doc = Some (VInt 21)
       /\ telemetry_collection st' = [doc]
       /\ Asyncio.items (_broadcast_queue st') = [("telemetry", dict_without "_id" doc)].
Proof.
  destruct (failed_lookup_falls_back_to_other registry_down 2 telemetry_body
              [("device_id", VInt 7); ("data", VDict [("temperature", VInt 21)])]
              running)
    as (Hsentinel & Htype & st' & t1 & t2 & Hrun & _ & _ & Hstored);
    try reflexivity.
  split; [exact Hsentinel|].
  destruct (Hstored eq_refl) as (Hcoll & Hqueue).
  eexists st', _. split; [exact Hrun|].
  split; [exact Htype|]. split; [reflexivity|].
  split; [exact Hcoll|]. exact (Hqueue eq_refl eq_refl).
Defined.


(** The malformed message first, the telemetry of device 7 next: two
    acknowledgments in order, one record stored. *)
Example malformed_then_telemetry :
  let st' := snd (consume [malformed_delivery; telemetry_delivery] running) in
  acks (trace st') = [1; 2]
  /\ length (telemetry_collection st') = 1%nat
  /\ insert_attempts (trace st')
     = [(TELEMETRY_COLLECTION,
         [("device_id", VInt 7); ("timestamp", VStr "2024-03-15T12:00:00");
          ("temperature", VInt 21); ("device_type", VStr "other")])].
Proof. vm_compute. repeat split. Qed.

End ConsumerFacts.

(** ** What a stored record carries *)

Section StoredRecords.
Import Monitoring RabbitMQConsumer RabbitMQPublisher Inputs.

Lemma publish_attempts_app t1 t2 :
  publish_attempts (t1 ++ t2) = publish_attempts t1 ++ publish_attempts t2.
Proof. unfold publish_attempts. apply flat_map_app. Qed.

(** Every message a call of [publish_event] sends is the event of that
    call with its timestamp. *)
Lemma published_message_is_stamped b rk ev p rk' m :
  In (rk', m) (publish_attempts
                 (RabbitMQPublisher.trace (snd (publish_event b rk ev p)))) ->
  In (rk', m) (publish_attempts (RabbitMQPublisher.trace p))
  \/ (rk' = rk /\ m = stamp b ev).
Proof.
  destruct (publish_event_sends b rk ev p)
    as (ok & p' & t & Hrun & Htrace & Hsent).
  rewrite Hrun. simpl. rewrite Htrace, publish_attempts_app.
  intros H. apply in_app_or in H as [H|H]; [now left|right].
  destruct Hsent as [Hs|Hs]; rewrite Hs in H; simpl in H; [contradiction|].
  destruct H as [H|[]]. inversion H. auto.
Qed.

End StoredRecords.

(** ** Device types *)

Section DeviceTypes.
Import Entities.

Lemma DeviceType_of_value_value (t : DeviceType) :
  DeviceType_of_value (DeviceType_value t) = Ret t.
Proof. destruct t; reflexivity. Qed.

Lemma DeviceType_of_value_sound v t :
  DeviceType_of_value v = Ret t -> DeviceType_value t = v.
Proof.
  unfold DeviceType_of_value.
  destruct (List.find _ _) as [t'|] eqn:Hf; [|discriminate].
  intros H. inversion H; subst. apply find_some in Hf as [_ Hf].
  now apply String.eqb_eq in Hf.
Qed.

(** What [legacy_mapping.get(value, value)] yields is never a legacy
    alias. *)
Lemma mapping_get_not_legacy v :
  let n := mapping_get legacy_mapping v v in
  n <> "sensor" /\ n <> "gateway" /\ n <> "actuator" /\ n <> "controller".
Proof.
  simpl.
  destruct (String.eqb_spec v "sensor"); [repeat split; discriminate|].
  destruct (String.eqb_spec v "gateway"); [repeat split; discriminate|].
  destruct (String.eqb_spec v "actuator"); [repeat split; discriminate|].
  destruct (String.eqb_spec v "controller"); [repeat split; discriminate|].
  auto.
Qed.

(** The range of [normalize]: the explicit categories and [OTHER]. *)
Lemma normalize_range (value : string) :
  In (normalize value)
     [IOT_SENSOR; IOT_GATEWAY; IOT_ACTUATOR; COMPUTER; SERVER; EDGE_DEVICE;
      GPU_NODE; OTHER].
Proof.
  unfold normalize.
  destruct (mapping_get_not_legacy value) as (H1 & H2 & H3 & H4).
  destruct (DeviceType_of_value _) as [t|] eqn:Ht; [|simpl; tauto].
  apply DeviceType_of_value_sound in Ht.
  destruct t; simpl in *; try congruence; tauto.
Qed.

(** [normalize] never raises and never answers with a legacy member:
    whatever string it is given, the result is one of the explicit
    categories or [OTHER]. *)
Theorem normalize_never_legacy (value : string) :
  is_legacy (normalize value) = false.
Proof.
  pose proof (normalize_range value) as H. simpl in H.
  repeat (destruct H as [<-|H]; [reflexivity|]). destruct H.
Qed.

(** A string that is the value of no member is normalized to [OTHER]. *)
Theorem normalize_unknown_is_other (value : string) :
  (forall t, DeviceType_value t <> value) -> normalize value = OTHER.
Proof.
  intros Hno. unfold normalize.
  destruct (DeviceType_of_value _) as [t|] eqn:Ht; [|reflexivity].
  apply DeviceType_of_value_sound in Ht.
  destruct (mapping_get_not_legacy value) as (H1 & H2 & H3 & H4).
  simpl in Ht, H1, H2, H3, H4.
  destruct (String.eqb_spec value "sensor") as [->|]; [destruct (Hno SENSOR); reflexivity|].
  destruct (String.eqb_spec value "gateway") as [->|]; [destruct (Hno GATEWAY); reflexivity|].
  destruct (String.eqb_spec value "actuator") as [->|]; [destruct (Hno ACTUATOR); reflexivity|].
  destruct (String.eqb_spec value "controller") as [->|]; [destruct (Hno CONTROLLER); reflexivity|].
  destruct (Hno t Ht).
Qed.

Lemma normalize_unknown_is_other_witness : normalize "thermostat" = OTHER.
Proof.
  apply (normalize_unknown_is_other "thermostat").
  intros t; destruct t; discriminate.
Defined.

(** Normalizing is idempotent through the stored value: the value of a
    normalized type normalizes to the same type. *)
Theorem normalize_idempotent (value : string) :
  normalize (DeviceType_value (normalize value)) = normalize value.
Proof.
  pose proof (normalize_range value) as H. simpl in H.
  repeat (destruct H as [<-|H]; [reflexivity|]). destruct H.
Qed.

(** No type is both an IoT and a system type; every type but [OTHER] is
    one of the two; and normalizing the value of a type keeps its class. *)
Theorem device_classes_partition (t : DeviceType) :
  is_iot t && is_system t = false
  /\ (is_iot t || is_system t = false <-> t = OTHER)
  /\ is_iot (normalize (DeviceType_value t)) = is_iot t
  /\ is_system (normalize (DeviceType_value t)) = is_system t.
Proof. destruct t; repeat split; intros; try reflexivity; discriminate. Qed.

End DeviceTypes.

(** ** The broadcast loop *)

Section BroadcastLoop.
Import Monitoring SocketIOService Inputs.

(** What a run of the loop emits and what it leaves in the queue. *)
Lemma broadcast_loop_items (emits : list (option exn)) : forall st,
  fst (_broadcast_loop emits st)
  = delivered (Asyncio.items (_broadcast_queue st)) emits
  /\ Asyncio.items (_broadcast_queue (snd (_broadcast_loop emits st)))
     = skipn (length emits) (Asyncio.items (_broadcast_queue st)).
Proof.
  induction emits as [|r emits IH]; intros st; simpl.
  - destruct (Asyncio.items (_broadcast_queue st)); auto.
  - unfold _broadcast_loop_step.
    destruct (Asyncio.items (_broadcast_queue st)) as [|item rest] eqn:Hq; simpl.
    + rewrite Hq. auto.
    + destruct r as [x|].
      * match goal with |- context [_broadcast_loop emits ?s] =>
          destruct (IH s) as (H1 & H2) end.
        simpl in *. rewrite H1, H2. auto.
      * match goal with |- context [_broadcast_loop emits ?s] =>
          destruct (IH s) as (H1 & H2);
          destruct (_broadcast_loop emits s) as [sent s'] end.
        simpl in *. rewrite H1, H2. auto.
Qed.

(** A run of the loop touches neither collection. *)
Lemma broadcast_loop_stores (emits : list (option exn)) : forall st,
  telemetry_collection (snd (_broadcast_loop emits st)) = telemetry_collection st
  /\ events_collection (snd (_broadcast_loop emits st)) = events_collection st.
Proof.
  induction emits as [|r emits IH]; intros st; simpl; [auto|].
  unfold _broadcast_loop_step.
  destruct (Asyncio.items (_broadcast_queue st)) as [|item rest] eqn:Hq; simpl;
    [auto|].
  destruct r as [x|].
  - match goal with |- context [_broadcast_loop emits ?s] =>
      destruct (IH s) as (H1 & H2) end.
    simpl in *. rewrite H1, H2. auto.
  - match goal with |- context [_broadcast_loop emits ?s] =>
      destruct (IH s) as (H1 & H2);
      destruct (_broadcast_loop emits s) as [sent s'] end.
    simpl in *. rewrite H1, H2. auto.
Qed.

(** A run of the loop never fails: it takes the items in queue order, one
    per turn, emits those whose emit succeeds and drops the others, and
    touches neither collection. *)
Theorem broadcast_loop_delivers (emits : list (option exn)) (st : state) :
  fst (_broadcast_loop emits st)
  = delivered (Asyncio.items (_broadcast_queue st)) emits
  /\ Asyncio.items (_broadcast_queue (snd (_broadcast_loop emits st)))
     = skipn (length emits) (Asyncio.items (_broadcast_queue st))
  /\ telemetry_collection (snd (_broadcast_loop emits st)) = telemetry_collection st
  /\ events_collection (snd (_broadcast_loop emits st)) = events_collection st.
Proof.
  destruct (broadcast_loop_items emits st) as (H1 & H2).
  destruct (broadcast_loop_stores emits st) as (H3 & H4).
  auto.
Qed.

Lemma enqueue_all_items evs : forall st,
  Asyncio.maxsize (_broadcast_queue st) <= 0 ->
  Asyncio.items (_broadcast_queue (enqueue_all evs st))
  = Asyncio.items (_broadcast_queue st) ++ evs.
Proof.
  induction evs as [|[ev data] evs IH]; intros st Hm; simpl.
  - now rewrite app_nil_r.
  - unfold enqueue_all in *. simpl. rewrite IH.
    + rewrite queue_broadcast_not_full by (now apply unbounded_never_full).
      simpl. now rewrite <- app_assoc.
    + rewrite queue_broadcast_maxsize. exact Hm.
Qed.

Lemma delivered_all items : forall emits,
  Forall (fun r => r = None) emits -> (length items <= length emits)%nat ->
  delivered items emits = items.
Proof.
  induction items as [|item items IH]; intros emits Hok Hlen; simpl.
  - destruct emits; reflexivity.
  - destruct emits as [|r emits]; simpl in Hlen; [lia|].
    inversion Hok; subst. rewrite IH; auto. lia.
Qed.

(** What the consumer hands to [queue_broadcast], call after call, on a
    service whose queue is the empty one of [__init__], is what the loop
    emits, in the same order, once it has run for as many turns with every
    emit succeeding; the queue is then empty. *)
Theorem broadcast_is_fifo (evs : list (string * dict))
        (emits : list (option exn)) (st : state) :
  _broadcast_queue st = SocketIOService.__init__ ->
  Forall (fun r => r = None) emits ->
  (length evs <= length emits)%nat ->
  fst (_broadcast_loop emits (enqueue_all evs st)) = evs
  /\ Asyncio.items (_broadcast_queue (snd (_broadcast_loop emits (enqueue_all evs st))))
     = [].
Proof.
  intros Hq Hok Hlen.
  destruct (broadcast_loop_items emits (enqueue_all evs st)) as (H1 & H2).
  rewrite H1, H2, enqueue_all_items by (rewrite Hq; simpl; lia).
  rewrite Hq. simpl. split.
  - now apply delivered_all.
  - apply skipn_all2. exact Hlen.
Qed.

Lemma broadcast_is_fifo_witness :
  fst (_broadcast_loop [None; None; None]
         (enqueue_all [("telemetry", [("device_id", VInt 7)]);
                       ("device_event", [("device_id", VInt 8)])] running))
  = [("telemetry", [("device_id", VInt 7)]);
     ("device_event", [("device_id", VInt 8)])]
  /\ Asyncio.items
       (_broadcast_queue
          (snd (_broadcast_loop [None; None; None]
                  (enqueue_all [("telemetry", [("device_id", VInt 7)]);
                                ("device_event", [("device_id", VInt 8)])] running))))
     = [].
Proof.
  apply (broadcast_is_fifo _ [None; None; None] running).
  - reflexivity.
  - repeat constructor.
  - simpl. lia.
Defined.

End BroadcastLoop.

(** ** More on the query layer *)

Section QueryLayerMore.
Import Mongo Inputs EventsController.

Lemma dict_get_remove_eq k d : dict_get k (dict_remove k d) = None.
Proof.
  unfold dict_remove. induction d as [|[k' v] d IH]; simpl; [reflexivity|].
  destruct (String.eqb k k') eqn:E; simpl; [exact IH|]. now rewrite E.
Qed.

Lemma dict_get_remove_ne k k' d :
  k <> k' -> dict_get k (dict_remove k' d) = dict_get k d.
Proof.
  intros Hne. unfold dict_remove. induction d as [|[k'' v] d IH]; simpl; [reflexivity|].
  destruct (String.eqb_spec k' k'') as [->|]; simpl.
  - destruct (String.eqb_spec k k''); [contradiction|exact IH].
  - destruct (String.eqb k k''); [reflexivity|exact IH].
Qed.

(** The cursor [find(q).sort("timestamp", -1).limit(n)]. *)
Lemma cursor_In q coll n doc :
  In doc (limit n (sort_desc "timestamp" (find q coll))) ->
  In doc coll /\ matches q doc = true.
Proof.
  intros H. apply limit_In in H. apply find_In.
  apply list_elem_of_In. rewrite <- (sort_desc_perm "timestamp").
  now apply list_elem_of_In.
Qed.

Lemma limit_all n docs :
  Z.of_nat (length docs) <= Z.abs n -> limit n docs = docs.
Proof.
  intros H. unfold limit. destruct (n =? 0); [reflexivity|].
  apply firstn_all2. lia.
Qed.

Lemma cursor_complete q coll n doc :
  Z.of_nat (length coll) <= Z.abs n ->
  In doc coll -> matches q doc = true ->
  In doc (limit n (sort_desc "timestamp" (find q coll))).
Proof.
  intros Hn Hin Hm. rewrite limit_all.
  - apply list_elem_of_In. rewrite (sort_desc_perm "timestamp").
    apply list_elem_of_In, find_In. auto.
  - rewrite (Permutation_length (sort_desc_perm "timestamp" (find q coll))).
    unfold find. pose proof (filter_length_le (matches q) coll). lia.
Qed.

Lemma Forall2_In_l {A B} (P : A -> B -> Prop) l rs d :
  Forall2 P l rs -> In d l -> exists r, In r rs /\ P d r.
Proof.
  induction 1 as [|d' r' l rs Hp _ IH]; simpl; [tauto|].
  intros [->|Hin]; [eauto|]. destruct (IH Hin) as (r & ? & ?). eauto.
Qed.

(** The documents that have a response are the well-formed ones. *)
Lemma to_response_well_formed {P : Pydantic} doc :
  (exists r, EventsDAO.to_response doc = Ret r) <-> well_formed_event doc.
Proof.
  unfold well_formed_event, EventsDAO.to_response. split.
  - intros [r H].
    destruct (dict_get "_id" doc); [|discriminate].
    destruct (dict_get "device_id" doc) as [dev|]; [|discriminate].
    destruct (dict_get "timestamp" doc) as [ts|]; [|discriminate].
    destruct (validate_int dev) as [n|] eqn:Hn; [|discriminate].
    destruct (dict_get_default "event_type" (VStr "") doc); try discriminate.
    destruct ts; try discriminate.
    destruct (dict_get_default "details" (VDict []) doc); try discriminate.
    repeat split; eauto; discriminate.
  - intros (Hid & (v & n & Hdev & Hn) & (t & Hts) & (ty & Hty) & (det & Hdet)).
    destruct (dict_get "_id" doc); [|contradiction].
    rewrite Hdev, Hts, Hn, Hty, Hdet. eauto.
Qed.

(** [get_all] answers exactly when every document its cursor selects is
    well formed: one selected document without an identifier, a device id
    or a timestamp, with a device id that validation does not read as an
    integer, with a timestamp or an event type that is not a string, or
    with details that are not an object, makes the whole call raise. *)
Theorem get_all_answers_iff_well_formed {P : Pydantic}
        coll device_id event_type n :
  (exists rs, EventsDAO.get_all coll device_id event_type n = Ret rs)
  <-> Forall well_formed_event
             (EventsDAO.get_all_cursor coll device_id event_type n).
Proof.
  unfold EventsDAO.get_all. split.
  - intros [rs H]. apply collect_Forall2 in H.
    induction H; constructor; auto.
    apply to_response_well_formed. now exists y.
  - intros H. apply collect_total.
    eapply Forall_impl; [exact H|]. intros doc. apply to_response_well_formed.
Qed.

(** A device id stored as the string ["7"] is read as 7 and listed; one
    stored as a list makes the listing raise. *)
Example get_all_reads_string_ids :
  EventsDAO.get_all (P := digits_only)
    [[("_id", VObjectId "65f400000000000000000021"); ("device_id", VStr "7");
      ("timestamp", VStr "2024-03-15T12:00:00")]] None None 100
  = Ret [{| EventsDAO.id := VObjectId "65f400000000000000000021";
            EventsDAO.device_id := 7; EventsDAO.event_type := "";
            EventsDAO.timestamp := "2024-03-15T12:00:00";
            EventsDAO.details := [] |}]
  /\ EventsDAO.get_all (P := digits_only)
       [[("_id", VObjectId "65f400000000000000000022");
         ("device_id", VList [VInt 7]);
         ("timestamp", VStr "2024-03-15T12:00:00")]] None None 100
     = Raise ValidationError.
Proof. split; vm_compute; reflexivity. Qed.

End QueryLayerMore.

(** ** Well-formed messages through the consumer *)

Section ConsumerRuns.
Import Monitoring RabbitMQConsumer Inputs.

(** The type lookup touches the memo and the trace only. *)
Lemma get_device_type_frame e device_id st r s :
  _get_device_type e device_id st = (r, s) ->
  telemetry_collection s = telemetry_collection st
  /\ events_collection s = events_collection st
  /\ _broadcast_queue s = _broadcast_queue st
  /\ _socketio_callback s = _socketio_callback st.
Proof.
  unfold _get_device_type. destruct (hashable device_id); simpl.
  2:{ intros H. inversion H; subst. auto. }
  unfold bind at 1. unfold get_state.
  destruct (cache_lookup device_id (_device_type_cache st)).
  { intros H. inversion H; subst. auto. }
  unfold try_except, bind, do, modify, lift_result, log, ret, raise,
    any_Exception. simpl.
  destruct (requests_get_type e device_id) as [code [[]|x]|x]; simpl;
    try destruct (code =? 200); simpl;
    intros H; inversion H; subst; simpl; auto.
Qed.

(** A device event that decodes to an object and that the store accepts:
    the callback stores it with its timestamp and identifier, and hands it,
    minus the identifier, to the fan-out when the callback is set. *)
Lemma device_event_run e tag body payload st :
  json_loads e body = Ret (VDict payload) ->
  Mongo.insert_error (mongo e) = None ->
  let doc := Mongo.with_id (mongo e)
               (ensure_timestamp e (default_timestamp e payload)) in
  exists st',
    _on_device_event e tag body st = (Ret tt, st')
    /\ events_collection st' = events_collection st ++ [doc]
    /\ telemetry_collection st' = telemetry_collection st
    /\ (_socketio_callback st = Some tt ->
        Asyncio.maxsize (_broadcast_queue st)
        = Asyncio.maxsize SocketIOService.__init__ ->
        Asyncio.items (_broadcast_queue st')
        = Asyncio.items (_broadcast_queue st)
          ++ [("device_event", dict_without "_id" doc)]).
Proof.
  intros Hj Hins doc.
  unfold _on_device_event. rewrite handler_run. unfold _on_device_event_try.
  erewrite bind_ret_run by (unfold lift_result; rewrite Hj; reflexivity).
  erewrite bind_ret_run by reflexivity.
  cbv beta zeta. unfold bind at 1. rewrite events_insert_run, Hins. fold doc.
  set (s2 := emit (Log (Logging.INFO, "Device event stored")) _).
  destruct (callback_run "device_event" doc s2)
    as (s3 & t3 & Hcb & _ & Htel & Hev & _ & Hq).
  unfold bind. simpl snd. rewrite Hcb.
  eexists. split; [reflexivity|]. unfold log, do, modify. simpl.
  rewrite Hev, Htel. unfold s2. simpl.
  split; [reflexivity|]. split; [reflexivity|].
  intros Hset Hmax. apply Hq; assumption.
Qed.

(** A telemetry message that decodes to an object, whose device id is
    falsy or hashable, and that the store accepts: the callback stores the
    flattened event, enriched with a device type when the id is truthy. *)
Lemma telemetry_run e tag body payload st :
  json_loads e body = Ret (VDict payload) ->
  let device_id := dict_get_default "device_id" VNone (prepared e payload) in
  truthy device_id = false \/ hashable device_id = true ->
  Mongo.insert_error (mongo e) = None ->
  exists st' event,
    _on_telemetry e tag body st = (Ret tt, st')
    /\ telemetry_collection st'
       = telemetry_collection st
         ++ [Mongo.with_id (mongo e) (ensure_timestamp e event)]
    /\ events_collection st' = events_collection st
    /\ (if truthy device_id
        then exists device_type,
               event = dict_set "device_type" device_type (prepared e payload)
        else event = prepared e payload).
Proof.
  intros Hj device_id Hd Hins.
  unfold _on_telemetry. rewrite handler_run. unfold _on_telemetry_try.
  erewrite bind_ret_run by (unfold lift_result; rewrite Hj; reflexivity).
  erewrite bind_ret_run by reflexivity.
  cbv beta zeta.
  change (flatten_data (default_timestamp e payload)) with (prepared e payload).
  change (dict_get_default "device_id" VNone (prepared e payload)) with device_id.
  assert (Hstore : forall event s1,
            telemetry_collection s1 = telemetry_collection st ->
            events_collection s1 = events_collection st ->
            exists st',
              (let (o, s) :=
                 bind (TelemetryDAO.insert e event)
                      (fun r => call_socketio_callback "telemetry" (snd r) ;;;
                                log Logging.INFO "Telemetry stored") s1 in
               match o with
               | Ret a => (Ret a, emit (BasicAck tag) s)
               | Raise _ =>
                   (Ret tt,
                    emit (BasicAck tag)
                      (emit (Log (Logging.ERROR, "Telemetry consumer error")) s))
               end) = (Ret tt, st')
              /\ telemetry_collection st'
                 = telemetry_collection st
                   ++ [Mongo.with_id (mongo e) (ensure_timestamp e event)]
              /\ events_collection st' = events_collection st).
  { intros event s1 Htel Hev.
    unfold bind at 1. rewrite telemetry_insert_run, Hins.
    set (doc := Mongo.with_id (mongo e) (ensure_timestamp e event)).
    set (s2 := emit (Log (Logging.INFO, "Telemetry stored")) _).
    destruct (callback_run "telemetry" doc s2)
      as (s3 & t3 & Hcb & _ & Htel3 & Hev3 & _).
    unfold bind. simpl snd. rewrite Hcb.
    eexists. split; [reflexivity|]. unfold log, do, modify. simpl.
    rewrite Htel3, Hev3. unfold s2. simpl. rewrite Htel, Hev. auto. }
  destruct (truthy device_id) eqn:Ht.
  - destruct Hd as [Hd|Hd]; [discriminate|].
    destruct (get_device_type_returns e device_id st Hd) as (v & s1 & Hg).
    destruct (get_device_type_frame _ _ _ _ _ Hg) as (Htel & Hev & _).
    erewrite bind_ret_run.
    2:{ erewrite bind_ret_run by exact Hg. reflexivity. }
    destruct (Hstore (dict_set "device_type" v (prepared e payload)) s1 Htel Hev)
      as (st' & Hrun & Hs).
    exists st', (dict_set "device_type" v (prepared e payload)).
    split; [exact Hrun|]. destruct Hs. repeat split; eauto.
  - erewrite bind_ret_run by reflexivity.
    destruct (Hstore (prepared e payload) st eq_refl eq_refl) as (st' & Hrun & Hs).
    exists st', (prepared e payload). split; [exact Hrun|].
    destruct Hs. repeat split; auto.
Qed.

End ConsumerRuns.

(** ** Flattening telemetry *)

Section Flattening.
Import Monitoring RabbitMQConsumer Inputs.

Lemma dict_get_not_key k (d : dict) : k ∉ map fst d -> dict_get k d = None.
Proof.
  induction d as [|[k' v] d IH]; simpl; [reflexivity|].
  rewrite not_elem_of_cons. intros [Hne H].
  destruct (String.eqb_spec k k') as [->|]; [contradiction|].
  now apply IH.
Qed.

(** [d.update(other)]: the keys of [other] take its values, the other keys
    keep theirs. *)
Lemma dict_get_update k (other : dict) : forall d,
  NoDup (map fst other) ->
  dict_get k (dict_update d other)
  = match dict_get k other with Some v => Some v | None => dict_get k d end.
Proof.
  unfold dict_update.
  induction other as [|[k1 v1] other IH]; intros d Hnd; simpl; [reflexivity|].
  simpl in Hnd. apply NoDup_cons in Hnd as [Hnotin Hnd'].
  rewrite IH by assumption.
  destruct (String.eqb_spec k k1) as [->|Hne].
  - rewrite (dict_get_not_key k1 other) by assumption. apply dict_get_set_eq.
  - now rewrite dict_get_set_ne.
Qed.

(** The event after [default_timestamp] and [flatten_data], key by key,
    when the payload carries a ["data"] object: a key of the object takes
    the object's value (whatever the envelope said), ["data"] itself is
    gone unless the object has such a key, and every other key is as in
    the envelope. *)
Lemma prepared_get e payload data k :
  dict_get "data" payload = Some (VDict data) ->
  NoDup (map fst data) ->
  dict_get k (prepared e payload)
  = match dict_get k data with
    | Some v => Some v
    | None => if String.eqb k "data" then None
              else dict_get k (default_timestamp e payload)
    end.
Proof.
  intros Hd Hnd. unfold prepared, flatten_data.
  assert (Hd' : dict_get "data" (default_timestamp e payload) = Some (VDict data)).
  { unfold default_timestamp. now rewrite dict_get_set_ne. }
  rewrite Hd', dict_get_update by assumption.
  destruct (dict_get k data); [reflexivity|].
  destruct (String.eqb_spec k "data") as [->|Hne].
  - apply dict_get_remove_eq.
  - now apply dict_get_remove_ne.
Qed.

Lemma prepared_without_data e payload :
  (forall data, dict_get "data" payload <> Some (VDict data)) ->
  prepared e payload = default_timestamp e payload.
Proof.
  intros Hno. unfold prepared, flatten_data.
  assert (Hd' : dict_get "data" (default_timestamp e payload) = dict_get "data" payload).
  { unfold default_timestamp. now rewrite dict_get_set_ne. }
  rewrite Hd'. destruct (dict_get "data" payload) as [[]|]; try reflexivity.
  now destruct (Hno d).
Qed.

Lemma default_timestamp_get e payload k :
  k <> "timestamp" -> dict_get k (default_timestamp e payload) = dict_get k payload.
Proof. intros H. unfold default_timestamp. now rewrite dict_get_set_ne. Qed.

Lemma with_id_has_id env d : dict_contains "_id" (Mongo.with_id env d) = true.
Proof.
  unfold Mongo.with_id. destruct (dict_contains "_id" d) eqn:E; [exact E|].
  apply dict_contains_set.
Qed.

(** A telemetry message with a ["data"] object is stored flat: each metric
    of the object is a top-level field of the stored record, the ["data"]
    field is gone, the remaining envelope fields are kept, and the record
    has a timestamp and an identifier. *)
Theorem telemetry_is_stored_flat e tag body payload data st :
  json_loads e body = Ret (VDict payload) ->
  dict_get "data" payload = Some (VDict data) ->
  NoDup (map fst data) ->
  let device_id := dict_get_default "device_id" VNone (prepared e payload) in
  truthy device_id = false \/ hashable device_id = true ->
  Mongo.insert_error (mongo e) = None ->
  exists st' doc,
    _on_telemetry e tag body st = (Ret tt, st')
    /\ telemetry_collection st' = telemetry_collection st ++ [doc]
    /\ dict_contains "timestamp" doc = true
    /\ dict_contains "_id" doc = true
    /\ (forall k v, dict_get k data = Some v ->
                    k <> "device_type" -> k <> "_id" -> dict_get k doc = Some v)
    /\ (dict_get "data" data = None -> dict_get "data" doc = None)
    /\ (forall k, dict_get k data = None ->
                  k <> "data" -> k <> "timestamp" -> k <> "device_type" -> k <> "_id" ->
                  dict_get k doc = dict_get k payload).
Proof.
  intros Hj Hdata Hnd device_id Hd Hins.
  destruct (telemetry_run e tag body payload st Hj Hd Hins)
    as (st' & event & Hrun & Hstored & _ & Hevent).
  exists st', (Mongo.with_id (mongo e) (ensure_timestamp e event)).
  split; [exact Hrun|]. split; [exact Hstored|].
  assert (Hget : forall k, k <> "device_type" -> k <> "_id" -> k <> "timestamp" ->
            dict_get k (Mongo.with_id (mongo e) (ensure_timestamp e event))
            = dict_get k (prepared e payload)).
  { intros k H1 H2 H3.
    rewrite with_id_other_keys, ensure_timestamp_other_keys by assumption.
    fold device_id in Hevent.
    destruct (truthy device_id); [destruct Hevent as [v ->]|subst event];
      [now rewrite dict_get_set_ne|reflexivity]. }
  assert (Hts : forall v, dict_get "timestamp" (prepared e payload) = Some v ->
            dict_get "timestamp" (Mongo.with_id (mongo e) (ensure_timestamp e event))
            = Some v).
  { intros v Hv. rewrite with_id_other_keys by discriminate.
    assert (He : dict_get "timestamp" event = Some v).
    { fold device_id in Hevent.
      destruct (truthy device_id); [destruct Hevent as [w ->]|subst event]; auto.
      now rewrite dict_get_set_ne. }
    unfold ensure_timestamp, dict_contains. now rewrite He. }
  split; [|split; [apply with_id_has_id|split; [|split]]].
  - unfold dict_contains. rewrite with_id_other_keys by discriminate.
    apply ensure_timestamp_has.
  - intros k v Hk H1 H2.
    destruct (String.eqb_spec k "timestamp") as [->|H3].
    + apply Hts. rewrite (prepared_get e payload data) by assumption. now rewrite Hk.
    + rewrite Hget by assumption.
      rewrite (prepared_get e payload data) by assumption. now rewrite Hk.
  - intros Hk. rewrite Hget by discriminate.
    rewrite (prepared_get e payload data) by assumption. now rewrite Hk.
  - intros k Hk H1 H2 H3 H4. rewrite Hget by assumption.
    rewrite (prepared_get e payload data) by assumption. rewrite Hk.
    destruct (String.eqb_spec k "data"); [contradiction|].
    now apply default_timestamp_get.
Qed.

Lemma telemetry_is_stored_flat_witness :
  exists st' doc,
    _on_telemetry registry_down 2 telemetry_body running = (Ret tt, st')
    /\ telemetry_collection st' = [doc]
    /\ dict_get "temperature" doc = Some (VInt 21)
    /\ dict_get "data" doc = None
    /\ dict_get "device_id" doc = Some (VInt 7).
Proof.
  destruct (telemetry_is_stored_flat registry_down 2 telemetry_body
              [("device_id", VInt 7); ("data", VDict [("temperature", VInt 21)])]
              [("temperature", VInt 21)] running)
    as (st' & doc & Hrun & Hcoll & _ & _ & Hmetrics & Hdata & Henv);
    try reflexivity.
  - apply NoDup_singleton.
  - right. reflexivity.
  - exists st', doc. split; [exact Hrun|]. split; [exact Hcoll|].
    split; [apply Hmetrics; [reflexivity|discriminate|discriminate]|].
    split; [apply Hdata; reflexivity|].
    rewrite Henv by (reflexivity || discriminate). reflexivity.
Defined.

End Flattening.

(** ** The telemetry query *)

Section TelemetryQuery.
Import Mongo Inputs EventsController TelemetryController.

Lemma telemetry_declared_spec k :
  telemetry_declared k = false <->
  k <> "_id" /\ k <> "device_id" /\ k <> "timestamp" /\ k <> "device_name"
  /\ k <> "location".
Proof.
  unfold telemetry_declared.
  destruct (String.eqb_spec k "_id"); [simpl; intuition congruence|].
  destruct (String.eqb_spec k "device_id"); [simpl; intuition congruence|].
  destruct (String.eqb_spec k "timestamp"); [simpl; intuition congruence|].
  destruct (String.eqb_spec k "device_name"); [simpl; intuition congruence|].
  destruct (String.eqb_spec k "location"); simpl; intuition congruence.
Qed.

(** What is left of a document after the five [pop]s. *)
Lemma popped_get doc k :
  dict_get k
    (dict_remove "location"
       (dict_remove "device_name"
          (dict_remove "timestamp"
             (dict_remove "device_id" (dict_remove "_id" doc)))))
  = if telemetry_declared k then None else dict_get k doc.
Proof.
  destruct (telemetry_declared k) eqn:Hk.
  - destruct (string_dec k "location") as [E|N];
      [rewrite E; apply dict_get_remove_eq|rewrite dict_get_remove_ne by assumption].
    destruct (string_dec k "device_name") as [E|N1];
      [rewrite E; apply dict_get_remove_eq|rewrite dict_get_remove_ne by assumption].
    destruct (string_dec k "timestamp") as [E|N2];
      [rewrite E; apply dict_get_remove_eq|rewrite dict_get_remove_ne by assumption].
    destruct (string_dec k "device_id") as [E|N3];
      [rewrite E; apply dict_get_remove_eq|rewrite dict_get_remove_ne by assumption].
    destruct (string_dec k "_id") as [E|N4];
      [rewrite E; apply dict_get_remove_eq|].
    assert (telemetry_declared k = false) as Hf
      by (apply telemetry_declared_spec; auto).
    congruence.
  - apply telemetry_declared_spec in Hk as (H1 & H2 & H3 & H4 & H5).
    now rewrite !dict_get_remove_ne by assumption.
Qed.

Lemma telemetry_to_response_fields {P : Pydantic} doc r :
  TelemetryDAO.to_response doc = Ret r ->
  dict_get "_id" doc = Some (TelemetryDAO.id r)
  /\ (exists v, dict_get "device_id" doc = Some v
                /\ validate_int v = Some (TelemetryDAO.device_id r))
  /\ dict_get "timestamp" doc = Some (VStr (TelemetryDAO.timestamp r))
  /\ TelemetryDAO.optional_str (dict_get_default "device_name" VNone doc)
     = Ret (TelemetryDAO.device_name r)
  /\ TelemetryDAO.optional_str (dict_get_default "location" VNone doc)
     = Ret (TelemetryDAO.location r)
  /\ dict_get "id" doc = None
  /\ TelemetryDAO.extra r
     = dict_remove "location"
         (dict_remove "device_name"
            (dict_remove "timestamp"
               (dict_remove "device_id" (dict_remove "_id" doc)))).
Proof.
  unfold TelemetryDAO.to_response.
  destruct (dict_get "_id" doc) as [i|]; [|discriminate].
  rewrite (dict_get_remove_ne "device_id" "_id") by discriminate.
  destruct (dict_get "device_id" doc) as [dev|]; [|discriminate].
  rewrite !(dict_get_remove_ne "timestamp") by discriminate.
  destruct (dict_get "timestamp" doc) as [ts|]; [|discriminate].
  unfold dict_contains, dict_get_default.
  rewrite !(dict_get_remove_ne "id") by discriminate.
  rewrite !(dict_get_remove_ne "device_name") by discriminate.
  rewrite !(dict_get_remove_ne "location") by discriminate.
  destruct (dict_get "id" doc); [discriminate|].
  destruct (validate_int dev) as [n|] eqn:Hn; [|discriminate].
  destruct ts; try discriminate.
  destruct (TelemetryDAO.optional_str _) as [dn|]; [|discriminate].
  destruct (TelemetryDAO.optional_str _) as [loc|]; [|discriminate].
  intros H. inversion H; subst. simpl. eauto 10.
Qed.

(** A document with the three required fields, a name and a location
    that are strings or absent, and no field named ["id"] has a response. *)
Lemma telemetry_to_response_ok {P : Pydantic} doc i n ts dn loc :
  dict_get "_id" doc = Some i ->
  dict_get "device_id" doc = Some (VInt n) ->
  dict_get "timestamp" doc = Some (VStr ts) ->
  TelemetryDAO.optional_str (dict_get_default "device_name" VNone doc) = Ret dn ->
  TelemetryDAO.optional_str (dict_get_default "location" VNone doc) = Ret loc ->
  dict_get "id" doc = None ->
  TelemetryDAO.to_response doc
  = Ret {| TelemetryDAO.id := i; TelemetryDAO.device_id := n;
           TelemetryDAO.device_name := dn; TelemetryDAO.timestamp := ts;
           TelemetryDAO.location := loc;
           TelemetryDAO.extra :=
             dict_remove "location"
               (dict_remove "device_name"
                  (dict_remove "timestamp"
                     (dict_remove "device_id" (dict_remove "_id" doc)))) |}.
Proof.
  intros H1 H2 H3 H4 H5 H6. unfold TelemetryDAO.to_response.
  rewrite H1.
  rewrite (dict_get_remove_ne "device_id" "_id") by discriminate. rewrite H2.
  rewrite !(dict_get_remove_ne "timestamp") by discriminate. rewrite H3.
  unfold dict_contains, dict_get_default in *.
  rewrite !(dict_get_remove_ne "id") by discriminate.
  rewrite !(dict_get_remove_ne "device_name") by discriminate.
  rewrite !(dict_get_remove_ne "location") by discriminate.
  rewrite H6, H4, H5. reflexivity.
Qed.

(** The response of a telemetry record carries every field of the stored
    document: the identifier and the timestamp as they are, the device id
    as validation reads it (an integer as it is, [true] as 1, a string as
    the library reads it), and each field other than the five declared
    ones -- the metrics -- unchanged among the extra ones, which hold
    nothing else.  A document with a field named ["id"] has no response. *)
Theorem telemetry_response_keeps_metrics {P : Pydantic} doc r :
  TelemetryDAO.to_response doc = Ret r ->
  dict_get "_id" doc = Some (TelemetryDAO.id r)
  /\ (exists v, dict_get "device_id" doc = Some v
                /\ validate_int v = Some (TelemetryDAO.device_id r))
  /\ dict_get "timestamp" doc = Some (VStr (TelemetryDAO.timestamp r))
  /\ (forall k, telemetry_declared k = false ->
                dict_get k (TelemetryDAO.extra r) = dict_get k doc)
  /\ (forall k, telemetry_declared k = true ->
                dict_get k (TelemetryDAO.extra r) = None)
  /\ dict_get "id" doc = None.
Proof.
  intros H. apply telemetry_to_response_fields in H
    as (H1 & H2 & H3 & _ & _ & H6 & H7).
  repeat split; auto; intros k Hk; rewrite H7, popped_get, Hk; reflexivity.
Qed.

Lemma telemetry_response_keeps_metrics_witness :
  exists r,
    TelemetryDAO.to_response (P := digits_only)
      [("_id", VObjectId "65f0"); ("device_id", VBool true);
       ("timestamp", VStr "2024-03-15T12:00:00"); ("temperature", VInt 21)]
    = Ret r
    /\ TelemetryDAO.device_id r = 1
    /\ dict_get "temperature" (TelemetryDAO.extra r) = Some (VInt 21)
    /\ dict_get "device_id" (TelemetryDAO.extra r) = None.
Proof.
  eexists. split; [reflexivity|]. split; [reflexivity|].
  match goal with |- dict_get _ (TelemetryDAO.extra ?r) = _ /\ _ =>
    destruct (telemetry_response_keeps_metrics (P := digits_only)
                [("_id", VObjectId "65f0"); ("device_id", VBool true);
                 ("timestamp", VStr "2024-03-15T12:00:00");
                 ("temperature", VInt 21)] r eq_refl)
      as (_ & _ & _ & Hk & Hd & _) end.
  split; [rewrite Hk; reflexivity|apply Hd; reflexivity].
Defined.

Lemma telemetry_responses_descending {P : Pydantic} docs : forall rs,
  StronglySorted (desc_by "timestamp") docs ->
  Forall2 (fun doc r => TelemetryDAO.to_response doc = Ret r) docs rs ->
  descending_telemetry rs.
Proof.
  unfold descending_telemetry.
  induction docs as [|doc docs IH]; intros rs Hs H2; inversion H2; subst.
  - constructor.
  - apply StronglySorted_inv in Hs as [Hs Hall]. constructor; [now apply IH|].
    match goal with H : Forall2 _ docs _ |- _ => rename H into Hrest end.
    match goal with H : TelemetryDAO.to_response doc = _ |- _ =>
      apply telemetry_to_response_fields in H as (_ & _ & Hts & _) end.
    clear IH H2 Hs. induction Hrest as [|d r ds rs' Hd _ IHr]; constructor.
    + apply Forall_inv in Hall. unfold desc_by in Hall.
      apply telemetry_to_response_fields in Hd as (_ & _ & Hd & _).
      rewrite Hts, Hd in Hall. exact Hall.
    + apply IHr. now apply Forall_inv_tail in Hall.
Qed.

Lemma collect_raises {A} (f : dict -> outcome A) cursor doc :
  In doc cursor -> (forall r, f doc <> Ret r) ->
  exists x, EventsDAO.collect f cursor = Raise x.
Proof.
  induction cursor as [|d cursor IH]; simpl; [tauto|].
  intros [->|Hin] Hbad.
  - destruct (f doc) as [r|x]; [now destruct (Hbad r)|eauto].
  - destruct (f d) as [r|x]; [|eauto].
    destruct (IH Hin Hbad) as [x ->]. eauto.
Qed.

End TelemetryQuery.

(** ** From the consumer to the query layer *)

Section StoreThenQuery.
Import Mongo Monitoring RabbitMQConsumer Inputs EventsController.

(** The fields of a stored device event, as the consumer leaves them. *)
Lemma stored_event_get e payload k :
  k <> "timestamp" -> k <> "_id" ->
  dict_get k (with_id (mongo e) (ensure_timestamp e (default_timestamp e payload)))
  = dict_get k payload.
Proof.
  intros H1 H2.
  rewrite with_id_other_keys, ensure_timestamp_other_keys by assumption.
  now apply default_timestamp_get.
Qed.

Lemma stored_event_default e payload k v :
  k <> "timestamp" -> k <> "_id" ->
  dict_get_default k v
    (with_id (mongo e) (ensure_timestamp e (default_timestamp e payload)))
  = dict_get_default k v payload.
Proof.
  intros H1 H2. unfold dict_get_default. now rewrite stored_event_get.
Qed.

Lemma stored_event_timestamp e payload :
  dict_get "timestamp"
    (with_id (mongo e) (ensure_timestamp e (default_timestamp e payload)))
  = Some (dict_get_default "timestamp" (now_iso e) payload).
Proof.
  rewrite with_id_other_keys by discriminate.
  unfold ensure_timestamp, default_timestamp.
  rewrite dict_contains_set. simpl. apply dict_get_set_eq.
Qed.

(** The cursor of a listing holds every stored document that matches the
    filters when the limit is not below the size of the store; so, when
    every stored document has a response, the listing answers and holds
    the response of each matching document. *)
Lemma get_all_complete {P : Pydantic} coll device_id event_type (limit : Z) doc r :
  Z.of_nat (length coll) <= Z.abs limit ->
  Forall returnable coll ->
  In doc coll ->
  matches (EventsDAO.get_all_query device_id event_type) doc = true ->
  EventsDAO.to_response doc = Ret r ->
  exists rs, EventsDAO.get_all coll device_id event_type limit = Ret rs /\ In r rs.
Proof.
  intros Hlen Hwf Hin Hm Hresp.
  destruct (collect_total EventsDAO.to_response
              (EventsDAO.get_all_cursor coll device_id event_type limit))
    as [rs Hrs].
  { apply Forall_forall. intros d Hd.
    apply list_elem_of_In, cursor_In in Hd as [Hd _].
    rewrite Forall_forall in Hwf. now apply Hwf, list_elem_of_In. }
  pose proof (collect_Forall2 _ _ _ Hrs) as H2.
  destruct (Forall2_In_l _ _ _ doc H2) as (r' & Hr & Hdr).
  { now apply cursor_complete. }
  exists rs. split; [exact Hrs|]. rewrite Hresp in Hdr. now inversion Hdr.
Qed.

(** The event listing is complete: with every stored event well formed
    and a limit not below the size of the store, the listing answers and
    contains each stored event whose device id is the integer asked for
    (any device when none or 0 is asked for) and whose type is the one
    asked for (any type when none or the empty string is asked for). *)
Theorem get_events_lists_every_match {P : Pydantic}
        (coll : collection) (device_id : option Z)
        (event_type : option string) (limit : Z) doc r :
  1 <= limit <= 1000 ->
  Z.of_nat (length coll) <= limit ->
  Forall returnable coll ->
  In doc coll ->
  EventsDAO.to_response doc = Ret r ->
  (forall n, device_id = Some n -> n <> 0 ->
             dict_get "device_id" doc = Some (VInt n)) ->
  (forall t, event_type = Some t -> t <> "" ->
             dict_get "event_type" doc = Some (VStr t)) ->
  exists rs, get_events coll device_id event_type limit = OK rs /\ In r rs.
Proof.
  intros Hlim Hlen Hwf Hin Hresp Hdev Hty.
  destruct (get_all_complete coll device_id event_type limit doc r)
    as (rs & Hrs & Hr); auto; [lia| |].
  - unfold EventsDAO.get_all_query. rewrite matches_app.
    apply andb_true_iff. split.
    + destruct device_id as [n|]; [|reflexivity].
      destruct (Z.eqb_spec n 0); [reflexivity|]. simpl.
      rewrite (Hdev n eq_refl) by assumption. simpl. now rewrite Z.eqb_refl.
    + destruct event_type as [t|]; [|reflexivity].
      destruct (String.eqb_spec t ""); [reflexivity|]. simpl.
      rewrite (Hty t eq_refl) by assumption. simpl. now rewrite String.eqb_refl.
  - exists rs. unfold get_events.
    destruct (Z.leb_spec 1 limit); [|lia].
    destruct (Z.leb_spec limit 1000); [|lia]. simpl. now rewrite Hrs.
Qed.

Lemma get_events_lists_every_match_witness :
  exists rs r,
    get_events (P := digits_only) events_sample (Some 5) None 100 = OK rs
    /\ In r rs /\ EventsDAO.timestamp r = "2024-01-11T23:59:59.250000".
Proof.
  assert (Hd : exists doc, nth_error events_sample 2 = Some doc)
    by (eexists; reflexivity).
  destruct Hd as [doc Hd].
  assert (Hr : exists r, EventsDAO.to_response (P := digits_only) doc = Ret r)
    by (inversion Hd; eexists; reflexivity).
  destruct Hr as [r Hr].
  destruct (get_events_lists_every_match (P := digits_only)
              events_sample (Some 5) None 100 doc r)
    as (rs & Hrs & Hin).
  - lia.
  - simpl. lia.
  - repeat constructor; eexists; vm_compute; reflexivity.
  - eapply nth_error_In. exact Hd.
  - exact Hr.
  - intros n Hn _. inversion Hn; subst n. inversion Hd; subst doc.
    reflexivity.
  - discriminate.
  - exists rs, r. split; [exact Hrs|]. split; [exact Hin|].
    inversion Hd; subst doc. inversion Hr. reflexivity.
Defined.

(** The device filter is on the stored value: an event whose device id
    is stored as the string ["7"] has a response for device 7, and is not
    among the events listed for device 7. *)
Example string_id_is_not_matched :
  let doc := [("_id", VObjectId "65f400000000000000000021");
              ("device_id", VStr "7");
              ("timestamp", VStr "2024-03-15T12:00:00")] in
  (exists r, EventsDAO.to_response (P := digits_only) doc = Ret r
             /\ EventsDAO.device_id r = 7)
  /\ get_events (P := digits_only) [doc] (Some 7) None 100 = OK [].
Proof. split; [eexists; split; reflexivity|reflexivity]. Qed.

(** An event consumed without a device id is stored; from then on the
    event listing fails instead of answering, as long as the record is
    within the limit asked for. *)
Theorem event_without_device_id_breaks_listing {P : Pydantic}
        e tag body payload st (limit : Z) :
  json_loads e body = Ret (VDict payload) ->
  dict_get "device_id" payload = None ->
  insert_error (mongo e) = None ->
  1 <= limit <= 1000 ->
  Z.of_nat (length (events_collection st)) < limit ->
  exists st',
    _on_device_event e tag body st = (Ret tt, st')
    /\ length (events_collection st') = S (length (events_collection st))
    /\ exists x,
         get_events (events_collection st') None None limit
         = InternalServerError x.
Proof.
  intros Hj Hdev Hins Hlim Hlen.
  destruct (device_event_run e tag body payload st Hj Hins)
    as (st' & Hrun & Hcoll & _).
  exists st'. split; [exact Hrun|].
  split; [rewrite Hcoll, length_app; simpl; lia|].
  unfold get_events.
  destruct (Z.leb_spec 1 limit); [|lia].
  destruct (Z.leb_spec limit 1000); [|lia]. simpl.
  set (doc := with_id (mongo e) (ensure_timestamp e (default_timestamp e payload)))
    in *.
  destruct (collect_raises EventsDAO.to_response
              (EventsDAO.get_all_cursor (events_collection st') None None limit)
              doc) as [x Hx].
  - apply cursor_complete.
    + rewrite Hcoll, length_app. simpl. lia.
    + rewrite Hcoll. apply in_or_app. right. now left.
    + reflexivity.
  - intros r. unfold EventsDAO.to_response. subst doc.
    rewrite (stored_event_get e payload "device_id") by discriminate.
    rewrite Hdev. destruct (dict_get "_id" _); discriminate.
  - unfold EventsDAO.get_all. rewrite Hx. eauto.
Qed.

Lemma event_without_device_id_breaks_listing_witness :
  exists st' x,
    _on_device_event registry_down 3 anonymous_event_body running = (Ret tt, st')
    /\ get_events (P := digits_only) (events_collection st') None None 100 = InternalServerError x.
Proof.
  destruct (event_without_device_id_breaks_listing (P := digits_only)
              registry_down 3 anonymous_event_body
              [("event_type", VStr "error")] running 100)
    as (st' & Hrun & _ & x & Hx); try reflexivity; try (simpl; lia).
  exists st', x. split; assumption.
Defined.

(** A well-formed device event, once consumed, is listed: with every
    stored event well formed and the limit above the size of the store,
    the listing for its device, for its type, or for both answers and
    contains the event with its device, type, timestamp and details. *)
Theorem consumed_event_is_listed {P : Pydantic}
        e tag body payload st (limit n : Z) (ty ts : string) (det : dict)
        (device_id : option Z) (event_type : option string) :
  json_loads e body = Ret (VDict payload) ->
  dict_get "device_id" payload = Some (VInt n) ->
  dict_get_default "event_type" (VStr "") payload = VStr ty ->
  dict_get_default "details" (VDict []) payload = VDict det ->
  dict_get_default "timestamp" (now_iso e) payload = VStr ts ->
  insert_error (mongo e) = None ->
  Forall returnable (events_collection st) ->
  1 <= limit <= 1000 ->
  Z.of_nat (length (events_collection st)) < limit ->
  device_id = None \/ device_id = Some n ->
  event_type = None \/ event_type = Some ty ->
  exists st' rs r,
    _on_device_event e tag body st = (Ret tt, st')
    /\ get_events (events_collection st') device_id event_type limit = OK rs
    /\ In r rs
    /\ EventsDAO.device_id r = n
    /\ EventsDAO.event_type r = ty
    /\ EventsDAO.timestamp r = ts
    /\ EventsDAO.details r = det.
Proof.
  intros Hj Hdev Hty Hdet Hts Hins Hwf Hlim Hlen Hdf Htf.
  destruct (device_event_run e tag body payload st Hj Hins)
    as (st' & Hrun & Hcoll & _).
  set (doc := with_id (mongo e) (ensure_timestamp e (default_timestamp e payload)))
    in *.
  assert (Hid : exists i, dict_get "_id" doc = Some i).
  { pose proof (with_id_has_id (mongo e)
                  (ensure_timestamp e (default_timestamp e payload))) as H.
    fold doc in H. unfold dict_contains in H.
    destruct (dict_get "_id" doc); [eauto|discriminate]. }
  destruct Hid as [i Hi].
  assert (Hd : dict_get "device_id" doc = Some (VInt n)).
  { subst doc. now rewrite stored_event_get by discriminate. }
  assert (Hy : dict_get "event_type" doc = dict_get "event_type" payload).
  { subst doc. now rewrite stored_event_get by discriminate. }
  assert (Hresp : EventsDAO.to_response doc
                  = Ret {| EventsDAO.id := i; EventsDAO.device_id := n;
                           EventsDAO.event_type := ty; EventsDAO.timestamp := ts;
                           EventsDAO.details := det |}).
  { unfold EventsDAO.to_response. rewrite Hi, Hd. subst doc.
    rewrite stored_event_timestamp, Hts.
    rewrite !stored_event_default by discriminate.
    rewrite Hty, Hdet. reflexivity. }
  assert (Hall : Forall returnable (events_collection st')).
  { rewrite Hcoll. apply Forall_app. split; [exact Hwf|].
    constructor; [|constructor]. eexists. exact Hresp. }
  edestruct (get_all_complete (events_collection st') device_id event_type limit
               doc) as (rs & Hrs & Hr); [| | | |exact Hresp|]; auto.
  - rewrite Hcoll, length_app. simpl. lia.
  - rewrite Hcoll. apply in_or_app. right. now left.
  - unfold EventsDAO.get_all_query. rewrite matches_app.
    apply andb_true_iff. split.
    + destruct Hdf as [->| ->]; [reflexivity|].
      destruct (Z.eqb_spec n 0); [reflexivity|]. simpl.
      rewrite Hd. simpl. now rewrite Z.eqb_refl.
    + destruct Htf as [->| ->]; [reflexivity|].
      destruct (String.eqb_spec ty ""); [reflexivity|]. simpl.
      rewrite Hy. unfold dict_get_default in Hty.
      destruct (dict_get "event_type" payload) as [v|].
      * subst v. simpl. now rewrite String.eqb_refl.
      * inversion Hty. congruence.
  - eexists st', rs, _. split; [exact Hrun|].
    unfold get_events.
    destruct (Z.leb_spec 1 limit); [|lia].
    destruct (Z.leb_spec limit 1000); [|lia]. simpl. rewrite Hrs.
    split; [reflexivity|]. split; [exact Hr|]. simpl. auto.
Qed.

Lemma consumed_event_is_listed_witness :
  exists st' rs r,
    _on_device_event
      (decoding alert_body [("device_id", VInt 7); ("event_type", VStr "alert")]
                registry_down)
      4 alert_body running
    = (Ret tt, st')
    /\ get_events (P := digits_only) (events_collection st') (Some 7) (Some "alert") 100 = OK rs
    /\ In r rs
    /\ EventsDAO.device_id r = 7
    /\ EventsDAO.event_type r = "alert"
    /\ EventsDAO.timestamp r = "2024-03-15T12:00:00"
    /\ EventsDAO.details r = [].
Proof.
  apply (consumed_event_is_listed (P := digits_only)
           (decoding alert_body [("device_id", VInt 7); ("event_type", VStr "alert")]
                     registry_down)
           4 alert_body [("device_id", VInt 7); ("event_type", VStr "alert")]
           running 100 7 "alert" "2024-03-15T12:00:00" [] (Some 7) (Some "alert"));
    try reflexivity; try (simpl; lia); auto.
Defined.

End StoreThenQuery.

(** ** From the publisher to the store *)

Section PublishThenConsume.
Import Mongo Monitoring RabbitMQConsumer RabbitMQPublisher Inputs.

Ltac run_publish :=
  unfold publish_event, channel, connection, request, json_dumps,
    RabbitMQPublisher.log, try_except, bind, modify, get_state, ret, raise,
    any_Exception;
  simpl.

Ltac split_errors b :=
  repeat match goal with
  | |- context [match connect_error b with _ => _ end] =>
      destruct (connect_error b) as [[]|] eqn:?; simpl
  | |- context [match channel_error b with _ => _ end] =>
      destruct (channel_error b) as [[]|] eqn:?; simpl
  | |- context [match exchange_declare_error b with _ => _ end] =>
      destruct (exchange_declare_error b) as [[]|] eqn:?; simpl
  | |- context [match basic_publish_error b with _ => _ end] =>
      destruct (basic_publish_error b) as [[]|] eqn:?; simpl
  end.

(** A call that returns [True] has sent the stamped event, once, as the
    last thing it asked of the broker, and leaves the channel open. *)
Lemma publish_event_true b rk ev p p' :
  publish_event b rk ev p = (Ret true, p') ->
  none_or_closed (_channel p') = false
  /\ exists t, RabbitMQPublisher.trace p' = RabbitMQPublisher.trace p ++ t
               /\ publish_attempts t = [(rk, stamp b ev)].
Proof.
  run_publish.
  destruct (forallb _ (stamp b ev)); simpl;
    [destruct (none_or_closed (_channel p)) eqn:Hch; simpl;
     [destruct (none_or_closed (_connection p)); simpl|]|];
    split_errors b;
    intros H; inversion H; subst; clear H; simpl;
    (split; [try reflexivity; try exact Hch|]);
    eexists; rewrite <- ?app_assoc; simpl; (split; [reflexivity|reflexivity]).
Qed.

(** A call on a channel that reads open goes straight to the publish
    request. *)
Lemma publish_event_on_open_channel b rk ev p :
  none_or_closed (_channel p) = false ->
  exists (ok : bool) (p' : publisher) (t : list RabbitMQPublisher.action),
    publish_event b rk ev p = (Ret ok, p')
    /\ RabbitMQPublisher.trace p' = RabbitMQPublisher.trace p ++ t
    /\ connect_attempts t = 0%nat
    /\ open_channel_attempts t = 0%nat
    /\ declare_attempts t = 0%nat
    /\ (serializable (VDict ev) = true -> publish_attempts t = [(rk, stamp b ev)])
    /\ (ok = true <->
        serializable (VDict (stamp b ev)) = true /\ basic_publish_error b = None).
Proof.
  intros Hch. pose proof (stamp_serializable b ev) as Hstamp.
  destruct p as [co [[[]]|] tr]; simpl in Hch; try discriminate.
  run_publish. simpl in Hstamp.
  destruct (forallb _ (stamp b ev)) eqn:Hser; simpl;
    split_errors b;
    do 3 eexists; (split; [reflexivity|]); simpl; rewrite <- ?app_assoc; simpl;
    (split; [reflexivity|]);
    repeat split; intros; try reflexivity; try discriminate;
    try tauto; try (intuition discriminate);
    try (specialize (Hstamp ltac:(assumption)); discriminate).
Qed.

(** A successful publish leaves the publisher connected: the next call,
    whatever the broker answers, asks for no connection, no channel and no
    exchange; it sends its event at once, and returns [True] exactly when
    the event can be encoded and the broker accepts it. *)
Theorem publish_reuses_connection b1 b2 rk1 rk2 ev1 ev2 p p1 :
  publish_event b1 rk1 ev1 p = (Ret true, p1) ->
  exists (ok : bool) (p2 : publisher) (t : list RabbitMQPublisher.action),
    publish_event b2 rk2 ev2 p1 = (Ret ok, p2)
    /\ RabbitMQPublisher.trace p2 = RabbitMQPublisher.trace p1 ++ t
    /\ connect_attempts t = 0%nat
    /\ open_channel_attempts t = 0%nat
    /\ declare_attempts t = 0%nat
    /\ (serializable (VDict ev2) = true -> publish_attempts t = [(rk2, stamp b2 ev2)])
    /\ (ok = true <->
        serializable (VDict (stamp b2 ev2)) = true /\ basic_publish_error b2 = None).
Proof.
  intros H. apply publish_event_true in H as [Hch _].
  now apply publish_event_on_open_channel.
Qed.

Lemma publish_reuses_connection_witness :
  exists (ok : bool) (p2 : publisher) (t : list RabbitMQPublisher.action),
    publish_event healthy_broker "device.event" status_change_event
      (snd (publish_event healthy_broker "device.event" status_change_event
              RabbitMQPublisher.__init__))
    = (Ret ok, p2)
    /\ connect_attempts t = 0%nat
    /\ publish_attempts t
       = [("device.event", stamp healthy_broker status_change_event)]
    /\ ok = true.
Proof.
  destruct (publish_reuses_connection healthy_broker healthy_broker
              "device.event" "device.event" status_change_event
              status_change_event RabbitMQPublisher.__init__
              (snd (publish_event healthy_broker "device.event"
                      status_change_event RabbitMQPublisher.__init__))
              eq_refl)
    as (ok & p2 & t & Hrun & _ & Hc & _ & _ & Hp & Hok).
  exists ok, p2, t. split; [exact Hrun|]. split; [exact Hc|].
  split; [apply Hp; reflexivity|]. apply Hok. split; reflexivity.
Defined.


(** What [publish_device_event] and [publish_telemetry] hand to
    [publish_event], with the timestamp the call adds. *)
Lemma device_event_message b (device_id : Z) (device_name event_type : string)
      (details : dict) :
  stamp b [("event_type", VStr event_type); ("device_id", VInt device_id);
           ("device_name", VStr device_name); ("details", VDict details)]
  = [("event_type", VStr event_type); ("device_id", VInt device_id);
     ("device_name", VStr device_name); ("details", VDict details);
     ("timestamp", VStr (Datetime.isoformat (RabbitMQPublisher.utcnow b)))].
Proof. reflexivity. Qed.

Lemma telemetry_message b (device_id : Z) (device_name : string) (data : dict) :
  stamp b [("event_type", VStr "telemetry"); ("device_id", VInt device_id);
           ("device_name", VStr device_name); ("data", VDict data)]
  = [("event_type", VStr "telemetry"); ("device_id", VInt device_id);
     ("device_name", VStr device_name); ("data", VDict data);
     ("timestamp", VStr (Datetime.isoformat (RabbitMQPublisher.utcnow b)))].
Proof. reflexivity. Qed.

(** A device event that the publisher has sent reaches the store and the
    live clients unchanged: once the consumer has decoded the message, the
    stored record is the message with an identifier added, the payload
    queued for broadcast is the message itself, and the listing shows the
    device, type, details and the publisher's timestamp. *)
Theorem published_event_is_stored_verbatim {P : Pydantic}
        b (device_id : Z) (device_name event_type : string) (details : dict)
        p p' :
  publish_device_event b device_id device_name event_type details p
  = (Ret true, p') ->
  exists m,
    (exists t, RabbitMQPublisher.trace p' = RabbitMQPublisher.trace p ++ t
               /\ publish_attempts t = [("device.event", m)])
    /\ forall e tag body st,
         json_loads e body = Ret (VDict m) ->
         insert_error (mongo e) = None ->
         exists st',
           _on_device_event e tag body st = (Ret tt, st')
           /\ events_collection st'
              = events_collection st
                ++ [m ++ [("_id", VObjectId (new_object_id (mongo e)))]]
           /\ (_socketio_callback st = Some tt ->
               Asyncio.maxsize (_broadcast_queue st)
               = Asyncio.maxsize SocketIOService.__init__ ->
               Asyncio.items (_broadcast_queue st')
               = Asyncio.items (_broadcast_queue st) ++ [("device_event", m)])
           /\ EventsDAO.to_response
                (m ++ [("_id", VObjectId (new_object_id (mongo e)))])
              = Ret {| EventsDAO.id := VObjectId (new_object_id (mongo e));
                       EventsDAO.device_id := device_id;
                       EventsDAO.event_type := event_type;
                       EventsDAO.timestamp :=
                         Datetime.isoformat (RabbitMQPublisher.utcnow b);
                       EventsDAO.details := details |}.
Proof.
  unfold publish_device_event. intros H.
  apply publish_event_true in H as [_ Hsent].
  rewrite device_event_message in Hsent.
  eexists. split; [exact Hsent|].
  intros e tag body st Hj Hins.
  destruct (device_event_run e tag body _ st Hj Hins) as (st' & Hrun & Hcoll & _ & Hq).
  exists st'. split; [exact Hrun|]. split; [exact Hcoll|].
  split; [exact Hq|reflexivity].
Qed.

Lemma published_event_is_stored_verbatim_witness :
  exists st',
    publish_attempts
      (RabbitMQPublisher.trace
         (snd (publish_status_change healthy_broker 7 "pump" "reserved" "deployed"
                 (Some "Bay-2") RabbitMQPublisher.__init__)))
    = [("device.event", status_change_message)]
    /\ _on_device_event wired 5 status_change_body running = (Ret tt, st')
    /\ events_collection st'
       = [status_change_message ++ [("_id", VObjectId "65f400000000000000000001")]]
    /\ Asyncio.items (_broadcast_queue st')
       = [("device_event", status_change_message)].
Proof.
  destruct (published_event_is_stored_verbatim (P := digits_only) healthy_broker 7 "pump"
              "status_change"
              [("old_status", VStr "reserved"); ("new_status", VStr "deployed");
               ("location", VStr "Bay-2")]
              RabbitMQPublisher.__init__
              (snd (publish_status_change healthy_broker 7 "pump" "reserved"
                      "deployed" (Some "Bay-2") RabbitMQPublisher.__init__))
              eq_refl)
    as (m & (t & Ht & Hsent) & Hstore).
  vm_compute in Ht. subst t. vm_compute in Hsent.
  inversion Hsent; subst m; clear Hsent.
  destruct (Hstore wired 5 status_change_body running eq_refl eq_refl)
    as (st' & Hrun & Hcoll & Hq & _).
  exists st'. split; [reflexivity|].
  split; [exact Hrun|]. split; [exact Hcoll|]. apply Hq; reflexivity.
Defined.


(** The fields of a stored telemetry record, from those of the event the
    consumer prepared. *)
Lemma stored_telemetry_get e payload event k :
  event = prepared e payload
  \/ (exists device_type,
        event = dict_set "device_type" device_type (prepared e payload)) ->
  k <> "device_type" -> k <> "_id" ->
  dict_contains "timestamp" (prepared e payload) = true ->
  dict_get k (with_id (mongo e) (ensure_timestamp e event))
  = dict_get k (prepared e payload).
Proof.
  intros Hev H1 H2 Hts.
  rewrite with_id_other_keys by assumption.
  assert (He : dict_get k event = dict_get k (prepared e payload)).
  { destruct Hev as [->|[v ->]]; [reflexivity|]. now rewrite dict_get_set_ne. }
  assert (Hc : dict_contains "timestamp" event = true).
  { unfold dict_contains in *.
    destruct Hev as [->|[v ->]]; [exact Hts|].
    now rewrite dict_get_set_ne. }
  unfold ensure_timestamp. rewrite Hc. exact He.
Qed.

(** Telemetry that the publisher has sent comes back from the telemetry
    listing: once the consumer has decoded the message, it stores one
    record whose response names the device and its name, carries the
    publisher's timestamp, and holds every metric as a field of its own
    (none under ["data"]); for a device id other than 0 it also has a
    device type.  The metrics are taken not to use a reserved name. *)
Theorem published_telemetry_is_listed {P : Pydantic}
        b (device_id : Z) (device_name : string) (data : dict) p p' :
  publish_telemetry b device_id device_name data p = (Ret true, p') ->
  NoDup (map fst data) ->
  Forall (fun k => dict_get k data = None) telemetry_reserved ->
  exists m,
    (exists t, RabbitMQPublisher.trace p' = RabbitMQPublisher.trace p ++ t
               /\ publish_attempts t = [("device.telemetry", m)])
    /\ forall e tag body st,
         json_loads e body = Ret (VDict m) ->
         insert_error (mongo e) = None ->
         exists st' doc r,
           _on_telemetry e tag body st = (Ret tt, st')
           /\ telemetry_collection st' = telemetry_collection st ++ [doc]
           /\ TelemetryDAO.to_response doc = Ret r
           /\ TelemetryDAO.device_id r = device_id
           /\ TelemetryDAO.device_name r = Some device_name
           /\ TelemetryDAO.timestamp r
              = Datetime.isoformat (RabbitMQPublisher.utcnow b)
           /\ TelemetryDAO.location r = None
           /\ (forall k v, dict_get k data = Some v ->
                           dict_get k (TelemetryDAO.extra r) = Some v)
           /\ dict_get "data" (TelemetryDAO.extra r) = None
           /\ dict_get "event_type" (TelemetryDAO.extra r) = Some (VStr "telemetry")
           /\ (device_id <> 0 ->
               dict_contains "device_type" (TelemetryDAO.extra r) = true).
Proof.
  unfold publish_telemetry. intros H Hnd Hres.
  apply publish_event_true in H as [_ Hsent].
  rewrite telemetry_message in Hsent.
  eexists. split; [exact Hsent|].
  intros e tag body st Hj Hins.
  set (m := [("event_type", VStr "telemetry"); ("device_id", VInt device_id);
             ("device_name", VStr device_name); ("data", VDict data);
             ("timestamp", VStr (Datetime.isoformat (RabbitMQPublisher.utcnow b)))])
    in *.
  assert (Hr : forall k, In k telemetry_reserved -> dict_get k data = None).
  { intros k Hk. rewrite Forall_forall in Hres. now apply Hres, list_elem_of_In. }
  assert (Hp : forall k, dict_get k data = None -> k <> "data" ->
                 dict_get k (prepared e m) = dict_get k m).
  { intros k Hk Hne. rewrite (prepared_get e m data) by (assumption || reflexivity).
    rewrite Hk. destruct (String.eqb_spec k "data"); [contradiction|].
    destruct (String.eqb_spec k "timestamp") as [->|];
      [reflexivity|now apply default_timestamp_get]. }
  assert (Hdev : dict_get "device_id" (prepared e m) = Some (VInt device_id)).
  { rewrite Hp; [reflexivity| |discriminate]. apply Hr. simpl. tauto. }
  assert (Hts : dict_get "timestamp" (prepared e m)
                = Some (VStr (Datetime.isoformat (RabbitMQPublisher.utcnow b)))).
  { rewrite Hp; [reflexivity| |discriminate]. apply Hr. simpl. tauto. }
  destruct (telemetry_run e tag body m st Hj) as (st' & event & Hrun & Hcoll & _ & Hev);
    [right; unfold dict_get_default; rewrite Hdev; reflexivity|exact Hins|].
  unfold dict_get_default in Hev. rewrite Hdev in Hev. simpl in Hev.
  assert (Hev' : event = prepared e m
                 \/ exists device_type,
                      event = dict_set "device_type" device_type (prepared e m)).
  { destruct (negb (device_id =? 0)); [right|left]; exact Hev. }
  set (doc := with_id (mongo e) (ensure_timestamp e event)) in *.
  assert (Hget : forall k, k <> "device_type" -> k <> "_id" ->
                   dict_get k doc = dict_get k (prepared e m)).
  { intros k H1 H2. subst doc. apply stored_telemetry_get; auto.
    unfold dict_contains. now rewrite Hts. }
  assert (Hid : exists i, dict_get "_id" doc = Some i).
  { pose proof (with_id_has_id (mongo e) (ensure_timestamp e event)) as Hc.
    fold doc in Hc. unfold dict_contains in Hc.
    destruct (dict_get "_id" doc); [eauto|discriminate]. }
  destruct Hid as [i Hi].
  assert (Hresp : TelemetryDAO.to_response doc
                  = Ret {| TelemetryDAO.id := i; TelemetryDAO.device_id := device_id;
                           TelemetryDAO.device_name := Some device_name;
                           TelemetryDAO.timestamp :=
                             Datetime.isoformat (RabbitMQPublisher.utcnow b);
                           TelemetryDAO.location := None;
                           TelemetryDAO.extra :=
                             dict_remove "location"
                               (dict_remove "device_name"
                                  (dict_remove "timestamp"
                                     (dict_remove "device_id"
                                        (dict_remove "_id" doc)))) |}).
  { apply telemetry_to_response_ok.
    - exact Hi.
    - now rewrite Hget by discriminate.
    - now rewrite Hget by discriminate.
    - unfold dict_get_default. rewrite Hget by discriminate.
      rewrite Hp; [reflexivity| |discriminate]. apply Hr. simpl. tauto.
    - unfold dict_get_default. rewrite Hget by discriminate.
      rewrite Hp; [| |discriminate]; [reflexivity|]. apply Hr. simpl. tauto.
    - rewrite Hget by discriminate.
      rewrite Hp; [reflexivity| |discriminate]. apply Hr. simpl. tauto. }
  exists st', doc. eexists. split; [exact Hrun|]. split; [exact Hcoll|].
  split; [exact Hresp|]. simpl.
  split; [reflexivity|]. split; [reflexivity|]. split; [reflexivity|].
  split; [reflexivity|].
  split; [|split; [|split]].
  - intros k v Hk.
    assert (Hnr : ~ In k telemetry_reserved).
    { intros Hin. rewrite (Hr k Hin) in Hk. discriminate. }
    simpl in Hnr.
    assert (Hd : telemetry_declared k = false).
    { apply telemetry_declared_spec. repeat split; intros ->; tauto. }
    rewrite popped_get, Hd, Hget by (intros ->; tauto).
    rewrite (prepared_get e m data) by (assumption || reflexivity).
    now rewrite Hk.
  - rewrite popped_get. simpl. rewrite Hget by discriminate.
    rewrite (prepared_get e m data) by (assumption || reflexivity).
    rewrite (Hr "data") by (simpl; tauto). reflexivity.
  - rewrite popped_get. simpl. rewrite Hget by discriminate.
    rewrite Hp; [reflexivity| |discriminate]. apply Hr. simpl. tauto.
  - intros Hnz. unfold dict_contains. rewrite popped_get. simpl.
    subst doc. rewrite with_id_other_keys by discriminate.
    rewrite ensure_timestamp_other_keys by discriminate.
    destruct (Z.eqb_spec device_id 0); [contradiction|]. simpl in Hev.
    destruct Hev as [v ->]. now rewrite dict_get_set_eq.
Qed.

Lemma published_telemetry_is_listed_witness :
  exists st' doc r,
    publish_attempts
      (RabbitMQPublisher.trace
         (snd (publish_telemetry healthy_broker 7 "probe" [("temperature", VInt 21)]
                 RabbitMQPublisher.__init__)))
    = [("device.telemetry", reading_message)]
    /\ _on_telemetry wired 6 reading_body running = (Ret tt, st')
    /\ telemetry_collection st' = [doc]
    /\ TelemetryDAO.to_response (P := digits_only) doc = Ret r
    /\ TelemetryDAO.device_id r = 7
    /\ TelemetryDAO.timestamp r = "2024-03-15T12:00:00"
    /\ dict_get "temperature" (TelemetryDAO.extra r) = Some (VInt 21)
    /\ dict_contains "device_type" (TelemetryDAO.extra r) = true.
Proof.
  destruct (published_telemetry_is_listed (P := digits_only) healthy_broker 7 "probe"
              [("temperature", VInt 21)] RabbitMQPublisher.__init__
              (snd (publish_telemetry healthy_broker 7 "probe"
                      [("temperature", VInt 21)] RabbitMQPublisher.__init__))
              eq_refl)
    as (m & (t & Ht & Hsent) & Hstore).
  - apply NoDup_singleton.
  - repeat constructor.
  - vm_compute in Ht. subst t. vm_compute in Hsent.
    inversion Hsent; subst m; clear Hsent.
    destruct (Hstore wired 6 reading_body running eq_refl eq_refl)
      as (st' & doc & r & Hrun & Hcoll & Hresp & Hd & _ & Hts & _ & Hm & _ & _ & Hty).
    exists st', doc, r. split; [reflexivity|].
    split; [exact Hrun|]. split; [exact Hcoll|]. split; [exact Hresp|].
    split; [exact Hd|]. split; [exact Hts|].
    split; [apply Hm; reflexivity|apply Hty; lia].
Defined.

End PublishThenConsume.

(** ** The consume loop only appends *)

Section AppendOnly.
Import Monitoring RabbitMQConsumer Inputs.

Ltac extends_by_fields :=
  unfold extends; simpl; repeat split; auto;
  try (exists []; now rewrite app_nil_r);
  try (exists []; rewrite app_nil_r; split; [reflexivity|constructor]);
  try (eexists; reflexivity).

Lemma extends_refl st : extends st st.
Proof. extends_by_fields. Qed.

Lemma extends_trans s1 s2 s3 : extends s1 s2 -> extends s2 s3 -> extends s1 s3.
Proof.
  intros (Ht & He & Hc & Hq & Hm & Hk) (Ht' & He' & Hc' & Hq' & Hm' & Hk').
  destruct Ht as [l1 Ht], Ht' as [l1' Ht'], He as [l2 He], He' as [l2' He'],
    Hq as (l3 & Hq & Hf), Hq' as (l3' & Hq' & Hf').
  unfold extends. repeat split.
  - exists (l1 ++ l1'). now rewrite Ht', Ht, app_assoc.
  - exists (l2 ++ l2'). now rewrite He', He, app_assoc.
  - auto.
  - exists (l3 ++ l3'). rewrite Hq', Hq, app_assoc. split; [reflexivity|].
    apply Forall_app. auto.
  - congruence.
  - congruence.
Qed.

Lemma extends_emit a st : extends st (emit a st).
Proof. extends_by_fields. Qed.

Lemma appending_ret {A} (a : A) : appending (ret a).
Proof. intros st r st' H. inversion H; subst. apply extends_refl. Qed.

Lemma appending_raise {A} e : appending (@raise state A e).
Proof. intros st r st' H. inversion H; subst. apply extends_refl. Qed.

Lemma appending_lift_result {A} (o : outcome A) : appending (lift_result o).
Proof. intros st r st' H. inversion H; subst. apply extends_refl. Qed.

Lemma appending_get_state : appending get_state.
Proof. intros st r st' H. inversion H; subst. apply extends_refl. Qed.

Lemma appending_do a : appending (do a).
Proof. intros st r st' H. inversion H; subst. apply extends_emit. Qed.

Lemma appending_log l msg : appending (log l msg).
Proof. apply appending_do. Qed.

Lemma appending_bind {A B} (c : M state A) (k : A -> M state B) :
  appending c -> (forall a, appending (k a)) -> appending (bind c k).
Proof.
  intros Hc Hk st r st' H. unfold bind in H.
  destruct (c st) as [[a|e] s1] eqn:Hcs.
  - eapply extends_trans; [eapply Hc; eauto|eapply Hk; eauto].
  - inversion H; subst. eapply Hc; eauto.
Qed.

Lemma appending_try_except {A} (c : M state A) handles h :
  appending c -> (forall e, appending (h e)) -> appending (try_except c handles h).
Proof.
  intros Hc Hh st r st' H. unfold try_except in H.
  destruct (c st) as [[a|e] s1] eqn:Hcs.
  - inversion H; subst. eapply Hc; eauto.
  - destruct (handles e).
    + eapply extends_trans; [eapply Hc; eauto|eapply Hh; eauto].
    + inversion H; subst. eapply Hc; eauto.
Qed.

Lemma appending_events_insert e data : appending (EventsDAO.insert e data).
Proof.
  intros st r st'. rewrite events_insert_run.
  destruct (Mongo.insert_error (mongo e)); intros H; inversion H; subst.
  - apply extends_emit.
  - extends_by_fields.
Qed.

Lemma appending_telemetry_insert e data : appending (TelemetryDAO.insert e data).
Proof.
  intros st r st'. rewrite telemetry_insert_run.
  destruct (Mongo.insert_error (mongo e)); intros H; inversion H; subst.
  - apply extends_emit.
  - extends_by_fields.
Qed.

Lemma dict_get_without k d : dict_get k (dict_without k d) = None.
Proof.
  unfold dict_without. induction d as [|[k' v] d IH]; simpl; [reflexivity|].
  destruct (String.eqb_spec k' k) as [->|Hne]; simpl; [exact IH|].
  destruct (String.eqb_spec k k'); [congruence|exact IH].
Qed.

Lemma appending_queue_broadcast ev data :
  dict_get "_id" data = None -> appending (SocketIOService.queue_broadcast ev data).
Proof.
  intros Hid st r st'.
  destruct (Asyncio.full (_broadcast_queue st)) eqn:Hf.
  - rewrite queue_broadcast_full by assumption.
    intros H; inversion H; subst. extends_by_fields.
  - rewrite queue_broadcast_not_full by assumption.
    intros H; inversion H; subst.
    extends_by_fields.
    eexists. split; [reflexivity|]. constructor; [exact Hid|constructor].
Qed.

Lemma appending_callback ev payload : appending (call_socketio_callback ev payload).
Proof.
  unfold call_socketio_callback.
  apply appending_bind; [apply appending_get_state|]. intros st.
  destruct (_socketio_callback st); [|apply appending_ret].
  apply appending_queue_broadcast, dict_get_without.
Qed.

(** Storing under a key that is not in the memo leaves every entry as it
    was. *)
Lemma cache_store_keeps k v c k' v' :
  cache_lookup k c = None ->
  cache_lookup k' c = Some v' -> cache_lookup k' (cache_store k v c) = Some v'.
Proof.
  induction c as [|[k1 v1] c IH]; simpl; [discriminate|].
  destruct (key_eqb k k1); [discriminate|]. intros Hk. simpl.
  destruct (key_eqb k' k1); auto.
Qed.

Lemma appending_get_device_type e device_id : appending (_get_device_type e device_id).
Proof.
  intros st r s. unfold _get_device_type. destruct (hashable device_id); simpl.
  2:{ intros H. inversion H; subst. apply extends_refl. }
  unfold bind at 1. unfold get_state.
  destruct (cache_lookup device_id (_device_type_cache st)) eqn:Hl.
  { intros H. inversion H; subst. apply extends_refl. }
  unfold try_except, bind, do, modify, lift_result, log, ret, raise,
    any_Exception. simpl.
  destruct (requests_get_type e device_id) as [code [[]|x]|x]; simpl;
    try destruct (code =? 200); simpl;
    intros H; inversion H; subst; try (now extends_by_fields).
  extends_by_fields.
  intros k v. now apply cache_store_keeps.
Qed.

Lemma appending_as_dict v : appending (as_dict v).
Proof. destruct v; simpl; first [apply appending_ret|apply appending_raise]. Qed.

Create HintDb appending.
#[local] Hint Resolve appending_ret appending_raise appending_lift_result
  appending_get_state appending_log appending_do appending_events_insert
  appending_telemetry_insert appending_callback appending_get_device_type
  appending_as_dict : appending.

Ltac appending_auto :=
  repeat first
    [ solve [auto with appending]
    | apply appending_bind; [|intros ?]
    | apply appending_try_except; [|intros ?]
    | progress cbv zeta
    | match goal with
      | |- appending (match ?x with _ => _ end) => destruct x
      | |- appending (if ?x then _ else _) => destruct x
      end ].

Lemma appending_on_telemetry_try e body : appending (_on_telemetry_try e body).
Proof. unfold _on_telemetry_try. appending_auto. Qed.

Lemma appending_on_device_event_try e body : appending (_on_device_event_try e body).
Proof. unfold _on_device_event_try. appending_auto. Qed.

(** A callback whose body only appends: it returns, acknowledges last and
    once, and only appends. *)
Lemma handler_appends (body : M state unit) msg tag st :
  quiet body -> appending body ->
  exists st',
    try_finally (try_except body any_Exception (fun _ => log Logging.ERROR msg))
                (do (BasicAck tag)) st
    = (Ret tt, st')
    /\ acks (trace st') = acks (trace st) ++ [tag]
    /\ extends st st'.
Proof.
  intros Hq Ha. rewrite handler_run.
  destruct (body st) as [[[]|x] s] eqn:Hb;
    destruct (Hq _ _ _ Hb) as (t & Ht & Hacks); pose proof (Ha _ _ _ Hb) as He;
    eexists; (split; [reflexivity|]); simpl; rewrite Ht;
    rewrite ?acks_app; simpl; rewrite ?acks_app, Hacks; simpl;
    (split; [now rewrite ?app_nil_r|]);
    (eapply extends_trans; [exact He|]); extends_by_fields.
Qed.

Lemma on_message_appends d st :
  exists st',
    on_message d st = (Ret tt, st')
    /\ acks (trace st') = acks (trace st) ++ [delivery_tag d]
    /\ extends st st'.
Proof.
  unfold on_message, _on_telemetry, _on_device_event.
  destruct (queue d); apply handler_appends;
    auto using quiet_on_telemetry_try, quiet_on_device_event_try,
      appending_on_telemetry_try, appending_on_device_event_try.
Qed.

(** The consume loop never fails and only appends.  Whatever is delivered
    and whatever the environment answers, it acknowledges every delivery,
    once and in order; it never removes or changes a stored record, never
    forgets or changes a memoized device type, and adds to the broadcast
    queue only payloads without an ["_id"] field. *)
Theorem consume_only_appends (ds : list delivery) (st : state) :
  fst (consume ds st) = Ret tt
  /\ acks (trace (snd (consume ds st))) = acks (trace st) ++ map delivery_tag ds
  /\ extends st (snd (consume ds st)).
Proof.
  revert st. induction ds as [|d ds IH]; intros st; simpl.
  - split; [reflexivity|]. split; [now rewrite app_nil_r|apply extends_refl].
  - destruct (on_message_appends d st) as (s1 & Hrun & Hacks & Hext).
    rewrite (bind_ret_run _ _ _ _ _ Hrun).
    destruct (IH s1) as (H1 & H2 & H3).
    split; [exact H1|]. split.
    + rewrite H2, Hacks, <- app_assoc. reflexivity.
    + eapply extends_trans; eauto.
Qed.

End AppendOnly.

(** ** The device entries of the cache *)

Section DeviceCache.
Import CacheService Inputs.

Lemma to_int_not_nil (n : Z) :
  Z.to_int n <> Decimal.Pos Decimal.Nil /\ Z.to_int n <> Decimal.Neg Decimal.Nil.
Proof.
  assert (H : Z.to_int n = Decimal.norm (Z.to_int n)).
  { rewrite <- DecimalZ.to_of. now rewrite DecimalZ.of_to. }
  split; intros E; rewrite E in H; discriminate.
Qed.

Lemma str_int_inj (a b : Z) : str_int a = str_int b -> a = b.
Proof.
  unfold str_int. intros H.
  destruct (to_int_not_nil a) as [Ha1 Ha2], (to_int_not_nil b) as [Hb1 Hb2].
  apply DecimalZ.to_int_inj.
  assert (E : Some (Z.to_int a) = Some (Z.to_int b)).
  { rewrite <- (NilZero.isi (Z.to_int a)), <- (NilZero.isi (Z.to_int b)) by assumption.
    now rewrite H. }
  now inversion E.
Qed.

(** The cache keys do not collide: two devices have different keys, and
    no device key is the key of the device list or begins with
    ["devices:"], the prefix of the keys that [invalidate_devices_cache]
    asks the server to delete. *)
Theorem device_keys_are_distinct (a b : Z) :
  (device_key a = device_key b -> a = b)
  /\ device_key a <> devices_key
  /\ String.prefix "devices:" (device_key a) = false.
Proof.
  unfold device_key, devices_key. split; [|split].
  - intros H. simpl in H. apply str_int_inj. now inversion H.
  - simpl. intros H. inversion H.
  - reflexivity.
Qed.

Lemma device_keys_are_distinct_witness :
  device_key 7 = "device:7" /\ device_key 7 <> device_key 70
  /\ device_key (-3) = "device:-3".
Proof.
  split; [reflexivity|]. split; [|reflexivity].
  intros H. apply (device_keys_are_distinct 7 70) in H. discriminate.
Defined.

Ltac run_cache :=
  unfold get_device_cache, get_devices_cache, get, client, command, log,
    lift_result, try_except, bind, modify, get_state, ret, raise;
  simpl.

(** The getters of the device entries return [None] whenever the cache
    cannot be read (the connection attempt fails or the command raises),
    holds nothing under the key, or holds the empty text; the only way
    for them to raise is a cached text that the JSON decoder refuses. *)
Theorem device_cache_getters_contract
        (r : redis) (loads : string -> outcome value) (device_id : Z)
        (st : service) :
  let read key :=
    if client_fails r st then None
    else match GET r key with inl _ => None | inr x => x end in
  let answer cached :=
    match cached with
    | None => Ret None
    | Some text =>
        if String.eqb text "" then Ret None
        else match loads text with
             | Ret v => Ret (Some v)
             | Raise x => Raise x
             end
    end in
  fst (get_device_cache r loads device_id st) = answer (read (device_key device_id))
  /\ fst (get_devices_cache r loads st) = answer (read devices_key).
Proof.
  unfold client_fails.
  destruct st as [[[]|] records]; run_cache; split;
    try (destruct (ping r) as [[]|]; simpl); try reflexivity;
    match goal with |- context [GET r ?k] =>
      destruct (GET r k) as [|[text|]]; simpl; try reflexivity;
      destruct (String.eqb text ""); simpl; try reflexivity;
      destruct (loads text); reflexivity
    end.
Qed.

(** A garbled entry makes the getter raise, while a server that is down
    is a miss. *)
Example garbled_entry_raises :
  fst (get_device_cache redis_garbled strict_loads 7 __init__) = Raise JSONDecodeError
  /\ fst (get_device_cache redis_down strict_loads 7 __init__) = Ret None.
Proof. split; reflexivity. Qed.

End DeviceCache.

(** ** Timestamps order as instants *)

Section Timestamps.
Import Datetime Inputs.

Lemma compare_append_same_length (a1 : string) : forall a2 b1 b2,
  String.length a1 = String.length a2 ->
  String.compare (a1 +:+ b1) (a2 +:+ b2)
  = then_by (String.compare a1 a2) (String.compare b1 b2).
Proof.
  induction a1 as [|c1 a1 IH]; intros [|c2 a2] b1 b2 Hlen; simpl in *;
    try discriminate; [reflexivity|].
  destruct (Ascii.compare c1 c2); try reflexivity.
  apply IH. now inversion Hlen.
Qed.

Lemma length_append (s1 s2 : string) :
  String.length (s1 +:+ s2) = (String.length s1 + String.length s2)%nat.
Proof. induction s1; simpl; auto. Qed.

Lemma pad_length w : forall n, String.length (pad w n) = w.
Proof.
  induction w as [|w IH]; intros n; simpl; [reflexivity|].
  rewrite length_append, IH. simpl. lia.
Qed.

Lemma digit_compare a b :
  Ascii.compare (digit a) (digit b) = (a mod 10 ?= b mod 10).
Proof.
  unfold digit.
  assert (Ha : 0 <= a mod 10 < 10) by (apply Z.mod_pos_bound; lia).
  assert (Hb : 0 <= b mod 10 < 10) by (apply Z.mod_pos_bound; lia).
  generalize dependent (b mod 10). generalize dependent (a mod 10).
  intros x Hx y Hy.
  assert (Ex : x = 0 \/ x = 1 \/ x = 2 \/ x = 3 \/ x = 4 \/ x = 5 \/ x = 6
               \/ x = 7 \/ x = 8 \/ x = 9) by lia.
  assert (Ey : y = 0 \/ y = 1 \/ y = 2 \/ y = 3 \/ y = 4 \/ y = 5 \/ y = 6
               \/ y = 7 \/ y = 8 \/ y = 9) by lia.
  repeat (destruct Ex as [->|Ex]); try subst x;
    repeat (destruct Ey as [->|Ey]); try subst y; reflexivity.
Qed.

Lemma then_by_div a b :
  then_by (a / 10 ?= b / 10) (a mod 10 ?= b mod 10) = (a ?= b).
Proof.
  pose proof (Z.div_mod a 10 ltac:(lia)) as Ha.
  pose proof (Z.div_mod b 10 ltac:(lia)) as Hb.
  pose proof (Z.mod_pos_bound a 10 ltac:(lia)) as Ha'.
  pose proof (Z.mod_pos_bound b 10 ltac:(lia)) as Hb'.
  generalize dependent (a mod 10). generalize dependent (b mod 10).
  generalize dependent (a / 10). generalize dependent (b / 10).
  intros qb qa rb Hb Hb' ra Ha Ha'. subst a b.
  destruct (Z.compare_spec qa qb) as [E|L|G]; simpl.
  - subst qb. destruct (Z.compare_spec ra rb);
      symmetry; [apply Z.compare_eq_iff|apply Z.compare_lt_iff|apply Z.compare_gt_iff];
      lia.
  - symmetry. apply Z.compare_lt_iff. lia.
  - symmetry. apply Z.compare_gt_iff. lia.
Qed.

Lemma compare_single c1 c2 :
  String.compare (String c1 "") (String c2 "") = Ascii.compare c1 c2.
Proof. simpl. now destruct (Ascii.compare c1 c2). Qed.

(** Zero-padded numbers of the same width compare as the numbers do. *)
Lemma pad_compare w : forall a b,
  0 <= a < 10 ^ Z.of_nat w -> 0 <= b < 10 ^ Z.of_nat w ->
  String.compare (pad w a) (pad w b) = (a ?= b).
Proof.
  induction w as [|w IH]; intros a b Ha Hb.
  - change (10 ^ Z.of_nat 0) with 1 in *.
    assert (a = 0) by lia. assert (b = 0) by lia. subst. reflexivity.
  - rewrite Nat2Z.inj_succ, Z.pow_succ_r in Ha, Hb by lia.
    cbn [pad]. rewrite compare_append_same_length by now rewrite !pad_length.
    rewrite compare_single, digit_compare, IH.
    + apply then_by_div.
    + split; [apply Z.div_pos; lia|apply Z.div_lt_upper_bound; lia].
    + split; [apply Z.div_pos; lia|apply Z.div_lt_upper_bound; lia].
Qed.

Lemma days_in_month_bounds y m : 28 <= days_in_month y m <= 31.
Proof.
  unfold days_in_month.
  destruct (m =? 2); [destruct (is_leap y); lia|].
  destruct ((m =? 4) || (m =? 6) || (m =? 9) || (m =? 11)); lia.
Qed.

Lemma valid_bounds dt :
  valid dt = true ->
  (1 <= year dt <= 9999) /\ (1 <= month dt <= 12)
  /\ (1 <= day dt <= days_in_month (year dt) (month dt))
  /\ (0 <= hour dt <= 23) /\ (0 <= minute dt <= 59) /\ (0 <= second dt <= 59)
  /\ (0 <= microsecond dt <= 999999).
Proof.
  unfold valid. rewrite !andb_true_iff, !Z.leb_le. tauto.
Qed.

Lemma fraction_compare u1 u2 :
  0 <= u1 <= 999999 -> 0 <= u2 <= 999999 ->
  String.compare (if u1 =? 0 then "" else "." +:+ pad 6 u1)
                 (if u2 =? 0 then "" else "." +:+ pad 6 u2)
  = (u1 ?= u2).
Proof.
  intros H1 H2.
  destruct (Z.eqb_spec u1 0) as [->|N1], (Z.eqb_spec u2 0) as [->|N2].
  - reflexivity.
  - symmetry. apply Z.compare_lt_iff. lia.
  - symmetry. apply Z.compare_gt_iff. lia.
  - rewrite (compare_append_same_length "." ".") by reflexivity.
    change (String.compare "." ".") with Eq. cbn [then_by].
    apply pad_compare; change (10 ^ Z.of_nat 6) with 1000000; lia.
Qed.

(** Comparing two [isoformat] texts as strings gives the order of the two
    instants. *)
Lemma isoformat_compare (d1 d2 : datetime) :
  valid d1 = true -> valid d2 = true ->
  String.compare (isoformat d1) (isoformat d2) = chronological d1 d2.
Proof.
  intros V1 V2.
  apply valid_bounds in V1 as (Y1 & M1 & D1 & h1 & m1 & s1 & u1).
  apply valid_bounds in V2 as (Y2 & M2 & D2 & h2 & m2 & s2 & u2).
  pose proof (days_in_month_bounds (year d1) (month d1)).
  pose proof (days_in_month_bounds (year d2) (month d2)).
  unfold isoformat, chronological.
  rewrite compare_append_same_length by (now rewrite !pad_length).
  rewrite pad_compare by (change (10 ^ Z.of_nat 4) with 10000; lia).
  f_equal.
  rewrite (compare_append_same_length "-" "-") by reflexivity.
  change (String.compare "-" "-") with Eq. cbn [then_by].
  rewrite compare_append_same_length by (now rewrite !pad_length).
  rewrite pad_compare by (change (10 ^ Z.of_nat 2) with 100; lia).
  f_equal.
  rewrite (compare_append_same_length "-" "-") by reflexivity.
  change (String.compare "-" "-") with Eq. cbn [then_by].
  rewrite compare_append_same_length by (now rewrite !pad_length).
  rewrite pad_compare by (change (10 ^ Z.of_nat 2) with 100; lia).
  f_equal.
  rewrite (compare_append_same_length "T" "T") by reflexivity.
  change (String.compare "T" "T") with Eq. cbn [then_by].
  rewrite compare_append_same_length by (now rewrite !pad_length).
  rewrite pad_compare by (change (10 ^ Z.of_nat 2) with 100; lia).
  f_equal.
  rewrite (compare_append_same_length ":" ":") by reflexivity.
  change (String.compare ":" ":") with Eq. cbn [then_by].
  rewrite compare_append_same_length by (now rewrite !pad_length).
  rewrite pad_compare by (change (10 ^ Z.of_nat 2) with 100; lia).
  f_equal.
  rewrite (compare_append_same_length ":" ":") by reflexivity.
  change (String.compare ":" ":") with Eq. cbn [then_by].
  rewrite compare_append_same_length by (now rewrite !pad_length).
  rewrite pad_compare by (change (10 ^ Z.of_nat 2) with 100; lia).
  f_equal.
  now apply fraction_compare.
Qed.

Lemma chronological_eq d1 d2 : chronological d1 d2 = Eq -> d1 = d2.
Proof.
  unfold chronological. destruct d1, d2; simpl.
  repeat match goal with
         | |- then_by (?a ?= ?b) _ = Eq -> _ =>
             destruct (Z.compare_spec a b); simpl; try discriminate; subst
         end.
  intros H. apply Z.compare_eq in H. now subst.
Qed.

(** The timestamps that both services write order as the instants they
    stand for: comparing two [isoformat] texts as strings -- which is what
    the store does when it sorts by timestamp and when it selects the
    records older than a cutoff -- gives the order of the two instants;
    in particular two instants with the same text are the same. *)
Theorem isoformat_is_chronological (d1 d2 : datetime) :
  valid d1 = true -> valid d2 = true ->
  String.compare (isoformat d1) (isoformat d2) = chronological d1 d2
  /\ (String.ltb (isoformat d1) (isoformat d2) = true <-> chronological d1 d2 = Lt)
  /\ (isoformat d1 = isoformat d2 -> d1 = d2).
Proof.
  intros V1 V2. pose proof (isoformat_compare d1 d2 V1 V2) as H.
  split; [exact H|]. split.
  - unfold String.ltb. rewrite H.
    destruct (chronological d1 d2); split; congruence.
  - intros E. apply chronological_eq. rewrite <- H, E.
    pose proof (String.compare_antisym (isoformat d2) (isoformat d2)) as A.
    destruct (String.compare (isoformat d2) (isoformat d2)); simpl in A;
      congruence.
Qed.

Lemma isoformat_is_chronological_witness :
  String.compare (isoformat mid_march) (isoformat end_march) = Lt.
Proof.
  destruct (isoformat_is_chronological mid_march end_march) as (H & _);
    try reflexivity.
Defined.

Lemma days_earlier_valid now days :
  valid now = true -> 0 <= days < day now -> valid (days_earlier now days) = true.
Proof.
  intros V H. pose proof (valid_bounds now V) as (Y & M & D & h & m & s & u).
  unfold valid, days_earlier. simpl.
  rewrite !andb_true_iff, !Z.leb_le. repeat split; lia.
Qed.

Lemma older_is_chronological cutoff t doc :
  valid cutoff = true -> valid t = true ->
  dict_get "timestamp" doc = Some (VStr (isoformat t)) ->
  Mongo.matches [("timestamp", Mongo.LtStr (isoformat cutoff))] doc = false
  <-> chronological t cutoff <> Lt.
Proof.
  intros Vc Vt Hts. unfold Mongo.matches.
  cbn [forallb fst snd]. rewrite Hts. cbn [Mongo.field_matches Mongo.scalar_matches].
  rewrite andb_true_r. unfold String.ltb.
  rewrite (isoformat_compare t cutoff Vt Vc).
  destruct (chronological t cutoff); split; congruence.
Qed.

(** The purge is by age: run on a day of the month greater than [days],
    each purge keeps, among the records stamped with the [isoformat] of an
    instant, exactly those whose instant is not before the cutoff, the
    same time of day [days] days earlier. *)
Theorem purge_is_chronological now days st :
  valid now = true -> 0 <= days < day now ->
  (exists st' n,
     EventsDAO.delete_old_data now days st = (Ret n, st')
     /\ forall doc t,
          valid t = true ->
          dict_get "timestamp" doc = Some (VStr (isoformat t)) ->
          (In doc (Monitoring.events_collection st')
           <-> In doc (Monitoring.events_collection st)
               /\ chronological t (days_earlier now days) <> Lt))
  /\ (exists st' n,
        TelemetryDAO.delete_old_data now days st = (Ret n, st')
        /\ forall doc t,
             valid t = true ->
             dict_get "timestamp" doc = Some (VStr (isoformat t)) ->
             (In doc (Monitoring.telemetry_collection st')
              <-> In doc (Monitoring.telemetry_collection st)
                  /\ chronological t (days_earlier now days) <> Lt)).
Proof.
  intros V H. pose proof (days_earlier_valid now days V H) as Vc.
  unfold EventsDAO.delete_old_data, TelemetryDAO.delete_old_data, bind, lift_result.
  rewrite replace_day_in_month by assumption.
  split; do 2 eexists; (split; [reflexivity|]); intros doc t Vt Hts;
    cbn [Monitoring.events_collection Monitoring.telemetry_collection
         Monitoring.emit Monitoring.set_events Monitoring.set_telemetry snd fst];
    rewrite filter_In, negb_true_iff;
    rewrite (older_is_chronological _ t doc Vc Vt Hts); reflexivity.
Qed.

Lemma purge_is_chronological_witness :
  exists st' n,
    EventsDAO.delete_old_data end_march 30 stale_state = (Ret n, st')
    /\ forall doc,
         dict_get "timestamp" doc = Some (VStr (isoformat mid_march)) ->
         (In doc (Monitoring.events_collection st')
          <-> In doc (Monitoring.events_collection stale_state)).
Proof.
  destruct (purge_is_chronological end_march 30 stale_state) as ((st' & n & Hrun & Hkeep) & _).
  - reflexivity.
  - simpl. lia.
  - exists st', n. split; [exact Hrun|]. intros doc Hts.
    rewrite (Hkeep doc mid_march eq_refl Hts). split; [tauto|].
    intros Hin. split; [exact Hin|]. discriminate.
Defined.

End Timestamps.

(** ** Messages that are lost *)

Section LostMessages.
Import Mongo Monitoring RabbitMQConsumer Inputs EventsController TelemetryController.

Lemma device_event_try_fails e body payload x st :
  json_loads e body = Ret (VDict payload) ->
  insert_error (mongo e) = Some x ->
  exists s,
    _on_device_event_try e body st = (Raise x, s)
    /\ telemetry_collection s = telemetry_collection st
    /\ events_collection s = events_collection st
    /\ _broadcast_queue s = _broadcast_queue st.
Proof.
  intros Hj Hins. unfold _on_device_event_try.
  erewrite bind_ret_run by (unfold lift_result; rewrite Hj; reflexivity).
  erewrite bind_ret_run by reflexivity.
  cbv beta zeta. unfold bind at 1. rewrite events_insert_run, Hins.
  eexists. split; [reflexivity|]. simpl. auto.
Qed.

Lemma telemetry_try_fails e body payload st :
  json_loads e body = Ret (VDict payload) ->
  let device_id := dict_get_default "device_id" VNone (prepared e payload) in
  insert_error (mongo e) <> None
  \/ (truthy device_id = true /\ hashable device_id = false) ->
  exists x s,
    _on_telemetry_try e body st = (Raise x, s)
    /\ telemetry_collection s = telemetry_collection st
    /\ events_collection s = events_collection st
    /\ _broadcast_queue s = _broadcast_queue st.
Proof.
  intros Hj device_id Hfail. unfold _on_telemetry_try.
  erewrite bind_ret_run by (unfold lift_result; rewrite Hj; reflexivity).
  erewrite bind_ret_run by reflexivity.
  cbv beta zeta.
  change (flatten_data (default_timestamp e payload)) with (prepared e payload).
  change (dict_get_default "device_id" VNone (prepared e payload)) with device_id.
  assert (Hstore : forall event s1 (k : value * dict -> M state unit),
            insert_error (mongo e) <> None ->
            exists x s,
              bind (TelemetryDAO.insert e event) k s1 = (Raise x, s)
              /\ telemetry_collection s = telemetry_collection s1
              /\ events_collection s = events_collection s1
              /\ _broadcast_queue s = _broadcast_queue s1).
  { intros event s1 k Hins. unfold bind. rewrite telemetry_insert_run.
    destruct (insert_error (mongo e)) as [x|]; [|contradiction].
    do 2 eexists. split; [reflexivity|]. simpl. auto. }
  destruct (truthy device_id) eqn:Ht.
  - destruct (hashable device_id) eqn:Hh.
    + destruct Hfail as [Hins|[_ Hc]]; [|discriminate].
      destruct (get_device_type_returns e device_id st Hh) as (v & s1 & Hg).
      destruct (get_device_type_frame _ _ _ _ _ Hg) as (Htel & Hev & Hq & _).
      erewrite bind_ret_run.
      2:{ erewrite bind_ret_run by exact Hg. reflexivity. }
      destruct (Hstore (dict_set "device_type" v (prepared e payload)) s1
                  (fun r => call_socketio_callback "telemetry" (snd r) ;;;
                            log Logging.INFO "Telemetry stored") Hins)
        as (x & s & Hrun & H1 & H2 & H3).
      exists x, s. split; [exact Hrun|]. split; [congruence|].
      split; congruence.
    + exists TypeError, st. split; [|auto].
      unfold bind, _get_device_type. rewrite Hh. reflexivity.
  - destruct Hfail as [Hins|[Hc _]]; [|discriminate].
    erewrite bind_ret_run by reflexivity.
    apply Hstore. exact Hins.
Qed.

(** A message that cannot be stored is acknowledged and lost.  When the
    store refuses the write, or when a telemetry message names its device
    by a value that cannot be a dictionary key (a non-empty list or
    object), the callback logs one error and acknowledges the delivery:
    neither collection changes, nothing is queued for broadcast, and the
    broker will not deliver the message again. *)
Theorem unstorable_message_is_acknowledged_and_lost
        (d : delivery) (st : state) (payload : dict) :
  json_loads (environment d) (body d) = Ret (VDict payload) ->
  let device_id :=
    dict_get_default "device_id" VNone (prepared (environment d) payload) in
  insert_error (mongo (environment d)) <> None
  \/ (queue d = TELEMETRY_QUEUE
      /\ truthy device_id = true /\ hashable device_id = false) ->
  exists st' t,
    on_message d st = (Ret tt, st')
    /\ trace st'
       = t ++ [Log (Logging.ERROR, error_message (queue d));
               BasicAck (delivery_tag d)]
    /\ acks (trace st') = acks (trace st) ++ [delivery_tag d]
    /\ telemetry_collection st' = telemetry_collection st
    /\ events_collection st' = events_collection st
    /\ _broadcast_queue st' = _broadcast_queue st.
Proof.
  intros Hj device_id Hfail.
  destruct (on_message_appends d st) as (st' & Hrun & Hacks & _).
  assert (Hbody : exists x s,
            (match queue d with
             | TELEMETRY_QUEUE => _on_telemetry_try (environment d) (body d)
             | DEVICE_EVENTS_QUEUE => _on_device_event_try (environment d) (body d)
             end) st = (Raise x, s)
            /\ telemetry_collection s = telemetry_collection st
            /\ events_collection s = events_collection st
            /\ _broadcast_queue s = _broadcast_queue st).
  { destruct (queue d) eqn:Hq.
    - apply (telemetry_try_fails _ _ payload); [exact Hj|].
      destruct Hfail as [H|(_ & H1 & H2)]; [now left|right; auto].
    - destruct Hfail as [H|(Hc & _)]; [|discriminate].
      destruct (insert_error (mongo (environment d))) as [x|] eqn:Hins;
        [|contradiction].
      exists x. now apply (device_event_try_fails _ _ payload). }
  destruct Hbody as (x & s & Hb & H1 & H2 & H3).
  assert (Hst : st' = emit (BasicAck (delivery_tag d))
                        (emit (Log (Logging.ERROR, error_message (queue d))) s)).
  { unfold on_message, _on_telemetry, _on_device_event in Hrun.
    destruct (queue d); rewrite handler_run, Hb in Hrun; now inversion Hrun. }
  exists st', (trace s). split; [exact Hrun|].
  rewrite Hst in Hacks |- *. simpl.
  split; [now rewrite <- app_assoc|]. split; [exact Hacks|auto].
Qed.

Lemma unstorable_message_is_acknowledged_and_lost_witness :
  exists st' t,
    on_message listed_id_delivery running = (Ret tt, st')
    /\ trace st' = t ++ [Log (Logging.ERROR, "Telemetry consumer error"); BasicAck 9]
    /\ telemetry_collection st' = []
    /\ Asyncio.items (_broadcast_queue st') = [].
Proof.
  destruct (unstorable_message_is_acknowledged_and_lost
              listed_id_delivery running [("device_id", VList [VInt 7])] eq_refl)
    as (st' & t & Hrun & Ht & _ & Htel & _ & Hq).
  - right. repeat split.
  - exists st', t. split; [exact Hrun|]. split; [exact Ht|].
    split; [exact Htel|]. now rewrite Hq.
Defined.

(** Telemetry consumed without a device id is stored; from then on the
    telemetry listing fails instead of answering, as long as the record
    is within the limit asked for. *)
Theorem telemetry_without_device_id_breaks_listing {P : Pydantic}
        e tag body payload st (limit : Z) :
  json_loads e body = Ret (VDict payload) ->
  dict_get "device_id" (prepared e payload) = None ->
  insert_error (mongo e) = None ->
  1 <= limit <= 1000 ->
  Z.of_nat (length (telemetry_collection st)) < limit ->
  exists st',
    _on_telemetry e tag body st = (Ret tt, st')
    /\ length (telemetry_collection st') = S (length (telemetry_collection st))
    /\ exists x,
         get_telemetry (telemetry_collection st') None None limit
         = InternalServerError x.
Proof.
  intros Hj Hdev Hins Hlim Hlen.
  destruct (telemetry_run e tag body payload st Hj) as (st' & event & Hrun & Hcoll & _ & Hev).
  { left. unfold dict_get_default. now rewrite Hdev. }
  { exact Hins. }
  unfold dict_get_default in Hev. rewrite Hdev in Hev. simpl in Hev. subst event.
  exists st'. split; [exact Hrun|].
  split; [rewrite Hcoll, length_app; simpl; lia|].
  unfold get_telemetry.
  destruct (Z.leb_spec 1 limit); [|lia].
  destruct (Z.leb_spec limit 1000); [|lia]. simpl.
  set (doc := with_id (mongo e) (ensure_timestamp e (prepared e payload))) in *.
  destruct (collect_raises TelemetryDAO.to_response
              (TelemetryDAO.get_all_cursor (telemetry_collection st') None None limit)
              doc) as [x Hx].
  - apply cursor_complete.
    + rewrite Hcoll, length_app. simpl. lia.
    + rewrite Hcoll. apply in_or_app. right. now left.
    + reflexivity.
  - intros r Hr.
    apply telemetry_to_response_fields in Hr as (_ & (v & Hd & _) & _).
    subst doc.
    rewrite with_id_other_keys, ensure_timestamp_other_keys in Hd by discriminate.
    congruence.
  - unfold TelemetryDAO.get_all. rewrite Hx. eauto.
Qed.

Lemma telemetry_without_device_id_breaks_listing_witness :
  exists st' x,
    _on_telemetry registry_down 8 anonymous_event_body running = (Ret tt, st')
    /\ get_telemetry (P := digits_only) (telemetry_collection st') None None 100 = InternalServerError x.
Proof.
  destruct (telemetry_without_device_id_breaks_listing (P := digits_only)
              registry_down 8 anonymous_event_body
              [("event_type", VStr "error")] running 100)
    as (st' & Hrun & _ & x & Hx); try reflexivity; try (simpl; lia).
  exists st', x. split; assumption.
Defined.

End LostMessages.

(** * The listings and their order *)

Section Listings.
Import Mongo Inputs EventsController TelemetryController.

(** Text that is not listed after a greater text is not older than it,
    as far as both are ISO timestamps. *)
Lemma leb_not_older s1 s2 : String.leb s2 s1 = true -> not_older s1 s2.
Proof.
  intros H d1 d2 V1 V2 -> ->. rewrite <- (isoformat_compare d1 d2 V1 V2).
  unfold String.leb in H. rewrite String.compare_antisym.
  destruct (String.compare (Datetime.isoformat d2) (Datetime.isoformat d1));
    simpl; congruence.
Qed.

Lemma sorted_most_recent_first {A} (f : A -> string) rs :
  StronglySorted (fun r1 r2 => String.leb (f r2) (f r1) = true) rs ->
  most_recent_first (map f rs).
Proof.
  unfold most_recent_first.
  induction 1 as [|r rs _ IH Hall]; simpl; constructor; [exact IH|].
  clear IH. induction Hall as [|r' rs' Hr _ IH']; simpl; constructor; auto.
  now apply leb_not_older.
Qed.

Lemma find_no_filter coll : find [] coll = coll.
Proof.
  unfold find. induction coll as [|doc coll IH]; simpl; [reflexivity|].
  now rewrite IH.
Qed.

Lemma unfiltered_cursor_length coll n :
  Z.of_nat (length coll) <= Z.abs n ->
  length (limit n (sort_desc "timestamp" (find [] coll))) = length coll.
Proof.
  intros Hn. rewrite find_no_filter, limit_all.
  - apply Permutation_length, sort_desc_perm.
  - now rewrite (Permutation_length (sort_desc_perm "timestamp" coll)).
Qed.

Lemma telemetry_device_filter {P : Pydantic} coll k device_type n rs r :
  k <> 0 ->
  TelemetryDAO.get_all coll (Some k) device_type n = Ret rs ->
  In r rs -> TelemetryDAO.device_id r = k.
Proof.
  intros Hk Hall Hr. apply collect_Forall2 in Hall.
  destruct (Forall2_In_r _ _ _ _ Hall Hr) as (doc & Hdoc & Hresp).
  apply cursor_In in Hdoc as [_ Hm].
  apply telemetry_to_response_fields in Hresp as (_ & (v & Hdev & Hread) & _).
  unfold TelemetryDAO.get_all_query in Hm. rewrite matches_app in Hm.
  apply andb_true_iff in Hm as [Hm _].
  destruct (Z.eqb_spec k 0) as [|_]; [contradiction|]. simpl in Hm.
  rewrite Hdev in Hm.
  apply andb_true_iff in Hm as [Hm _]. eapply matched_int_reads; eauto.
Qed.



(** The order is the one of the texts: the event stamped at noon in the
    format with a trailing Z is listed before the one stamped half a
    second later in the format of [isoformat()]. *)
Example get_events_lists_by_text :
  option_map (map EventsDAO.timestamp)
    (match get_events (P := digits_only) mixed_stamps None None 100 with
     | OK rs => Some rs
     | _ => None
     end)
  = Some ["2024-03-15T12:00:00Z"; "2024-03-15T12:00:00.500000"].
Proof. vm_compute. reflexivity. Qed.



(** [get_by_type] filters on the type it is given, the empty string
    included: every event returned has that type and comes from the
    store, and the events are ordered by descending timestamp text, most
    recent first among ISO timestamps. *)
Theorem get_by_type_contract {P : Pydantic} coll (event_type : string) (n : Z) rs :
  EventsDAO.get_by_type coll event_type n = Ret rs ->
  descending rs
  /\ most_recent_first (map EventsDAO.timestamp rs)
  /\ (n <> 0 -> Z.of_nat (length rs) <= Z.abs n)
  /\ forall r, In r rs ->
       EventsDAO.event_type r = event_type
       /\ exists doc, In doc coll /\ EventsDAO.to_response doc = Ret r.
Proof.
  intros Hall. apply collect_Forall2 in Hall.
  assert (Hdesc : descending rs).
  { eapply responses_descending; [|exact Hall].
    apply limit_sorted, sort_desc_sorted. }
  split; [exact Hdesc|]. split; [now apply sorted_most_recent_first|]. split.
  - intros Hn. rewrite <- (Forall2_length _ _ _ Hall). unfold limit.
    destruct (Z.eqb_spec n 0); [contradiction|]. rewrite length_firstn. lia.
  - intros r Hr. destruct (Forall2_In_r _ _ _ _ Hall Hr) as (doc & Hdoc & Hresp).
    apply cursor_In in Hdoc as [Hdoc Hm]. split; [|eauto].
    apply to_response_fields in Hresp as (_ & _ & Hty).
    unfold matches in Hm. simpl in Hm. apply andb_true_iff in Hm as [Hm _].
    unfold dict_get_default in Hty.
    destruct (dict_get "event_type" doc) as [v|]; [|discriminate].
    subst v. simpl in Hm. symmetry. now apply String.eqb_eq.
Qed.

Lemma get_by_type_contract_witness :
  exists rs,
    EventsDAO.get_by_type (P := digits_only) events_sample "alert" 100 = Ret rs
    /\ descending rs
    /\ most_recent_first (map EventsDAO.timestamp rs)
    /\ length rs = 2%nat
    /\ forall r, In r rs -> EventsDAO.event_type r = "alert".
Proof.
  destruct (EventsDAO.get_by_type (P := digits_only) events_sample "alert" 100)
    as [rs|] eqn:H; [|vm_compute in H; discriminate].
  exists rs.
  destruct (get_by_type_contract (P := digits_only) events_sample "alert" 100 rs H)
    as (Hs & Hrecent & _ & Hm).
  split; [reflexivity|]. split; [exact Hs|]. split; [exact Hrecent|]. split.
  - vm_compute in H. inversion H. reflexivity.
  - intros r Hr. apply (Hm r Hr).
Defined.

(** The telemetry endpoint: a limit outside [1, 1000] is rejected (422);
    otherwise, whenever the query answers, the result has at most [limit]
    records, ordered by descending timestamp text (most recent first
    among ISO timestamps), each built from a stored document, each of
    the device asked for (an id other than 0) and each with a
    [device_type] field matching the type asked for (other than the empty
    string).  It answers when every stored document has a response. *)
Theorem get_telemetry_contract {P : Pydantic}
        (coll : collection) (device_id : option Z)
        (device_type : option string) (limit : Z) :
  (limit < 1 \/ 1000 < limit ->
     get_telemetry coll device_id device_type limit = UnprocessableEntity)
  /\ (forall rs,
        get_telemetry coll device_id device_type limit = OK rs ->
        Z.of_nat (length rs) <= limit
        /\ descending_telemetry rs
        /\ most_recent_first (map TelemetryDAO.timestamp rs)
        /\ forall r, In r rs ->
             (exists doc, In doc coll /\ TelemetryDAO.to_response doc = Ret r)
             /\ (forall n, device_id = Some n -> n <> 0 ->
                           TelemetryDAO.device_id r = n)
             /\ (forall t, device_type = Some t -> t <> "" ->
                           field_matches (EqStr t)
                             (dict_get "device_type" (TelemetryDAO.extra r))
                           = true))
  /\ (1 <= limit <= 1000 ->
      Forall (fun doc => exists r, TelemetryDAO.to_response doc = Ret r) coll ->
      exists rs, get_telemetry coll device_id device_type limit = OK rs).
Proof.
  unfold get_telemetry. split; [|split].
  - intros [H|H].
    + destruct (Z.leb_spec 1 limit); [lia|]. reflexivity.
    + destruct (Z.leb_spec limit 1000); [lia|]. now rewrite andb_false_r.
  - intros rs H.
    destruct (Z.leb_spec 1 limit); [|discriminate].
    destruct (Z.leb_spec limit 1000); [|discriminate]. simpl in H.
    destruct (TelemetryDAO.get_all coll device_id device_type limit)
      as [rs'|] eqn:Hall; [|discriminate].
    inversion H; subst rs'; clear H.
    pose proof (collect_Forall2 _ _ _ Hall) as H2.
    assert (Hdesc : descending_telemetry rs).
    { eapply telemetry_responses_descending; [|exact H2].
      apply limit_sorted, sort_desc_sorted. }
    split; [|split; [|split]].
    + rewrite <- (Forall2_length _ _ _ H2).
      unfold TelemetryDAO.get_all_cursor. now apply limit_length.
    + exact Hdesc.
    + now apply sorted_most_recent_first.
    + intros r Hr.
      destruct (Forall2_In_r _ _ _ _ H2 Hr) as (doc & Hdoc & Hresp).
      apply cursor_In in Hdoc as [Hdoc Hm].
      split; [eauto|].
      pose proof (telemetry_to_response_fields _ _ Hresp)
        as (_ & _ & _ & _ & _ & _ & Hextra).
      split.
      * intros n -> Hn. eapply telemetry_device_filter; eauto.
      * intros t -> Ht.
        unfold TelemetryDAO.get_all_query in Hm. rewrite matches_app in Hm.
        apply andb_true_iff in Hm as [_ Hm2].
        destruct (String.eqb_spec t "") as [|_]; [contradiction|].
        simpl in Hm2. apply andb_true_iff in Hm2 as [Hm2 _].
        rewrite Hextra, popped_get. exact Hm2.
  - intros [H1 H2] Hwf.
    destruct (Z.leb_spec 1 limit); [|lia].
    destruct (Z.leb_spec limit 1000); [|lia]. simpl.
    destruct (collect_total TelemetryDAO.to_response
                (TelemetryDAO.get_all_cursor coll device_id device_type limit))
      as [rs Hrs].
    + apply Forall_forall. intros doc Hdoc.
      apply list_elem_of_In, cursor_In in Hdoc as [Hdoc _].
      rewrite Forall_forall in Hwf. now apply Hwf, list_elem_of_In.
    + unfold TelemetryDAO.get_all. rewrite Hrs. eauto.
Qed.

Lemma get_telemetry_contract_witness :
  exists rs,
    get_telemetry (P := digits_only)
      [[("_id", VObjectId "65f0"); ("device_id", VInt 7);
        ("timestamp", VStr "2024-03-15T12:00:00"); ("temperature", VInt 21)];
       [("_id", VObjectId "65f1"); ("device_id", VInt 8);
        ("timestamp", VStr "2024-03-15T12:05:00"); ("temperature", VInt 19)]]
      (Some 7) None 100 = OK rs
    /\ Z.of_nat (length rs) <= 100
    /\ forall r, In r rs -> TelemetryDAO.device_id r = 7.
Proof.
  match goal with |- exists rs, get_telemetry ?c ?d ?t ?l = _ /\ _ =>
    destruct (get_telemetry_contract (P := digits_only) c d t l)
      as (_ & Hok & Htotal) end.
  destruct Htotal as [rs Hrs].
  - lia.
  - repeat constructor; eexists; vm_compute; reflexivity.
  - exists rs. destruct (Hok rs Hrs) as (Hlen & _ & _ & Hmatch).
    repeat split; auto.
    intros r Hr. apply (Hmatch r Hr); [reflexivity | lia].
Defined.

End Listings.

(** * What a stored record carries *)

Section StoredTimes.
Import Mongo Monitoring RabbitMQConsumer RabbitMQPublisher Inputs.




End StoredTimes.
